(** * Data-collection frequency control: controller, configuration model, scheduler

    A shallow embedding of
    - [backend/models/base.py]                            ([BaseModel] and the validators),
    - [backend/models/collection_config.py]               ([CollectionConfig], [CollectionStatus]),
    - [backend/services/collection_frequency_service.py]  ([CollectionFrequencyService]),
    - [backend/services/collection_scheduler.py]          ([CollectionScheduler]),
    followed by the properties of the specification that concern them.

    Python objects are modelled as they are written: attribute bags are finite
    maps from attribute names to Python values, methods thread the object and
    the store explicitly, exceptions are a result constructor, and the
    controller's mutex is a flag whose second acquisition never returns. *)

From Stdlib Require Import ZArith Floats Bool Lia.
From stdpp Require Import gmap strings pretty list fin_maps.

Set Warnings "-inexact-float".
Local Open Scope Z_scope.

(* ===================================================================== *)
(** * Python values *)
(* ===================================================================== *)

(** The values that travel through the configuration code: [None], [bool],
    [int], [float] (IEEE binary64) and [str] (kept as its UTF-8 bytes). *)
Inductive pyval : Type :=
| PNone
| PBool (b : bool)
| PInt (z : Z)
| PFloat (f : float)
| PStr (s : string).

(** What the Python built-ins used by the code compute and that is not
    re-implemented here: [float(s)] on a [str] ([None] stands for the
    [ValueError] of a text that is no number) and [round(x, ndigits)]. *)
Class Builtins : Type := {
  float_of_str : string → option float;
  round_ndigits : float → Z → float
}.

(** [d.get(k)]: the value, or [None]. *)
Definition dict_get (d : gmap string pyval) (k : string) : pyval :=
  default PNone (d !! k).

Definition is_None (v : pyval) : bool :=
  match v with PNone => true | _ => false end.

(** [bool(v)] *)
Definition py_truthy (v : pyval) : bool :=
  match v with
  | PNone => false
  | PBool b => b
  | PInt z => negb (z =? 0)
  | PFloat f => negb (PrimFloat.eqb f 0)
  | PStr s => negb (String.eqb s "")
  end.

(** [isinstance(v, int)]: [bool] is a subclass of [int]. *)
Definition isinstance_int (v : pyval) : bool :=
  match v with PInt _ | PBool _ => true | _ => false end.

Definition isinstance_bool (v : pyval) : bool :=
  match v with PBool _ => true | _ => false end.

(** The integer an [int] (or [bool]) stands for in arithmetic and comparisons. *)
Definition int_value (v : pyval) : option Z :=
  match v with
  | PInt z => Some z
  | PBool b => Some (Z.b2z b)
  | _ => None
  end.

(** [float(z)] for an [int]: the nearest binary64 (ties to even); [None]
    when it is out of range ([OverflowError]). *)
Definition int_to_float (z : Z) : option float :=
  match binary_normalize prec emax z 0 false with
  | S754_infinity _ => None
  | sf => Some (SF2Prim sf)
  end.

Definition exact_spec_float (z : Z) : spec_float :=
  match z with
  | 0 => S754_zero false
  | Z.pos p => S754_finite false p 0
  | Z.neg p => S754_finite true p 0
  end.

(** [a / b] on two [int]s ([b] not zero): the correctly rounded quotient. *)
Definition int_truediv (a b : Z) : float :=
  SF2Prim (SFdiv prec emax (exact_spec_float a) (exact_spec_float b)).

(** The integer a finite float is equal to, if any. *)
Definition float_integral (f : float) : option Z :=
  match Prim2SF f with
  | S754_zero _ => Some 0
  | S754_finite s m e =>
      let v := if s then Z.neg m else Z.pos m in
      if 0 <=? e then Some (v * 2 ^ e)
      else if v mod 2 ^ (- e) =? 0 then Some (v / 2 ^ (- e)) else None
  | _ => None
  end.

Definition float_eq_int (f : float) (z : Z) : bool :=
  match float_integral f with
  | Some v => v =? z
  | None => false
  end.

(** [a == b]: numbers compare by value across [bool], [int] and [float]. *)
Definition py_eq (a b : pyval) : bool :=
  match a, b with
  | PNone, PNone => true
  | PStr s, PStr t => String.eqb s t
  | PFloat f, PFloat g => PrimFloat.eqb f g
  | PFloat f, _ => match int_value b with Some z => float_eq_int f z | None => false end
  | _, PFloat g => match int_value a with Some z => float_eq_int g z | None => false end
  | _, _ =>
      match int_value a, int_value b with
      | Some x, Some y => x =? y
      | _, _ => false
      end
  end.

Definition py_ne (a b : pyval) : bool := negb (py_eq a b).

(** [len(s)] of a [str]: its code points, that is the bytes of its UTF-8
    form that are no continuation byte (10xxxxxx). *)
Fixpoint py_len (s : string) : Z :=
  match s with
  | EmptyString => 0
  | String (Ascii.Ascii _ _ _ _ _ _ b6 b7) r =>
      (if b7 && negb b6 then 0 else 1) + py_len r
  end.

(** [len(str(v)) > 100].  The text of a [float] has at most 24 characters,
    that of [None], [True] and [False] four or five. *)
Definition str_longer_than_100 (v : pyval) : bool :=
  match v with
  | PStr s => 100 <? py_len s
  | PInt z => if z <? 0 then 10 ^ 99 <=? - z else 10 ^ 100 <=? z
  | _ => false
  end.

(* ===================================================================== *)
(** * Exceptions and outcomes *)
(* ===================================================================== *)

Inductive exn_class : Type :=
| ValidationError      (* models.base.ValidationError *)
| AttributeError
| TypeError
| ValueError
| ZeroDivisionError
| OverflowError
| IndexError
| KeyError
| DatabaseError.       (* what sqlite3 raises out of execute_query *)

(** An exception: its class and [str(e)]. *)
Record exn : Type := Exn { exn_class_of : exn_class; exn_text : string }.

Definition is_ValidationError (e : exn) : bool :=
  match exn_class_of e with ValidationError => true | _ => false end.

(** A computation without state that returns or raises. *)
Inductive result (A : Type) : Type :=
| Ok (a : A)
| Err (e : exn).
Arguments Ok {A} a.
Arguments Err {A} e.

(** A computation over a state [S]: it returns, raises, or blocks for ever
    on a lock that is never released. *)
Inductive outcome (S A : Type) : Type :=
| Returns (a : A) (s : S)
| Raises (e : exn) (s : S)
| Blocks (s : S).
Arguments Returns {S A} a s.
Arguments Raises {S A} e s.
Arguments Blocks {S A} s.

Definition M (S A : Type) : Type := S → outcome S A.

Definition ret {S A} (a : A) : M S A := λ s, Returns a s.

Definition raise {S A} (e : exn) : M S A := λ s, Raises e s.

Definition bind {S A B} (m : M S A) (k : A → M S B) : M S B :=
  λ s, match m s with
       | Returns a s' => k a s'
       | Raises e s' => Raises e s'
       | Blocks s' => Blocks s'
       end.

Notation "'let!' x ':=' m 'in' k" := (bind m (λ x, k))
  (at level 10, x name, m at level 100, k at level 200, only parsing).
Notation "m ';;;' k" := (bind m (λ _, k))
  (at level 100, k at level 200, right associativity, only parsing).

(** [try: m  except Exception as e: h e] *)
Definition try_except {S A} (m : M S A) (h : exn → M S A) : M S A :=
  λ s, match m s with
       | Raises e s' => h e s'
       | o => o
       end.

Definition of_result {S A} (r : result A) : M S A :=
  match r with Ok a => ret a | Err e => raise e end.

Definition get_state {S} : M S S := λ s, Returns s s.

Definition modify {S} (f : S → S) : M S unit := λ s, Returns tt (f s).

(** Runs [m] on the component [get s] of the state and writes it back with
    [set], also when [m] raises or blocks. *)
Definition zoom {S T A} (get : S → T) (set : T → S → S) (m : M T A) : M S A :=
  λ s, match m (get s) with
       | Returns a t => Returns a (set t s)
       | Raises e t => Raises e (set t s)
       | Blocks t => Blocks (set t s)
       end.

(* ===================================================================== *)
(** * The store *)
(* ===================================================================== *)

(** A table as this process writes it: its rows in insertion order, each row
    the column values bound by the statement that wrote it together with its
    [id], and the AUTOINCREMENT high-water mark. *)
Record table : Type := { rows : list (gmap string pyval); last_rowid : Z }.

(** The message column of the rows this code adds to [system_logs]. *)
Inductive config_change : Type :=
| SensorIntervalChanged (old new : pyval)   (* f"传感器间隔: {old}s → {new}s" *)
| RfidIntervalChanged (old new : pyval)     (* f"RFID间隔: {old}s → {new}s" *)
| CollectionStateChanged (paused : bool).   (* f"采集状态: {暂停 | 运行}" *)

Inductive log_message : Type :=
| ConfigChangeLog (action : string) (changes : list config_change)
    (* f"采集配置{action}: {', '.join(changes) if changes else '重置为默认值'}" *)
| StatusChangeLog (status : string).
    (* f'数据采集状态变更为: {status}' *)

Record log_row : Type := {
  log_level : string;
  log_module : string;
  log_text : log_message;
  log_user : string
}.

(** The store together with what the environment decides about it: whether
    the n-th statement raises ([sql_fault]), what it returns when it is a
    SELECT ([sql_rows]; the store is shared and an external collaborator),
    and what the n-th reading of the wall clock gives. *)
Record Store : Type := {
  tables : gmap string table;
  system_logs : list log_row;
  statements : nat;
  sql_fault : nat → option string;
  sql_rows : nat → list (gmap string pyval);
  clock_reads : nat;
  clock : nat → string
}.

Definition set_tables (f : gmap string table → gmap string table) (s : Store) : Store :=
  {| tables := f (tables s); system_logs := system_logs s;
     statements := statements s; sql_fault := sql_fault s; sql_rows := sql_rows s;
     clock_reads := clock_reads s; clock := clock s |}.

Definition set_system_logs (f : list log_row → list log_row) (s : Store) : Store :=
  {| tables := tables s; system_logs := f (system_logs s);
     statements := statements s; sql_fault := sql_fault s; sql_rows := sql_rows s;
     clock_reads := clock_reads s; clock := clock s |}.

Definition count_statement (s : Store) : Store :=
  {| tables := tables s; system_logs := system_logs s;
     statements := S (statements s); sql_fault := sql_fault s; sql_rows := sql_rows s;
     clock_reads := clock_reads s; clock := clock s |}.

Definition count_clock_read (s : Store) : Store :=
  {| tables := tables s; system_logs := system_logs s;
     statements := statements s; sql_fault := sql_fault s; sql_rows := sql_rows s;
     clock_reads := S (clock_reads s); clock := clock s |}.

(** [datetime.now().isoformat()] *)
Definition now_isoformat : M Store string :=
  λ s, Returns (clock s (clock_reads s)) (count_clock_read s).

(** [execute_query]: every statement first meets the environment's verdict;
    a statement that raises changes nothing. *)
Definition sql_begin : M Store nat :=
  λ s, match sql_fault s (statements s) with
       | Some text => Raises (Exn DatabaseError text) (count_statement s)
       | None => Returns (statements s) (count_statement s)
       end.

(** The rowid a value bound to the [id] column gives: [Some None] when the
    engine assigns it, [None] for a value it refuses.  A text key is outside
    the model (no object of this code carries one). *)
Definition sql_rowid (v : pyval) : option (option Z) :=
  match v with
  | PNone => Some None
  | PInt z => Some (Some z)
  | PBool b => Some (Some (Z.b2z b))
  | PFloat f => Some <$> float_integral f
  | PStr _ => None
  end.

Definition row_has_rowid (z : Z) (r : gmap string pyval) : bool :=
  match r !! "id" with
  | Some (PInt i) => i =? z
  | _ => false
  end.

(** [WHERE id = ?] *)
Definition row_matches (key : pyval) (r : gmap string pyval) : bool :=
  match sql_rowid key with
  | Some (Some z) => row_has_rowid z r
  | _ => false
  end.

(** [INSERT INTO tbl (columns of values) VALUES (...)], giving [cursor.lastrowid]. *)
Definition execute_insert (tbl : string) (values : gmap string pyval) : M Store pyval :=
  sql_begin ;;;
  let! s := get_state in
  match tables s !! tbl with
  | None => raise (Exn DatabaseError ("no such table: " +:+ tbl))
  | Some t =>
      match sql_rowid (dict_get values "id") with
      | None => raise (Exn DatabaseError "datatype mismatch")
      | Some key =>
          let rowid := match key with Some z => z | None => last_rowid t + 1 end in
          if existsb (row_has_rowid rowid) (rows t)
          then raise (Exn DatabaseError ("UNIQUE constraint failed: " +:+ tbl +:+ ".id"))
          else
            modify (set_tables (insert tbl
              {| rows := rows t ++ [<["id" := PInt rowid]> values];
                 last_rowid := Z.max (last_rowid t) rowid |})) ;;;
            ret (PInt rowid)
      end
  end.

(** [UPDATE tbl SET (columns of changed) WHERE id = key] *)
Definition execute_update (tbl : string) (changed : gmap string pyval) (key : pyval)
  : M Store unit :=
  sql_begin ;;;
  let! s := get_state in
  match tables s !! tbl with
  | None => raise (Exn DatabaseError ("no such table: " +:+ tbl))
  | Some t =>
      modify (set_tables (insert tbl
        {| rows := (λ r, if row_matches key r then changed ∪ r else r) <$> rows t;
           last_rowid := last_rowid t |}))
  end.

(** [DELETE FROM tbl WHERE id = key]; the AUTOINCREMENT mark stays. *)
Definition execute_delete (tbl : string) (key : pyval) : M Store unit :=
  sql_begin ;;;
  let! s := get_state in
  match tables s !! tbl with
  | None => raise (Exn DatabaseError ("no such table: " +:+ tbl))
  | Some t =>
      modify (set_tables (insert tbl
        {| rows := List.filter (λ r, negb (row_matches key r)) (rows t);
           last_rowid := last_rowid t |}))
  end.

(** [SELECT ...]: the rows the environment answers with. *)
Definition execute_select : M Store (list (gmap string pyval)) :=
  let! n := sql_begin in
  let! s := get_state in
  ret (sql_rows s n).

(** [INSERT INTO system_logs (log_level, module, message, user_id) VALUES (?, ?, ?, ?)] *)
Definition insert_system_log (row : log_row) : M Store unit :=
  sql_begin ;;;
  modify (set_system_logs (λ l, l ++ [row])).

(* ===================================================================== *)
(** * models/base.py *)
(* ===================================================================== *)

Module BaseModel.

(** An instance: [self.data] and [self._original_data]. *)
Record obj : Type := { data : gmap string pyval; original_data : gmap string pyval }.

(** A method runs on its instance and the store; what it did to the instance
    before raising stays done. *)
Definition Meth (A : Type) : Type := M (obj * Store) A.

(** What the generic code needs of a subclass: its name, its [table_name]
    and its constructor [cls] applied to the keyword arguments. *)
Record pyclass : Type := {
  class_name : string;
  table_name : string;
  construct : gmap string pyval → M Store obj
}.

(** [BaseModel.__init__] *)
Definition __init__ (kwargs : gmap string pyval) : obj :=
  {| data := kwargs; original_data := kwargs |}.

Definition on_store {A} (m : M Store A) : Meth A :=
  zoom snd (λ st (s : obj * Store), (s.1, st)) m.

Definition self_data : Meth (gmap string pyval) :=
  λ s, Returns (data s.1) s.

Definition set_data (f : gmap string pyval → gmap string pyval) : Meth unit :=
  modify (λ s : obj * Store,
            ({| data := f (data s.1); original_data := original_data s.1 |}, s.2)).

(** [self._original_data = self.data.copy()] *)
Definition copy_to_original : Meth unit :=
  modify (λ s : obj * Store,
            ({| data := data s.1; original_data := data s.1 |}, s.2)).

(** [BaseModel.__getattr__] *)
Definition getattr_result (cls_name : string) (d : gmap string pyval) (name : string)
  : result pyval :=
  match d !! name with
  | Some v => Ok v
  | None =>
      Err (Exn AttributeError
             ("'" +:+ cls_name +:+ "' object has no attribute '" +:+ name +:+ "'"))
  end.

(** [BaseModel.__setattr__] for a name that is none of the instance's own slots *)
Definition setattr (name : string) (v : pyval) : Meth unit :=
  set_data (insert name v).

Section Generic.
Context (cls : pyclass).

(** [BaseModel.create] *)
Definition create (kwargs : gmap string pyval) : M Store obj :=
  let! kwargs1 :=
    match kwargs !! "created_at" with
    | None => let! t := now_isoformat in ret (<["created_at" := PStr t]> kwargs)
    | Some _ => ret kwargs
    end in
  let! record_id := execute_insert (table_name cls) kwargs1 in
  construct cls (<["id" := record_id]> kwargs1).

(** [BaseModel._insert(self)] *)
Definition _insert : Meth bool :=
  let! d := self_data in
  match d !! "created_at" with
  | None => let! t := on_store now_isoformat in setattr "created_at" (PStr t)
  | Some _ => ret tt
  end ;;;
  let! d := self_data in
  let! record_id := on_store (execute_insert (table_name cls) d) in
  set_data (insert "id" record_id) ;;;
  copy_to_original ;;;
  ret true.

(** The fields [_update] writes: those, the key apart, whose value differs
    from [self._original_data.get(key)]. *)
Definition changed_fields (o : obj) : gmap string pyval :=
  map_imap (λ key value,
              if negb (String.eqb key "id") && py_ne value (dict_get (original_data o) key)
              then Some value else None)
           (data o).

(** [BaseModel._update(self)] *)
Definition _update : Meth bool :=
  let! s := get_state in
  let changed := changed_fields s.1 in
  if decide (changed = ∅) then ret true
  else
    let! changed :=
      match changed !! "updated_at" with
      | None =>
          let! t := on_store now_isoformat in
          set_data (insert "updated_at" (PStr t)) ;;;
          ret (<["updated_at" := PStr t]> changed)
      | Some _ => ret changed
      end in
    let! d := self_data in
    on_store (execute_update (table_name cls) changed (dict_get d "id")) ;;;
    copy_to_original ;;;
    ret true.

(** [BaseModel.save(self)]: update when the instance carries a key, insert
    otherwise. *)
Definition save : Meth bool :=
  let! d := self_data in
  if match d !! "id" with Some v => py_truthy v | None => false end
  then _update
  else _insert.

(** [BaseModel.delete(self)]: refused for an instance without a key. *)
Definition delete : Meth bool :=
  let! d := self_data in
  if match d !! "id" with Some v => py_truthy v | None => false end
  then on_store (execute_delete (table_name cls) (dict_get d "id")) ;;; ret true
  else raise (Exn ValueError "无法删除未保存的记录").

End Generic.

(** The separator-joined text of [', '.join(l)]. *)
Fixpoint join_comma (l : list string) : string :=
  match l with
  | [] => ""
  | [x] => x
  | x :: r => x +:+ ", " +:+ join_comma r
  end.

(** [validate_required_fields(data, required_fields)] *)
Definition validate_required_fields (d : gmap string pyval) (required : list string)
  : result unit :=
  let missing :=
    List.filter (λ field, match d !! field with
                          | None => true
                          | Some v => is_None v || py_eq v (PStr "")
                          end) required in
  match missing with
  | [] => Ok tt
  | _ => Err (Exn ValidationError ("缺少必填字段: " +:+ join_comma missing))
  end.

Section Numeric.
Context `{Builtins}.

(** [float(v)] *)
Definition py_float (v : pyval) : result float :=
  match v with
  | PBool b => Ok (if b then 1%float else 0%float)
  | PInt z =>
      match int_to_float z with
      | Some f => Ok f
      | None => Err (Exn OverflowError "int too large to convert to float")
      end
  | PFloat f => Ok f
  | PStr s =>
      match float_of_str s with
      | Some f => Ok f
      | None => Err (Exn ValueError ("could not convert string to float: '" +:+ s +:+ "'"))
      end
  | PNone =>
      Err (Exn TypeError "float() argument must be a string or a real number, not 'NoneType'")
  end.

(** The float an integer bound of a range stands for in a comparison. *)
Definition bound (z : Z) : float := SF2Prim (binary_normalize prec emax z 0 false).

(** One field of [validate_numeric_range]. *)
Definition validate_range_of (d : gmap string pyval) (field : string) (min_val max_val : Z)
  : result unit :=
  match d !! field with
  | Some v =>
      if is_None v then Ok tt
      else
        match py_float v with
        | Ok value =>
            if PrimFloat.ltb value (bound min_val) || PrimFloat.ltb (bound max_val) value
            then Err (Exn ValidationError
                        ("字段 " +:+ field +:+ " 值超出范围 (" +:+ pretty min_val
                         +:+ " - " +:+ pretty max_val +:+ ")"))
            else Ok tt
        | Err e =>
            match exn_class_of e with
            | ValueError | TypeError =>
                Err (Exn ValidationError ("字段 " +:+ field +:+ " 必须是数值类型"))
            | _ => Err e
            end
        end
  | None => Ok tt
  end.

(** [validate_numeric_range(data, field_ranges)] *)
Fixpoint validate_numeric_range (d : gmap string pyval)
    (field_ranges : list (string * (Z * Z))) : result unit :=
  match field_ranges with
  | [] => Ok tt
  | (field, (min_val, max_val)) :: rest =>
      match validate_range_of d field min_val max_val with
      | Ok _ => validate_numeric_range d rest
      | Err e => Err e
      end
  end.

End Numeric.

End BaseModel.

(* ===================================================================== *)
(** * models/collection_config.py *)
(* ===================================================================== *)

(** The estimate [get_performance_impact] returns. *)
Record performance_impact : Type := {
  sensorLoad : float;
  rfidLoad : float;
  totalLoad : float;
  estimatedCpuUsage : pyval;
  estimatedMemoryMB : float;
  performanceLevel : string;
  warning : option string
}.

(** The payload [to_api_dict] returns. *)
Record api_dict : Type := {
  id : pyval;
  sensorInterval : pyval;
  rfidInterval : pyval;
  isPaused : pyval;
  updatedBy : pyval;
  createdAt : pyval;
  updatedAt : pyval;
  performanceImpact : performance_impact
}.

(** [a / v] for an [int] constant [a] *)
Definition int_truediv_by (a : Z) (v : pyval) : result float :=
  match v with
  | PInt z =>
      if z =? 0 then Err (Exn ZeroDivisionError "division by zero")
      else Ok (int_truediv a z)
  | PBool b =>
      if b then Ok (int_truediv a 1)
      else Err (Exn ZeroDivisionError "division by zero")
  | PFloat f =>
      if PrimFloat.eqb f 0 then Err (Exn ZeroDivisionError "float division by zero")
      else Ok (PrimFloat.div (BaseModel.bound a) f)
  | PNone => Err (Exn TypeError "unsupported operand type(s) for /: 'int' and 'NoneType'")
  | PStr _ => Err (Exn TypeError "unsupported operand type(s) for /: 'int' and 'str'")
  end.

(** [min(x, 100)] for a float [x]: the first argument unless the second is smaller. *)
Definition min_with_100 (x : float) : pyval :=
  if PrimFloat.ltb 100 x then PInt 100 else PFloat x.

Module CollectionConfig.

Definition DEFAULT_SENSOR_INTERVAL : Z := 30.
Definition DEFAULT_RFID_INTERVAL : Z := 10.
Definition MIN_SENSOR_INTERVAL : Z := 1.
Definition MAX_SENSOR_INTERVAL : Z := 300.
Definition MIN_RFID_INTERVAL : Z := 1.
Definition MAX_RFID_INTERVAL : Z := 60.

(** [if key not in kwargs: kwargs[key] = value] *)
Definition setdefault (key : string) (value : pyval) (kwargs : gmap string pyval)
  : gmap string pyval :=
  match kwargs !! key with
  | None => <[key := value]> kwargs
  | Some _ => kwargs
  end.

(** [CollectionConfig.__init__] *)
Definition __init__ (kwargs : gmap string pyval) : BaseModel.obj :=
  BaseModel.__init__
    (setdefault "updated_by" (PStr "system")
       (setdefault "is_paused" (PBool true)
          (setdefault "rfid_interval" (PInt DEFAULT_RFID_INTERVAL)
             (setdefault "sensor_interval" (PInt DEFAULT_SENSOR_INTERVAL) kwargs)))).

Definition cls : BaseModel.pyclass :=
  {| BaseModel.class_name := "CollectionConfig";
     BaseModel.table_name := "collection_configs";
     BaseModel.construct := λ kwargs, ret (__init__ kwargs) |}.

Definition getattr (d : gmap string pyval) (name : string) : result pyval :=
  BaseModel.getattr_result (BaseModel.class_name cls) d name.

(** [CollectionConfig.get_performance_impact] *)
Definition get_performance_impact (d : gmap string pyval) : result performance_impact :=
  match getattr d "sensor_interval" with
  | Err e => Err e
  | Ok sensor_interval =>
  match int_truediv_by 60 sensor_interval with
  | Err e => Err e
  | Ok sensor_load =>
  match getattr d "rfid_interval" with
  | Err e => Err e
  | Ok rfid_interval =>
  match int_truediv_by 60 rfid_interval with
  | Err e => Err e
  | Ok rfid_load =>
      let estimated_cpu_usage := ((sensor_load * 0.5 + rfid_load * 1.0) / 100)%float in
      let estimated_memory_mb := (sensor_load * 0.1 + rfid_load * 0.2)%float in
      let total_load := (sensor_load + rfid_load)%float in
      let level_warning :=
        if PrimFloat.ltb 20 total_load
        then ("high", Some "采集频率较高，可能影响系统性能")
        else if PrimFloat.ltb 10 total_load
        then ("medium", Some "采集频率适中，注意监控系统性能")
        else ("low", None) in
      Ok {| sensorLoad := sensor_load;
            rfidLoad := rfid_load;
            totalLoad := total_load;
            estimatedCpuUsage := min_with_100 estimated_cpu_usage;
            estimatedMemoryMB := estimated_memory_mb;
            performanceLevel := level_warning.1;
            warning := level_warning.2 |}
  end end end end.

(** [CollectionConfig.to_api_dict] *)
Definition to_api_dict (d : gmap string pyval) : result api_dict :=
  match getattr d "sensor_interval" with
  | Err e => Err e
  | Ok sensor_interval =>
  match getattr d "rfid_interval" with
  | Err e => Err e
  | Ok rfid_interval =>
  match getattr d "is_paused" with
  | Err e => Err e
  | Ok is_paused =>
  match getattr d "updated_by" with
  | Err e => Err e
  | Ok updated_by =>
  match get_performance_impact d with
  | Err e => Err e
  | Ok impact =>
      Ok {| id := dict_get d "id";
            sensorInterval := sensor_interval;
            rfidInterval := rfid_interval;
            isPaused := is_paused;
            updatedBy := updated_by;
            createdAt := dict_get d "created_at";
            updatedAt := dict_get d "updated_at";
            performanceImpact := impact |}
  end end end end end.

(** [CollectionConfig.get_recommended_config]: the two intervals it names. *)
Definition get_recommended_config : Z * Z := (30, 15).

Section WithBuiltins.
Context `{Builtins}.

(** [CollectionConfig.validate] *)
Definition validate (d : gmap string pyval) : result unit :=
  match BaseModel.validate_required_fields d ["sensor_interval"; "rfid_interval"] with
  | Err e => Err e
  | Ok _ =>
  match BaseModel.validate_numeric_range d
          [("sensor_interval", (MIN_SENSOR_INTERVAL, MAX_SENSOR_INTERVAL));
           ("rfid_interval", (MIN_RFID_INTERVAL, MAX_RFID_INTERVAL))] with
  | Err e => Err e
  | Ok _ =>
      if match d !! "is_paused" with Some v => negb (isinstance_bool v) | None => false end
      then Err (Exn ValidationError "is_paused 必须是布尔值")
      else if match d !! "updated_by" with Some v => str_longer_than_100 v | None => false end
      then Err (Exn ValidationError "updated_by 字段长度不能超过100字符")
      else Ok tt
  end end.

(** [CollectionConfig.save]: validate, then [BaseModel.save]. *)
Definition save : BaseModel.Meth bool :=
  let! d := BaseModel.self_data in
  of_result (validate d) ;;;
  BaseModel.save cls.

(** [CollectionConfig.create]: the instance built from the arguments is
    validated, the arguments as given are inserted. *)
Definition create (kwargs : gmap string pyval) : M Store BaseModel.obj :=
  of_result (validate (BaseModel.data (__init__ kwargs))) ;;;
  BaseModel.create cls kwargs.

(** [BaseModel.find_all] for this class *)
Definition find_all : M Store (list BaseModel.obj) :=
  let! results := execute_select in
  ret (__init__ <$> results).

(** [CollectionConfig.get_current_config]: the first row of
    [ORDER BY updated_at DESC LIMIT 1], [None] when there is none or the
    query raises. *)
Definition get_current_config : M Store (option BaseModel.obj) :=
  try_except (let! configs := find_all in ret (head configs))
             (λ _, ret None).

(** [CollectionConfig.get_or_create_default] *)
Definition get_or_create_default : M Store BaseModel.obj :=
  let! current_config := get_current_config in
  match current_config with
  | Some c => ret c
  | None =>
      create (<["sensor_interval" := PInt DEFAULT_SENSOR_INTERVAL]>
             (<["rfid_interval" := PInt DEFAULT_RFID_INTERVAL]>
             (<["is_paused" := PBool false]>
             (<["updated_by" := PStr "system"]> ∅))))
  end.

(** [if value is not None: self.name = value] *)
Definition set_if_given (name : string) (value : pyval) : BaseModel.Meth unit :=
  if is_None value then ret tt else BaseModel.setattr name value.

(** [CollectionConfig.update_config] *)
Definition update_config (sensor_interval rfid_interval is_paused : pyval)
    (updated_by : string) : BaseModel.Meth bool :=
  set_if_given "sensor_interval" sensor_interval ;;;
  set_if_given "rfid_interval" rfid_interval ;;;
  set_if_given "is_paused" is_paused ;;;
  BaseModel.setattr "updated_by" (PStr updated_by) ;;;
  let! t := BaseModel.on_store now_isoformat in
  BaseModel.setattr "updated_at" (PStr t) ;;;
  save.

(** [CollectionConfig.pause_collection] *)
Definition pause_collection (updated_by : string) : BaseModel.Meth bool :=
  update_config PNone PNone (PBool true) updated_by.

(** [CollectionConfig.resume_collection] *)
Definition resume_collection (updated_by : string) : BaseModel.Meth bool :=
  update_config PNone PNone (PBool false) updated_by.

(** [CollectionConfig.reset_to_default] *)
Definition reset_to_default (updated_by : string) : BaseModel.Meth bool :=
  update_config (PInt DEFAULT_SENSOR_INTERVAL) (PInt DEFAULT_RFID_INTERVAL)
                (PBool false) updated_by.

(** [CollectionConfig.get_config_history]: the rows of
    [ORDER BY updated_at DESC LIMIT limit], or [[]] when the query raises. *)
Definition get_config_history : M Store (list BaseModel.obj) :=
  try_except find_all (λ _, ret []).

End WithBuiltins.

End CollectionConfig.

(** [lo <= v] and [v <= hi], [v < hi] for an [int] constant and a value *)
Definition int_le_py (lo : Z) (v : pyval) : result bool :=
  match v with
  | PInt _ | PBool _ => Ok (lo <=? default 0 (int_value v))
  | PFloat f => Ok (PrimFloat.leb (BaseModel.bound lo) f)
  | _ => Err (Exn TypeError "'<=' not supported between instances of 'int' and that type")
  end.

Definition py_le_int (v : pyval) (hi : Z) : result bool :=
  match v with
  | PInt _ | PBool _ => Ok (default 0 (int_value v) <=? hi)
  | PFloat f => Ok (PrimFloat.leb f (BaseModel.bound hi))
  | _ => Err (Exn TypeError "'<=' not supported between instances of that type and 'int'")
  end.

Definition py_lt_int (v : pyval) (hi : Z) : result bool :=
  match v with
  | PInt _ | PBool _ => Ok (default 0 (int_value v) <? hi)
  | PFloat f => Ok (PrimFloat.ltb f (BaseModel.bound hi))
  | _ => Err (Exn TypeError "'<' not supported between instances of that type and 'int'")
  end.

Module CollectionStatus.

(** [CollectionStatus.__init__]: the timestamp defaults to the clock. *)
Definition __init__ (kwargs : gmap string pyval) : M Store BaseModel.obj :=
  let! kwargs1 :=
    match kwargs !! "timestamp" with
    | None => let! t := now_isoformat in ret (<["timestamp" := PStr t]> kwargs)
    | Some _ => ret kwargs
    end in
  ret (BaseModel.__init__ (CollectionConfig.setdefault "is_running" (PBool false) kwargs1)).

Definition cls : BaseModel.pyclass :=
  {| BaseModel.class_name := "CollectionStatus";
     BaseModel.table_name := "collection_status";
     BaseModel.construct := __init__ |}.

(** [CollectionStatus.validate] *)
Definition validate (d : gmap string pyval) : result unit :=
  match BaseModel.validate_required_fields d ["is_running"] with
  | Err e => Err e
  | Ok _ =>
      if negb (isinstance_bool (dict_get d "is_running"))
      then Err (Exn ValidationError "is_running 必须是布尔值")
      else
        match
          (let cpu := dict_get d "cpu_usage" in
           if is_None cpu then Ok tt
           else match int_le_py 0 cpu with
                | Err e => Err e
                | Ok false => Err (Exn ValidationError "cpu_usage 必须在 0-100 范围内")
                | Ok true =>
                    match py_le_int cpu 100 with
                    | Err e => Err e
                    | Ok false => Err (Exn ValidationError "cpu_usage 必须在 0-100 范围内")
                    | Ok true => Ok tt
                    end
                end)
        with
        | Err e => Err e
        | Ok _ =>
            let mem := dict_get d "memory_usage" in
            if is_None mem then Ok tt
            else match py_lt_int mem 0 with
                 | Err e => Err e
                 | Ok true => Err (Exn ValidationError "memory_usage 不能为负数")
                 | Ok false => Ok tt
                 end
        end
  end.

(** [CollectionStatus.create] *)
Definition create (kwargs : gmap string pyval) : M Store BaseModel.obj :=
  let! instance := __init__ kwargs in
  of_result (validate (BaseModel.data instance)) ;;;
  BaseModel.create cls kwargs.

(** [CollectionStatus.record_status]; the two datetimes arrive as their
    [isoformat()] or [None]. *)
Definition record_status (is_running : bool)
    (sensor_last_collection rfid_last_collection cpu_usage memory_usage error_message : pyval)
  : M Store BaseModel.obj :=
  create (<["is_running" := PBool is_running]>
         (<["sensor_last_collection" := sensor_last_collection]>
         (<["rfid_last_collection" := rfid_last_collection]>
         (<["cpu_usage" := cpu_usage]>
         (<["memory_usage" := memory_usage]>
         (<["error_message" := error_message]> ∅)))))).

End CollectionStatus.

(* ===================================================================== *)
(** * The process: controller, scheduler, store *)
(* ===================================================================== *)

(** The listeners registered with the controller are arbitrary callables;
    their types are left open. *)
Class Callbacks : Type := {
  config_callback : Type;
  status_callback : Type
}.

(** One entry of the scheduler's [_collection_errors]. *)
Record error_info : Type := {
  err_type : string;
  err_message : string;
  err_timestamp : string
}.

Record sensor_info : Type := {
  location : string;
  base_temp : float;
  base_humidity : float;
  base_light : float
}.

Record rfid_device_info : Type := {
  device_name : string;
  device_location : string;
  device_status : string
}.

(** A job of the background scheduler: the seconds of its interval trigger
    and the count of [add_job] calls at which it was added, which fixes the
    phase of its ticks. *)
Record job : Type := { trigger_seconds : pyval; added_at : nat }.

Section Process.
Context `{Builtins} `{Callbacks}.

(** [CollectionFrequencyService]: the mutex (held or not), the cached
    configuration and the two listener lists.  After the constructor
    [_current_config] is always an instance, so the guards
    [if not self._current_config] are never taken and are left out. *)
Record Service : Type := {
  _lock : bool;
  _current_config : BaseModel.obj;
  _config_change_callbacks : list config_callback;
  _status_change_callbacks : list status_callback
}.

(** [CollectionScheduler] *)
Record Scheduler : Type := {
  is_running : bool;
  scheduler_lock : bool;
  _sensor_last_collection : option string;
  _rfid_last_collection : option string;
  _collection_errors : list error_info;
  jobs : gmap string job;
  jobs_added : nat;
  mock_sensors : list (string * sensor_info);
  mock_rfid_devices : list (Z * rfid_device_info)
}.

(** The whole process, with the draws of the random generator the
    environment decides. *)
Record World : Type := {
  store : Store;
  frequency_service : Service;
  collection_scheduler : Scheduler;
  random_draws : nat;
  random_float : nat → float;
  random_index : nat → nat
}.

Definition set_store (st : Store) (w : World) : World :=
  {| store := st; frequency_service := frequency_service w;
     collection_scheduler := collection_scheduler w;
     random_draws := random_draws w; random_float := random_float w;
     random_index := random_index w |}.

Definition set_service (f : Service → Service) (w : World) : World :=
  {| store := store w; frequency_service := f (frequency_service w);
     collection_scheduler := collection_scheduler w;
     random_draws := random_draws w; random_float := random_float w;
     random_index := random_index w |}.

Definition set_scheduler (f : Scheduler → Scheduler) (w : World) : World :=
  {| store := store w; frequency_service := frequency_service w;
     collection_scheduler := f (collection_scheduler w);
     random_draws := random_draws w; random_float := random_float w;
     random_index := random_index w |}.

Definition count_random_draw (w : World) : World :=
  {| store := store w; frequency_service := frequency_service w;
     collection_scheduler := collection_scheduler w;
     random_draws := S (random_draws w); random_float := random_float w;
     random_index := random_index w |}.

Definition in_store {A} (m : M Store A) : M World A := zoom store set_store m.

End Process.

(** What calling a registered listener does to the process: anything, and it
    may raise, or block when it calls back into a locked component. *)
Class Dispatch `{Callbacks} : Type := {
  call_config_callback : config_callback → api_dict → api_dict → M World unit;
  call_status_callback : status_callback → string → string → M World unit
}.

(** What the scheduling library decides about [IntervalTrigger(seconds=v)].
    It builds [timedelta(seconds=v)] and a first run time from the present
    date, and raises for a value it cannot take: [TypeError] for what is no
    number, [ValueError] for NaN, [OverflowError] for an infinity and for an
    interval or a date out of range.  [None] stands for a trigger that is
    built. *)
Class Triggers `{Callbacks} : Type := {
  interval_trigger_error : pyval → World → option exn
}.

(** The dictionaries the public operations answer with. *)
Record reply : Type := {
  success : bool;
  message : string;
  config : option api_dict;
  status : option string
}.

(** What [validate_config] answers with. *)
Record validation_report : Type := {
  valid : bool;
  errors : list string;
  warnings : list string;
  report_impact : option performance_impact
}.

(* ===================================================================== *)
(** * services/collection_frequency_service.py *)
(* ===================================================================== *)

Module CollectionFrequencyService.

Section Controller.
Context `{Builtins} `{Callbacks} `{!Dispatch}.

Definition set_lock (b : bool) (s : Service) : Service :=
  {| _lock := b; _current_config := _current_config s;
     _config_change_callbacks := _config_change_callbacks s;
     _status_change_callbacks := _status_change_callbacks s |}.

Definition set_current_config (c : BaseModel.obj) (s : Service) : Service :=
  {| _lock := _lock s; _current_config := c;
     _config_change_callbacks := _config_change_callbacks s;
     _status_change_callbacks := _status_change_callbacks s |}.

(** [with self._lock: body].  [threading.Lock] is not re-entrant: acquiring
    it while it is held waits for a release, and when the holder is the
    caller itself none ever comes. *)
Definition with_lock {A} (body : M World A) : M World A :=
  λ w, if _lock (frequency_service w) then Blocks w
       else match body (set_service (set_lock true) w) with
            | Returns a w' => Returns a (set_service (set_lock false) w')
            | Raises e w' => Raises e (set_service (set_lock false) w')
            | Blocks w' => Blocks w'
            end.

(** A method of the cached configuration object, run in the process. *)
Definition on_current_config {A} (m : BaseModel.Meth A) : M World A :=
  zoom (λ w, (_current_config (frequency_service w), store w))
       (λ os w, set_service (set_current_config os.1) (set_store os.2 w))
       m.

(** [self._current_config.to_api_dict()] *)
Definition current_api_dict : M World api_dict :=
  let! w := get_state in
  of_result (CollectionConfig.to_api_dict (BaseModel.data (_current_config (frequency_service w)))).

(** The dictionary [get_current_config] falls back to. *)
Definition default_api_dict : api_dict :=
  {| id := PNone;
     sensorInterval := PInt CollectionConfig.DEFAULT_SENSOR_INTERVAL;
     rfidInterval := PInt CollectionConfig.DEFAULT_RFID_INTERVAL;
     isPaused := PBool false;
     updatedBy := PStr "system";
     createdAt := PNone;
     updatedAt := PNone;
     performanceImpact :=
       {| sensorLoad := 2.0; rfidLoad := 6.0; totalLoad := 8.0;
          estimatedCpuUsage := PFloat 3.5; estimatedMemoryMB := 1.4;
          performanceLevel := "low"; warning := None |} |}.

(** [CollectionFrequencyService.get_current_config] *)
Definition get_current_config : M World api_dict :=
  try_except (with_lock current_api_dict) (λ _, ret default_api_dict).

(** [CollectionFrequencyService._log_config_change] *)
Definition _log_config_change (old_config new_config : api_dict) (updated_by action : string)
  : M World unit :=
  try_except
    (let changes :=
       (if py_ne (sensorInterval old_config) (sensorInterval new_config)
        then [SensorIntervalChanged (sensorInterval old_config) (sensorInterval new_config)]
        else [])
       ++ (if py_ne (rfidInterval old_config) (rfidInterval new_config)
           then [RfidIntervalChanged (rfidInterval old_config) (rfidInterval new_config)]
           else [])
       ++ (if py_ne (isPaused old_config) (isPaused new_config)
           then [CollectionStateChanged (py_truthy (isPaused new_config))]
           else []) in
     if negb (Nat.eqb (length changes) 0) || String.eqb action "reset"
     then in_store (insert_system_log
            {| log_level := "INFO"; log_module := "collection_frequency_service";
               log_text := ConfigChangeLog action changes; log_user := updated_by |})
     else ret tt)
    (λ _, ret tt).

(** [CollectionFrequencyService._record_status_change] *)
Definition _record_status_change (status updated_by : string) : M World unit :=
  try_except
    (in_store (CollectionStatus.record_status (String.eqb status "running")
                 PNone PNone PNone PNone
                 (if String.eqb status "running" || String.eqb status "paused"
                  then PNone else PStr ("状态变更为: " +:+ status))) ;;;
     in_store (insert_system_log
       {| log_level := "INFO"; log_module := "collection_frequency_service";
          log_text := StatusChangeLog status; log_user := updated_by |}))
    (λ _, ret tt).

(** [for callback in callbacks: try: callback(...) except Exception: log] *)
Fixpoint for_each_callback {C} (call : C → M World unit) (callbacks : list C)
  : M World unit :=
  match callbacks with
  | [] => ret tt
  | callback :: rest =>
      try_except (call callback) (λ _, ret tt) ;;;
      for_each_callback call rest
  end.

(** [CollectionFrequencyService._notify_config_change_callbacks] *)
Definition _notify_config_change_callbacks (old_config new_config : api_dict)
  : M World unit :=
  with_lock
    (let! w := get_state in
     for_each_callback (λ callback, call_config_callback callback old_config new_config)
                       (_config_change_callbacks (frequency_service w))).

(** [CollectionFrequencyService._notify_status_change_callbacks] *)
Definition _notify_status_change_callbacks (status updated_by : string) : M World unit :=
  with_lock
    (let! w := get_state in
     for_each_callback (λ callback, call_status_callback callback status updated_by)
                       (_status_change_callbacks (frequency_service w))).

(** [CollectionFrequencyService.add_config_change_callback] *)
Definition add_config_change_callback (callback : config_callback) : M World unit :=
  with_lock (modify (set_service (λ s,
    {| _lock := _lock s; _current_config := _current_config s;
       _config_change_callbacks := _config_change_callbacks s ++ [callback];
       _status_change_callbacks := _status_change_callbacks s |}))).

(** [CollectionFrequencyService.add_status_change_callback] *)
Definition add_status_change_callback (callback : status_callback) : M World unit :=
  with_lock (modify (set_service (λ s,
    {| _lock := _lock s; _current_config := _current_config s;
       _config_change_callbacks := _config_change_callbacks s;
       _status_change_callbacks := _status_change_callbacks s ++ [callback] |}))).

(** The range check of [update_config] on one interval:
    [not isinstance(v, int) or v < lo or v > hi]. *)
Definition interval_rejected (v : pyval) (lo hi : Z) : bool :=
  match int_value v with
  | Some z => (z <? lo) || (hi <? z)
  | None => true
  end.

Definition sensor_range_message : string :=
  "传感器采集间隔必须在 " +:+ pretty CollectionConfig.MIN_SENSOR_INTERVAL +:+ "-"
  +:+ pretty CollectionConfig.MAX_SENSOR_INTERVAL +:+ " 秒之间".

Definition rfid_range_message : string :=
  "RFID扫描间隔必须在 " +:+ pretty CollectionConfig.MIN_RFID_INTERVAL +:+ "-"
  +:+ pretty CollectionConfig.MAX_RFID_INTERVAL +:+ " 秒之间".

(** The validation [update_config] performs before it takes the lock. *)
Definition check_config_data (sensor_interval rfid_interval is_paused : pyval)
  : result unit :=
  if negb (is_None sensor_interval)
     && interval_rejected sensor_interval CollectionConfig.MIN_SENSOR_INTERVAL
                          CollectionConfig.MAX_SENSOR_INTERVAL
  then Err (Exn ValidationError sensor_range_message)
  else if negb (is_None rfid_interval)
          && interval_rejected rfid_interval CollectionConfig.MIN_RFID_INTERVAL
                               CollectionConfig.MAX_RFID_INTERVAL
  then Err (Exn ValidationError rfid_range_message)
  else if negb (is_None is_paused) && negb (isinstance_bool is_paused)
  then Err (Exn ValidationError "暂停状态必须是布尔值")
  else Ok tt.

(** [CollectionFrequencyService.update_config] *)
Definition update_config (config_data : gmap string pyval) (updated_by : string)
  : M World reply :=
  try_except
    (let sensor_interval := dict_get config_data "sensorInterval" in
     let rfid_interval := dict_get config_data "rfidInterval" in
     let is_paused := dict_get config_data "isPaused" in
     of_result (check_config_data sensor_interval rfid_interval is_paused) ;;;
     with_lock
       (let! old_config := current_api_dict in
        let! ok := on_current_config
                     (CollectionConfig.update_config sensor_interval rfid_interval
                                                     is_paused updated_by) in
        if ok : bool then
          let! new_config := current_api_dict in
          _log_config_change old_config new_config updated_by "update" ;;;
          _notify_config_change_callbacks old_config new_config ;;;
          ret {| success := true; message := "配置更新成功";
                 config := Some new_config; status := None |}
        else
          ret {| success := false; message := "配置更新失败";
                 config := Some old_config; status := None |}))
    (λ e,
       let! current := get_current_config in
       ret {| success := false;
              message := if is_ValidationError e then exn_text e
                         else "配置更新失败: " +:+ exn_text e;
              config := Some current; status := None |}).

(** [CollectionFrequencyService.pause_collection] *)
Definition pause_collection (updated_by : string) : M World reply :=
  try_except
    (with_lock
       (let! w := get_state in
        let! is_paused :=
          of_result (CollectionConfig.getattr
                       (BaseModel.data (_current_config (frequency_service w))) "is_paused") in
        if py_truthy is_paused then
          ret {| success := true; message := "数据采集已处于暂停状态";
                 config := None; status := Some "paused" |}
        else
          let! ok := on_current_config (CollectionConfig.pause_collection updated_by) in
          if ok : bool then
            _record_status_change "paused" updated_by ;;;
            _notify_status_change_callbacks "paused" updated_by ;;;
            ret {| success := true; message := "数据采集已暂停";
                   config := None; status := Some "paused" |}
          else
            ret {| success := false; message := "暂停数据采集失败";
                   config := None; status := Some "unknown" |}))
    (λ e, ret {| success := false; message := "暂停失败: " +:+ exn_text e;
                 config := None; status := Some "error" |}).

(** [CollectionFrequencyService.resume_collection] *)
Definition resume_collection (updated_by : string) : M World reply :=
  try_except
    (with_lock
       (let! w := get_state in
        let! is_paused :=
          of_result (CollectionConfig.getattr
                       (BaseModel.data (_current_config (frequency_service w))) "is_paused") in
        if negb (py_truthy is_paused) then
          ret {| success := true; message := "数据采集已在运行中";
                 config := None; status := Some "running" |}
        else
          let! ok := on_current_config (CollectionConfig.resume_collection updated_by) in
          if ok : bool then
            _record_status_change "running" updated_by ;;;
            _notify_status_change_callbacks "running" updated_by ;;;
            ret {| success := true; message := "数据采集已恢复";
                   config := None; status := Some "running" |}
          else
            ret {| success := false; message := "恢复数据采集失败";
                   config := None; status := Some "unknown" |}))
    (λ e, ret {| success := false; message := "恢复失败: " +:+ exn_text e;
                 config := None; status := Some "error" |}).

(** [CollectionFrequencyService.reset_to_default] *)
Definition reset_to_default (updated_by : string) : M World reply :=
  try_except
    (with_lock
       (let! old_config := current_api_dict in
        let! ok := on_current_config (CollectionConfig.reset_to_default updated_by) in
        if ok : bool then
          let! new_config := current_api_dict in
          _log_config_change old_config new_config updated_by "reset" ;;;
          _notify_config_change_callbacks old_config new_config ;;;
          ret {| success := true; message := "配置已重置为默认值";
                 config := Some new_config; status := None |}
        else
          ret {| success := false; message := "重置配置失败";
                 config := Some old_config; status := None |}))
    (λ e,
       let! current := get_current_config in
       ret {| success := false; message := "重置失败: " +:+ exn_text e;
              config := Some current; status := None |}).

(** One interval of [validate_config]: its errors and its warnings. *)
Definition interval_findings (v : pyval) (lo hi short_below : Z)
    (not_an_int too_small too_large too_short : string) : list string * list string :=
  if is_None v then ([], [])
  else match int_value v with
       | None => ([not_an_int], [])
       | Some z =>
           if z <? lo then ([too_small], [])
           else if hi <? z then ([too_large], [])
           else if z <? short_below then ([], [too_short])
           else ([], [])
       end.

(** [CollectionFrequencyService.validate_config] *)
Definition validate_config (config_data : gmap string pyval) : validation_report :=
  let sensor_interval := dict_get config_data "sensorInterval" in
  let rfid_interval := dict_get config_data "rfidInterval" in
  let is_paused := dict_get config_data "isPaused" in
  let sensor :=
    interval_findings sensor_interval
      CollectionConfig.MIN_SENSOR_INTERVAL CollectionConfig.MAX_SENSOR_INTERVAL 10
      "传感器采集间隔必须是整数"
      ("传感器采集间隔不能小于 " +:+ pretty CollectionConfig.MIN_SENSOR_INTERVAL +:+ " 秒")
      ("传感器采集间隔不能大于 " +:+ pretty CollectionConfig.MAX_SENSOR_INTERVAL +:+ " 秒")
      "传感器采集间隔过短可能影响系统性能" in
  let rfid :=
    interval_findings rfid_interval
      CollectionConfig.MIN_RFID_INTERVAL CollectionConfig.MAX_RFID_INTERVAL 5
      "RFID扫描间隔必须是整数"
      ("RFID扫描间隔不能小于 " +:+ pretty CollectionConfig.MIN_RFID_INTERVAL +:+ " 秒")
      ("RFID扫描间隔不能大于 " +:+ pretty CollectionConfig.MAX_RFID_INTERVAL +:+ " 秒")
      "RFID扫描间隔过短可能影响系统性能" in
  let paused_errors :=
    if negb (is_None is_paused) && negb (isinstance_bool is_paused)
    then ["暂停状态必须是布尔值"] else [] in
  let errors := sensor.1 ++ rfid.1 ++ paused_errors in
  let warnings := sensor.2 ++ rfid.2 in
  if py_truthy sensor_interval && py_truthy rfid_interval then
    match CollectionConfig.get_performance_impact
            (BaseModel.data
               (CollectionConfig.__init__
                  (<["sensor_interval" := sensor_interval]>
                  (<["rfid_interval" := rfid_interval]> ∅)))) with
    | Ok impact =>
        {| valid := Nat.eqb (length errors) 0;
           errors := errors;
           warnings :=
             warnings ++
             (if String.eqb (performanceLevel impact) "high"
              then [default "采集频率较高，可能影响系统性能" (warning impact)] else []);
           report_impact := Some impact |}
    | Err e =>
        {| valid := false; errors := ["验证失败: " +:+ exn_text e];
           warnings := []; report_impact := None |}
    end
  else
    {| valid := Nat.eqb (length errors) 0; errors := errors; warnings := warnings;
       report_impact := None |}.

(** [[config.to_api_dict() for config in history_configs]]: the payloads in
    order, or the first exception. *)
Fixpoint to_api_dicts (history_configs : list BaseModel.obj) : result (list api_dict) :=
  match history_configs with
  | [] => Ok []
  | c :: rest =>
      match CollectionConfig.to_api_dict (BaseModel.data c) with
      | Err e => Err e
      | Ok payload =>
          match to_api_dicts rest with
          | Err e => Err e
          | Ok payloads => Ok (payload :: payloads)
          end
      end
  end.

(** [CollectionFrequencyService.get_config_history] *)
Definition get_config_history : M World (list api_dict) :=
  try_except
    (let! history_configs := in_store CollectionConfig.get_config_history in
     of_result (to_api_dicts history_configs))
    (λ _, ret []).

(** [CollectionFrequencyService._load_current_config] *)
Definition _load_current_config : M World unit :=
  try_except
    (with_lock
       (let! c := in_store CollectionConfig.get_or_create_default in
        modify (set_service (set_current_config c))))
    (λ _, with_lock (modify (set_service (set_current_config (CollectionConfig.__init__ ∅))))).

(** The controller the constructor leaves: unlocked, no listener, the
    configuration loaded from the store or created. *)
Definition new_service (st : Store) : Service * Store :=
  match CollectionConfig.get_or_create_default st with
  | Returns c st' =>
      ({| _lock := false; _current_config := c;
          _config_change_callbacks := []; _status_change_callbacks := [] |}, st')
  | Raises _ st' | Blocks st' =>
      ({| _lock := false; _current_config := CollectionConfig.__init__ ∅;
          _config_change_callbacks := []; _status_change_callbacks := [] |}, st')
  end.

End Controller.

End CollectionFrequencyService.

(* ===================================================================== *)
(** * The domain records a tick writes (models/environment.py, rfid.py, archive.py) *)
(* ===================================================================== *)

Module EnvironmentData.

(** [EnvironmentData.__init__] *)
Definition __init__ (kwargs : gmap string pyval) : M Store BaseModel.obj :=
  match kwargs !! "timestamp" with
  | None => let! t := now_isoformat in
            ret (BaseModel.__init__ (<["timestamp" := PStr t]> kwargs))
  | Some _ => ret (BaseModel.__init__ kwargs)
  end.

Definition cls : BaseModel.pyclass :=
  {| BaseModel.class_name := "EnvironmentData";
     BaseModel.table_name := "environment_data";
     BaseModel.construct := __init__ |}.

End EnvironmentData.

Module LocationHistory.

(** [LocationHistory.__init__] *)
Definition __init__ (kwargs : gmap string pyval) : M Store BaseModel.obj :=
  let kwargs1 := CollectionConfig.setdefault "action_type" (PStr "scan") kwargs in
  match kwargs1 !! "timestamp" with
  | None => let! t := now_isoformat in
            ret (BaseModel.__init__ (<["timestamp" := PStr t]> kwargs1))
  | Some _ => ret (BaseModel.__init__ kwargs1)
  end.

Definition cls : BaseModel.pyclass :=
  {| BaseModel.class_name := "LocationHistory";
     BaseModel.table_name := "location_history";
     BaseModel.construct := __init__ |}.

End LocationHistory.

Module Archive.

(** [Archive.__init__] *)
Definition __init__ (kwargs : gmap string pyval) : BaseModel.obj :=
  BaseModel.__init__
    (CollectionConfig.setdefault "category" (PStr "文件档案")
       (CollectionConfig.setdefault "status" (PStr "normal") kwargs)).

(** [Archive.find_one("archive_code = ?", [code])] *)
Definition find_one : M Store (option BaseModel.obj) :=
  let! results := execute_select in
  ret (head (__init__ <$> results)).

End Archive.

Module RfidTag.

(** [RfidTag.__init__] *)
Definition __init__ (kwargs : gmap string pyval) : BaseModel.obj :=
  BaseModel.__init__
    (CollectionConfig.setdefault "tag_type" (PStr "档案标签")
       (CollectionConfig.setdefault "status" (PStr "active") kwargs)).

Definition cls : BaseModel.pyclass :=
  {| BaseModel.class_name := "RfidTag";
     BaseModel.table_name := "rfid_tags";
     BaseModel.construct := λ kwargs, ret (__init__ kwargs) |}.

Definition getattr (d : gmap string pyval) (name : string) : result pyval :=
  BaseModel.getattr_result (BaseModel.class_name cls) d name.

(** [RfidTag.get_active_tags] *)
Definition get_active_tags : M Store (list BaseModel.obj) :=
  let! results := execute_select in
  ret (__init__ <$> results).

(** [RfidTag._get_archive_id_by_tag] *)
Definition _get_archive_id_by_tag : BaseModel.Meth pyval :=
  let! d := BaseModel.self_data in
  let! archive_id := of_result (getattr d "archive_id") in
  if negb (py_truthy archive_id) then ret PNone
  else
    let! archive := BaseModel.on_store Archive.find_one in
    match archive with
    | Some a => of_result (BaseModel.getattr_result "Archive" (BaseModel.data a) "id")
    | None => ret PNone
    end.

(** [RfidTag.update_location] *)
Definition update_location (location : string) (device_id : Z) : BaseModel.Meth unit :=
  BaseModel.setattr "last_seen_location" (PStr location) ;;;
  let! t1 := BaseModel.on_store now_isoformat in
  BaseModel.setattr "last_seen_time" (PStr t1) ;;;
  let! t2 := BaseModel.on_store now_isoformat in
  BaseModel.setattr "updated_at" (PStr t2) ;;;
  BaseModel.save cls ;;;
  let! d := BaseModel.self_data in
  let! archive_id := of_result (getattr d "archive_id") in
  if py_truthy archive_id then
    try_except
      (let! found := _get_archive_id_by_tag in
       BaseModel.on_store
         (BaseModel.create LocationHistory.cls
            (<["archive_id" := found]>
            (<["rfid_device_id" := PInt device_id]>
            (<["location" := PStr location]>
            (<["action_type" := PStr "scan"]> ∅))))) ;;;
       ret tt)
      (λ _, ret tt)
  else ret tt.

End RfidTag.

(** What the two forced collections answer with. *)
Record forced_reply : Type := {
  forced_success : bool;
  forced_message : string;
  forced_timestamp : string
}.

(* ===================================================================== *)
(** * services/collection_scheduler.py *)
(* ===================================================================== *)

Module CollectionScheduler.

Section Scheduling.
Context `{Builtins} `{Callbacks} `{!Dispatch} `{!Triggers}.

Definition set_scheduler_lock (b : bool) (s : Scheduler) : Scheduler :=
  {| is_running := is_running s; scheduler_lock := b;
     _sensor_last_collection := _sensor_last_collection s;
     _rfid_last_collection := _rfid_last_collection s;
     _collection_errors := _collection_errors s;
     jobs := jobs s; jobs_added := jobs_added s;
     mock_sensors := mock_sensors s; mock_rfid_devices := mock_rfid_devices s |}.

Definition set_sensor_last_collection (t : option string) (s : Scheduler) : Scheduler :=
  {| is_running := is_running s; scheduler_lock := scheduler_lock s;
     _sensor_last_collection := t;
     _rfid_last_collection := _rfid_last_collection s;
     _collection_errors := _collection_errors s;
     jobs := jobs s; jobs_added := jobs_added s;
     mock_sensors := mock_sensors s; mock_rfid_devices := mock_rfid_devices s |}.

Definition set_rfid_last_collection (t : option string) (s : Scheduler) : Scheduler :=
  {| is_running := is_running s; scheduler_lock := scheduler_lock s;
     _sensor_last_collection := _sensor_last_collection s;
     _rfid_last_collection := t;
     _collection_errors := _collection_errors s;
     jobs := jobs s; jobs_added := jobs_added s;
     mock_sensors := mock_sensors s; mock_rfid_devices := mock_rfid_devices s |}.

Definition set_collection_errors (f : list error_info → list error_info) (s : Scheduler)
  : Scheduler :=
  {| is_running := is_running s; scheduler_lock := scheduler_lock s;
     _sensor_last_collection := _sensor_last_collection s;
     _rfid_last_collection := _rfid_last_collection s;
     _collection_errors := f (_collection_errors s);
     jobs := jobs s; jobs_added := jobs_added s;
     mock_sensors := mock_sensors s; mock_rfid_devices := mock_rfid_devices s |}.

(** [self.scheduler.add_job(..., id=job_id, replace_existing=True)] *)
Definition add_job (job_id : string) (seconds : pyval) (s : Scheduler) : Scheduler :=
  {| is_running := is_running s; scheduler_lock := scheduler_lock s;
     _sensor_last_collection := _sensor_last_collection s;
     _rfid_last_collection := _rfid_last_collection s;
     _collection_errors := _collection_errors s;
     jobs := <[job_id := {| trigger_seconds := seconds; added_at := jobs_added s |}]> (jobs s);
     jobs_added := S (jobs_added s);
     mock_sensors := mock_sensors s; mock_rfid_devices := mock_rfid_devices s |}.

(** [self.scheduler.remove_job(job_id)] *)
Definition remove_job (job_id : string) (s : Scheduler) : Scheduler :=
  {| is_running := is_running s; scheduler_lock := scheduler_lock s;
     _sensor_last_collection := _sensor_last_collection s;
     _rfid_last_collection := _rfid_last_collection s;
     _collection_errors := _collection_errors s;
     jobs := delete job_id (jobs s); jobs_added := jobs_added s;
     mock_sensors := mock_sensors s; mock_rfid_devices := mock_rfid_devices s |}.

(** [with self._lock: body] on the scheduler's own lock *)
Definition with_lock {A} (body : M World A) : M World A :=
  λ w, if scheduler_lock (collection_scheduler w) then Blocks w
       else match body (set_scheduler (set_scheduler_lock true) w) with
            | Returns a w' => Returns a (set_scheduler (set_scheduler_lock false) w')
            | Raises e w' => Raises e (set_scheduler (set_scheduler_lock false) w')
            | Blocks w' => Blocks w'
            end.

(** [IntervalTrigger(seconds=v)]: the trigger of every [v] seconds, unless
    the library raises. *)
Definition interval_trigger (v : pyval) : M World pyval :=
  λ w, match interval_trigger_error v w with
       | Some e => Raises e w
       | None => Returns v w
       end.

(** [CollectionScheduler._schedule_collection_jobs]: the trigger of a job is
    built before the job is added, so a trigger that cannot be built leaves
    the jobs added before it and adds none after. *)
Definition _schedule_collection_jobs (cfg : api_dict) : M World unit :=
  let! sensor_seconds := interval_trigger (sensorInterval cfg) in
  modify (set_scheduler (add_job "sensor_collection" sensor_seconds)) ;;;
  let! rfid_seconds := interval_trigger (rfidInterval cfg) in
  modify (set_scheduler (add_job "rfid_scanning" rfid_seconds)).

(** [if self.scheduler.get_job(job_id): self.scheduler.remove_job(job_id)] *)
Definition remove_if_present (job_id : string) : M World unit :=
  let! w := get_state in
  match jobs (collection_scheduler w) !! job_id with
  | Some _ => modify (set_scheduler (remove_job job_id))
  | None => ret tt
  end.

(** [CollectionScheduler._reschedule_collection_jobs] *)
Definition _reschedule_collection_jobs (cfg : api_dict) : M World unit :=
  remove_if_present "sensor_collection" ;;;
  remove_if_present "rfid_scanning" ;;;
  _schedule_collection_jobs cfg.

(** The [update_data] dictionary of [update_intervals] *)
Definition update_data_of (sensor_interval rfid_interval : pyval) : gmap string pyval :=
  let d := if is_None sensor_interval then ∅ else <["sensorInterval" := sensor_interval]> ∅ in
  if is_None rfid_interval then d else <["rfidInterval" := rfid_interval]> d.

(** [CollectionScheduler.update_intervals] *)
Definition update_intervals (sensor_interval rfid_interval : pyval) : M World reply :=
  try_except
    (with_lock
       (let! w := get_state in
        if negb (is_running (collection_scheduler w)) then
          ret {| success := false; message := "数据采集未运行，无法更新间隔";
                 config := None; status := Some "stopped" |}
        else
          let! current := CollectionFrequencyService.get_current_config in
          let update_data := update_data_of sensor_interval rfid_interval in
          if decide (update_data = ∅) then
            ret {| success := true; message := "无需更新";
                   config := Some current; status := Some "running" |}
          else
            let! result := CollectionFrequencyService.update_config update_data "scheduler" in
            if negb (success result) then ret result
            else
              match config result with
              | None => raise (Exn KeyError "'config'")
              | Some new_config =>
                  _reschedule_collection_jobs new_config ;;;
                  ret {| success := true; message := "采集间隔更新成功";
                         config := Some new_config; status := Some "running" |}
              end))
    (λ e, ret {| success := false; message := "更新失败: " +:+ exn_text e;
                 config := None; status := Some "error" |}).

(** [random.random()] *)
Definition random_random : M World float :=
  λ w, Returns (random_float w (random_draws w)) (count_random_draw w).

(** [random.uniform(a, b)], that is [a + (b - a) * random()] *)
Definition random_uniform (a b : float) : M World float :=
  let! r := random_random in
  ret (a + (b - a) * r)%float.

(** [random.choice(seq)] *)
Definition random_choice {A} (seq : list A) : M World A :=
  λ w, match seq !! (random_index w (random_draws w) `mod` length seq)%nat with
       | Some x => Returns x (count_random_draw w)
       | None => Raises (Exn IndexError "Cannot choose from an empty sequence") w
       end.

(** [min(a, b)] and [max(a, b)] on floats: the first argument unless the
    second is strictly beyond it. *)
Definition float_min (a b : float) : float := if PrimFloat.ltb b a then b else a.
Definition float_max (a b : float) : float := if PrimFloat.ltb a b then b else a.

(** The body of the loop of [_collect_sensor_data] for one sensor *)
Definition collect_one_sensor (sensor_id : string) (info : sensor_info) : M World unit :=
  let! dt := random_uniform (-2.0) 2.0 in
  let! dh := random_uniform (-5.0) 5.0 in
  let! dl := random_uniform (-50.0) 50.0 in
  let temperature := float_max 15.0 (float_min 30.0 (base_temp info + dt)) in
  let humidity := float_max 30.0 (float_min 70.0 (base_humidity info + dh)) in
  let light_intensity := float_max 50.0 (float_min 600.0 (base_light info + dl)) in
  let! t := in_store now_isoformat in
  in_store (BaseModel.create EnvironmentData.cls
    (<["sensor_id" := PStr sensor_id]>
    (<["temperature" := PFloat (round_ndigits temperature 1)]>
    (<["humidity" := PFloat (round_ndigits humidity 1)]>
    (<["light_intensity" := PFloat (round_ndigits light_intensity 0)]>
    (<["location" := PStr (location info)]>
    (<["timestamp" := PStr t]> ∅))))))) ;;;
  ret tt.

Fixpoint collect_all_sensors (sensors : list (string * sensor_info)) : M World unit :=
  match sensors with
  | [] => ret tt
  | (sensor_id, info) :: rest =>
      collect_one_sensor sensor_id info ;;; collect_all_sensors rest
  end.

(** [[err for err in errors if not err.get('type') == job_type]] *)
Definition without_errors_of (job_type : string) (l : list error_info) : list error_info :=
  List.filter (λ err, negb (String.eqb (err_type err) job_type)) l.

(** The [try] block of [_collect_sensor_data] *)
Definition collect_sensor_data_body : M World unit :=
  let! w := get_state in
  collect_all_sensors (mock_sensors (collection_scheduler w)) ;;;
  let! t := in_store now_isoformat in
  modify (set_scheduler (set_sensor_last_collection (Some t))) ;;;
  modify (set_scheduler (set_collection_errors (without_errors_of "sensor"))).

(** The [except] block of a tick: one entry for the failure *)
Definition record_error (job_type : string) (e : exn) : M World unit :=
  let! t := in_store now_isoformat in
  modify (set_scheduler (set_collection_errors (λ l,
    l ++ [{| err_type := job_type; err_message := exn_text e; err_timestamp := t |}]))).

(** [CollectionScheduler._collect_sensor_data] *)
Definition _collect_sensor_data : M World unit :=
  try_except collect_sensor_data_body (record_error "sensor").

(** A method of a tag object held in a local variable *)
Definition on_tag {A} (tag : BaseModel.obj) (m : BaseModel.Meth A)
  : M World (A * BaseModel.obj) :=
  λ w, match m (tag, store w) with
       | Returns a os => Returns (a, os.1) (set_store os.2 w)
       | Raises e os => Raises e (set_store os.2 w)
       | Blocks os => Blocks (set_store os.2 w)
       end.

(** The [try] block of [_scan_rfid_devices] *)
Definition scan_rfid_devices_body : M World unit :=
  let! r := random_random in
  (if PrimFloat.ltb r 0.3 then
     let! active_tags := in_store RfidTag.get_active_tags in
     match active_tags with
     | [] => ret tt
     | _ =>
         let! w := get_state in
         let! tag := random_choice active_tags in
         let! device := random_choice (mock_rfid_devices (collection_scheduler w)) in
         let! updated := on_tag tag (RfidTag.update_location (device_location device.2) device.1) in
         of_result (RfidTag.getattr (BaseModel.data updated.2) "tag_id") ;;;
         ret tt
     end
   else ret tt) ;;;
  let! t := in_store now_isoformat in
  modify (set_scheduler (set_rfid_last_collection (Some t))) ;;;
  modify (set_scheduler (set_collection_errors (without_errors_of "rfid"))).

(** [CollectionScheduler._scan_rfid_devices] *)
Definition _scan_rfid_devices : M World unit :=
  try_except scan_rfid_devices_body (record_error "rfid").

(** [CollectionScheduler.force_collect_sensor_data] *)
Definition force_collect_sensor_data : M World forced_reply :=
  try_except
    (_collect_sensor_data ;;;
     let! t := in_store now_isoformat in
     ret {| forced_success := true; forced_message := "传感器数据采集完成";
            forced_timestamp := t |})
    (λ e, let! t := in_store now_isoformat in
          ret {| forced_success := false; forced_message := "采集失败: " +:+ exn_text e;
                 forced_timestamp := t |}).

(** [CollectionScheduler.force_scan_rfid_devices] *)
Definition force_scan_rfid_devices : M World forced_reply :=
  try_except
    (_scan_rfid_devices ;;;
     let! t := in_store now_isoformat in
     ret {| forced_success := true; forced_message := "RFID设备扫描完成";
            forced_timestamp := t |})
    (λ e, let! t := in_store now_isoformat in
          ret {| forced_success := false; forced_message := "扫描失败: " +:+ exn_text e;
                 forced_timestamp := t |}).

End Scheduling.

End CollectionScheduler.

(* ===================================================================== *)
(** * Vocabulary of the statements *)
(* ===================================================================== *)

(** The state an outcome ends in. *)
Definition final {S A} (o : outcome S A) : S :=
  match o with
  | Returns _ s | Raises _ s | Blocks s => s
  end.

(** The rows of a table of the store. *)
Definition rows_of (tbl : string) (st : Store) : list (gmap string pyval) :=
  match tables st !! tbl with
  | Some t => rows t
  | None => []
  end.

(** The persisted configuration rows. *)
Definition config_rows (st : Store) : list (gmap string pyval) :=
  rows_of "collection_configs" st.

(** The instance carries a key: [BaseModel.save] will update, not insert. *)
Definition has_key (o : BaseModel.obj) : bool :=
  match BaseModel.data o !! "id" with
  | Some v => py_truthy v
  | None => false
  end.

(** The attribute bag after the assignments of [CollectionConfig.update_config],
    [t] being the clock reading stored as [updated_at]. *)
Definition assign (name : string) (v : pyval) (d : gmap string pyval) : gmap string pyval :=
  if is_None v then d else <[name := v]> d.

Definition attempted (sensor_interval rfid_interval is_paused : pyval)
    (updated_by t : string) (d : gmap string pyval) : gmap string pyval :=
  <["updated_at" := PStr t]>
    (<["updated_by" := PStr updated_by]>
       (assign "is_paused" is_paused
          (assign "rfid_interval" rfid_interval
             (assign "sensor_interval" sensor_interval d)))).

(** A sequence of calls of [CollectionConfig.update_config] on one instance,
    each with its four arguments. *)
Fixpoint update_all `{Builtins} (calls : list (pyval * pyval * pyval * string))
  : BaseModel.Meth unit :=
  match calls with
  | [] => ret tt
  | (sensor_interval, rfid_interval, is_paused, updated_by) :: rest =>
      CollectionConfig.update_config sensor_interval rfid_interval is_paused updated_by ;;;
      update_all rest
  end.

(** The error entries of one job type. *)
Definition errors_of (job_type : string) (l : list error_info) : list error_info :=
  List.filter (λ err, String.eqb (err_type err) job_type) l.


(** What an [UPDATE ... WHERE id = key] does to one row. *)
Definition overwrite (key : pyval) (changed r : gmap string pyval) : gmap string pyval :=
  if row_matches key r then changed ∪ r else r.

(** [r'] is the row [r] after some writes keyed by [key]: the row keeps its
    identity, and it keeps its contents unless it is the row of that key. *)
Definition same_row_unless (key : pyval) (r r' : gmap string pyval) : Prop :=
  r' !! "id" = r !! "id" ∧ (row_matches key r = false → r' = r).

(** The value a Python value stands for. Numbers are taken by value across
    [bool], [int] and [float]: [1], [True] and [1.0] stand for the same. *)
Inductive denotation : Type :=
| DNone
| DStr (s : string)
| DInt (z : Z)
| DFloat (f : spec_float).

Definition denote (v : pyval) : denotation :=
  match v with
  | PNone => DNone
  | PStr s => DStr s
  | PInt z => DInt z
  | PBool b => DInt (Z.b2z b)
  | PFloat f =>
      match float_integral f with
      | Some z => DInt z
      | None => DFloat (Prim2SF f)
      end
  end.

(** The rows of the key of the instance [o] hold the attributes [d]: in
    the column of every attribute of [o], the key apart, such a row has the
    value [d] has (both [None] where absent). *)
Definition key_rows_hold (o : BaseModel.obj) (st : Store) (d : gmap string pyval) : Prop :=
  ∀ r, r ∈ config_rows st → row_matches (dict_get (BaseModel.data o) "id") r = true →
       ∀ k, k ≠ "id" → is_Some (BaseModel.data o !! k) →
            denote (dict_get r k) = denote (dict_get d k).

(** The snapshot [_original_data] of the instance is in step with the
    table: it has no attribute the instance lacks, and the rows of the key
    hold it. This is how [__init__], [_insert] and [_update] leave it. *)
Definition snapshot_in_step (o : BaseModel.obj) (st : Store) : Prop :=
  (∀ k, is_Some (BaseModel.original_data o !! k) → is_Some (BaseModel.data o !! k))
  ∧ key_rows_hold o st (BaseModel.original_data o).

(** The attributes of [o] are those the last of the calls gave it. *)
Definition holds_last_call (calls : list (pyval * pyval * pyval * string))
    (o : BaseModel.obj) : Prop :=
  match last calls with
  | Some (sensor_interval, rfid_interval, is_paused, updated_by) =>
      (is_None sensor_interval = false
       → BaseModel.data o !! "sensor_interval" = Some sensor_interval)
      ∧ (is_None rfid_interval = false
         → BaseModel.data o !! "rfid_interval" = Some rfid_interval)
      ∧ (is_None is_paused = false → BaseModel.data o !! "is_paused" = Some is_paused)
      ∧ BaseModel.data o !! "updated_by" = Some (PStr updated_by)
  | None => True
  end.

(** No row of the table carries an id beyond its AUTOINCREMENT mark. *)
Definition table_wf (t : table) : Prop :=
  Forall (λ r, ∀ i, r !! "id" = Some (PInt i) → i ≤ last_rowid t) (rows t).

(** A computation that never waits for a lock. *)
Definition never_blocks {S A} (m : M S A) : Prop := ∀ s s', m s ≠ Blocks s'.

(** A value that is given and that the interval check of [update_config]
    turns down: not an [int], or an [int] outside [[lo, hi]]. *)
Definition out_of_domain (v : pyval) (lo hi : Z) : Prop :=
  v ≠ PNone ∧ ∀ z, int_value v = Some z → z < lo ∨ hi < z.

(** A value that is given and is not a [bool]. *)
Definition not_a_boolean (v : pyval) : Prop :=
  v ≠ PNone ∧ ∀ b, v ≠ PBool b.

(** The four mutating operations of the controller. *)
Inductive mutation : Type :=
| Update (config_data : gmap string pyval)
| Pause
| Resume
| Reset.

(** The three values a mutation hands to [CollectionConfig.update_config]. *)
Definition arguments_of (m : mutation) : pyval * pyval * pyval :=
  match m with
  | Update config_data =>
      (dict_get config_data "sensorInterval", dict_get config_data "rfidInterval",
       dict_get config_data "isPaused")
  | Pause => (PNone, PNone, PBool true)
  | Resume => (PNone, PNone, PBool false)
  | Reset => (PInt CollectionConfig.DEFAULT_SENSOR_INTERVAL,
              PInt CollectionConfig.DEFAULT_RFID_INTERVAL, PBool false)
  end.

(** What a mutation leaves of a value when its argument is [None]. *)
Definition given_or (v old : pyval) : pyval := if is_None v then old else v.

Section Vocabulary.
Context {builtins : Builtins} {callbacks : Callbacks} {dispatch : Dispatch}.

(** The controller's mutex is taken. *)
Definition lock_held (w : World) : bool := _lock (frequency_service w).

Definition keeps_lock {A} (m : M World A) : Prop :=
  ∀ w, lock_held (final (m w)) = lock_held w.

Definition stays_locked {A} (m : M World A) : Prop :=
  ∀ w, lock_held w = true → lock_held (final (m w)) = true.

(** An operation of the controller that does not report success: it returns a
    failure, or it waits for the mutex it holds itself. *)
Definition never_succeeds (o : outcome World reply) : Prop :=
  match o with
  | Returns rep _ => success rep = false
  | Raises _ _ => False
  | Blocks w' => lock_held w' = true
  end.

(** The process after a method of the cached object left it as [o'] and the
    store as [st']. *)
Definition failed_state (w : World) (o' : BaseModel.obj) (st' : Store) : World :=
  set_service (CollectionFrequencyService.set_current_config o') (set_store st' w).

(** What [get_current_config] answers when [o] is the cached object. *)
Definition answer_of (o : BaseModel.obj) : api_dict :=
  match CollectionConfig.to_api_dict (BaseModel.data o) with
  | Ok c => c
  | Err _ => CollectionFrequencyService.default_api_dict
  end.

(** The cached configuration object. *)
Definition cached (w : World) : BaseModel.obj := _current_config (frequency_service w).

(** The section [update_config] and [reset_to_default] run under the mutex. *)
Definition config_section (step : BaseModel.Meth bool)
    (by_ action ok_message ko_message : string) : M World reply :=
  bind CollectionFrequencyService.current_api_dict (λ old_config,
  bind (CollectionFrequencyService.on_current_config step) (λ ok,
  if ok : bool then
    bind CollectionFrequencyService.current_api_dict (λ new_config,
    bind (CollectionFrequencyService._log_config_change old_config new_config by_ action) (λ _,
    bind (CollectionFrequencyService._notify_config_change_callbacks old_config new_config) (λ _,
    ret {| success := true; message := ok_message;
           config := Some new_config; status := None |})))
  else ret {| success := false; message := ko_message;
              config := Some old_config; status := None |})).

(** The section [pause_collection] and [resume_collection] run under the mutex. *)
Definition status_section (already : pyval → bool) (step : BaseModel.Meth bool)
    (label by_ : string) (noop done_ failed : reply) : M World reply :=
  bind get_state (λ w,
  bind (of_result (CollectionConfig.getattr
                     (BaseModel.data (_current_config (frequency_service w))) "is_paused"))
       (λ is_paused,
  if already is_paused then ret noop
  else
    bind (CollectionFrequencyService.on_current_config step) (λ ok,
    if ok : bool then
      bind (CollectionFrequencyService._record_status_change label by_) (λ _,
      bind (CollectionFrequencyService._notify_status_change_callbacks label by_) (λ _,
      ret done_))
    else ret failed))).

Definition already_paused_reply : reply :=
  {| success := true; message := "数据采集已处于暂停状态";
     config := None; status := Some "paused" |}.

Definition already_running_reply : reply :=
  {| success := true; message := "数据采集已在运行中";
     config := None; status := Some "running" |}.

(** The model method and the controller operation of a mutation. *)
Definition model_step (m : mutation) (by_ : string) : BaseModel.Meth bool :=
  match m with
  | Update _ =>
      CollectionConfig.update_config (arguments_of m).1.1 (arguments_of m).1.2
                                     (arguments_of m).2 by_
  | Pause => CollectionConfig.pause_collection by_
  | Resume => CollectionConfig.resume_collection by_
  | Reset => CollectionConfig.reset_to_default by_
  end.

Definition run (m : mutation) (by_ : string) : M World reply :=
  match m with
  | Update config_data => CollectionFrequencyService.update_config config_data by_
  | Pause => CollectionFrequencyService.pause_collection by_
  | Resume => CollectionFrequencyService.resume_collection by_
  | Reset => CollectionFrequencyService.reset_to_default by_
  end.

(** The mutation gets as far as its model method: its input passes the
    checks of the controller, and a pause or resume is not a no-op on the
    configuration [old]. *)
Definition reaches_persistence (m : mutation) (old : api_dict) : bool :=
  match m with
  | Update _ =>
      match CollectionFrequencyService.check_config_data
              (arguments_of m).1.1 (arguments_of m).1.2 (arguments_of m).2 with
      | Ok _ => true
      | Err _ => false
      end
  | Pause => negb (py_truthy (isPaused old))
  | Resume => py_truthy (isPaused old)
  | Reset => true
  end.

(** A computation that leaves the scheduler object as it is. *)
Definition keeps_scheduler {A} (m : M World A) : Prop :=
  ∀ w, collection_scheduler (final (m w)) = collection_scheduler w.

(** An [update_intervals] started in [w] that reschedules nothing: it comes
    back with a failure and the scheduler object, jobs included, is what it
    was in [w]; or it never comes back, waiting for the controller's mutex
    while it holds the scheduler's own, the jobs, [is_running] and the
    collection times being what they were in [w]. *)
Definition nothing_rescheduled (w : World) (o : outcome World reply) : Prop :=
  match o with
  | Returns rep w' => success rep = false ∧ collection_scheduler w' = collection_scheduler w
  | Raises _ _ => False
  | Blocks w' =>
      lock_held w' = true
      ∧ collection_scheduler w'
        = CollectionScheduler.set_scheduler_lock true (collection_scheduler w)
  end.

(** The sampling of a sensor tick: one reading stored per mock sensor. *)
Definition sensor_sampling : M World unit :=
  bind get_state (λ w,
    CollectionScheduler.collect_all_sensors (mock_sensors (collection_scheduler w))).

(** The sampling of an RFID tick: with probability 0.3 one active tag is seen
    by one device. *)
Definition rfid_sampling : M World unit :=
  bind CollectionScheduler.random_random (λ r,
    if PrimFloat.ltb r 0.3 then
      bind (in_store RfidTag.get_active_tags) (λ active_tags,
      match active_tags with
      | [] => ret tt
      | _ =>
          bind get_state (λ w,
          bind (CollectionScheduler.random_choice active_tags) (λ tag,
          bind (CollectionScheduler.random_choice
                  (mock_rfid_devices (collection_scheduler w))) (λ device,
          bind (CollectionScheduler.on_tag tag
                  (RfidTag.update_location (device_location device.2) device.1)) (λ updated,
          bind (of_result (RfidTag.getattr (BaseModel.data updated.2) "tag_id")) (λ _,
          ret tt)))))
      end)
    else ret tt).

(** What follows the sampling in the [try] block of a tick: the time of the
    collection is stored and the errors of the job type are dropped. *)
Definition tick_epilogue (set_last : option string → Scheduler → Scheduler)
    (job_type : string) : M World unit :=
  bind (in_store now_isoformat) (λ t,
  bind (modify (set_scheduler (set_last (Some t)))) (λ _,
  modify (set_scheduler
            (CollectionScheduler.set_collection_errors
               (CollectionScheduler.without_errors_of job_type))))).

(** The error list of the scheduler. *)
Definition error_list (w : World) : list error_info :=
  _collection_errors (collection_scheduler w).

(** The bookkeeping of one tick [tick] whose [try] block is [body], started
    in [w]: when the block fails, the tick returns and the list has grown by
    one entry of the job type, carrying the text of the failure and a clock
    reading; when the block succeeds, the tick returns and the list is the
    old one without the entries of the job type; the block never waits. *)
Definition tick_bookkeeping (body tick : M World unit) (job_type : string) (w : World)
  : Prop :=
  match body w with
  | Raises e _ =>
      ∃ w' t, tick w = Returns tt w'
              ∧ error_list w'
                = error_list w ++ [{| err_type := job_type; err_message := exn_text e;
                                      err_timestamp := t |}]
  | Returns _ w' =>
      tick w = Returns tt w'
      ∧ error_list w' = CollectionScheduler.without_errors_of job_type (error_list w)
      ∧ errors_of job_type (error_list w') = []
  | Blocks _ => False
  end.

End Vocabulary.

(* ===================================================================== *)
(** * A concrete process *)
(* ===================================================================== *)

(** Stand-ins for what the embedding leaves open, used by the examples:
    [float()] knows no text, [round] is the identity, and no listener is
    registered. *)
Definition plain_builtins : Builtins :=
  {| float_of_str := λ _, None; round_ndigits := λ x _, x |}.

Definition no_callbacks : Callbacks :=
  {| config_callback := Empty_set; status_callback := Empty_set |}.

Definition no_dispatch : @Dispatch no_callbacks :=
  @Build_Dispatch no_callbacks
    (λ c _ _, match c : Empty_set with end)
    (λ c _ _, match c : Empty_set with end).

(** The whole days of an interval of [v] seconds, for a number. *)
Definition whole_days (v : pyval) : option Z :=
  match v with
  | PInt z => Some (z / 86400)
  | PBool _ => Some 0
  | PFloat f =>
      match Prim2SF f with
      | S754_zero _ => Some 0
      | S754_finite s m e =>
          let n := if s then Z.neg m else Z.pos m in
          Some (if 0 <=? e then n * 2 ^ e / 86400 else n / (2 ^ (- e) * 86400))
      | _ => None
      end
  | _ => None
  end.

(** A library whose trigger is refused as [timedelta(seconds=v)] is: what is
    no number, NaN, an infinity, and more than 999999999 days either way.
    The date arithmetic of the trigger is left out. *)
Definition plain_triggers : @Triggers no_callbacks :=
  @Build_Triggers no_callbacks
    (λ v _,
       match v with
       | PNone | PStr _ =>
           Some (Exn TypeError "unsupported type for timedelta seconds component")
       | PFloat f =>
           if PrimFloat.is_nan f
           then Some (Exn ValueError "cannot convert float NaN to integer")
           else if PrimFloat.is_infinity f
           then Some (Exn OverflowError "cannot convert float infinity to integer")
           else match whole_days v with
                | Some d =>
                    if (-999999999 <=? d) && (d <=? 999999999) then None
                    else Some (Exn OverflowError "days out of range for timedelta")
                | None => None
                end
       | _ =>
           match whole_days v with
           | Some d =>
               if (-999999999 <=? d) && (d <=? 999999999) then None
               else Some (Exn OverflowError "days out of range for timedelta")
           | None => None
           end
       end).

Definition empty_table : table := {| rows := []; last_rowid := 0 |}.

(** The readings of a clock that only moves on: [T], [T+], [T++], ... *)
Fixpoint reading (n : nat) : string :=
  match n with
  | O => "T"
  | S k => reading k +:+ "+"
  end.

(** A database just initialised: the tables exist and are empty, every
    statement goes through, and the clock gives one reading after another. *)
Definition empty_store : Store :=
  {| tables := <["collection_configs" := empty_table]>
               (<["collection_status" := empty_table]>
               (<["environment_data" := empty_table]> ∅));
     system_logs := []; statements := 0; sql_fault := λ _, None; sql_rows := λ _, [];
     clock_reads := 0; clock := reading |}.

(** The same database, failing every statement from the [n]-th on. *)
Definition failing_from (n : nat) (st : Store) : Store :=
  {| tables := tables st; system_logs := system_logs st; statements := statements st;
     sql_fault := λ k, if (n <=? k)%nat then Some "database is locked" else sql_fault st k;
     sql_rows := sql_rows st; clock_reads := clock_reads st; clock := clock st |}.

(** The scheduler as its constructor leaves it, with the three mock sensors
    and the two mock readers of [_init_mock_devices]. *)
Definition new_scheduler : Scheduler :=
  {| is_running := false; scheduler_lock := false;
     _sensor_last_collection := None; _rfid_last_collection := None;
     _collection_errors := []; jobs := ∅; jobs_added := 0;
     mock_sensors :=
       [("SENSOR_001", {| location := "档案室A区"; base_temp := 22.0;
                          base_humidity := 50.0; base_light := 300.0 |});
        ("SENSOR_002", {| location := "档案室B区"; base_temp := 21.5;
                          base_humidity := 48.0; base_light := 280.0 |});
        ("SENSOR_003", {| location := "档案室C区"; base_temp := 23.0;
                          base_humidity := 52.0; base_light := 320.0 |})];
     mock_rfid_devices :=
       [(1, {| device_name := "RFID_READER_001"; device_location := "档案室入口";
               device_status := "online" |});
        (2, {| device_name := "RFID_READER_002"; device_location := "档案室出口";
               device_status := "online" |})] |}.

(** The scheduler once started on the default configuration: both jobs are
    scheduled, at 30 and 10 seconds, and an RFID scan has been recorded. *)
Definition running_scheduler : Scheduler :=
  {| is_running := true; scheduler_lock := false;
     _sensor_last_collection := None; _rfid_last_collection := Some "T+";
     _collection_errors := [];
     jobs := <["sensor_collection" := {| trigger_seconds := PInt 30; added_at := 0 |}]>
             (<["rfid_scanning" := {| trigger_seconds := PInt 10; added_at := 1 |}]> ∅);
     jobs_added := 2;
     mock_sensors := mock_sensors new_scheduler;
     mock_rfid_devices := mock_rfid_devices new_scheduler |}.

(** A process on the store [st]: the controller is constructed on it, no
    listener is registered, and the random generator always draws 0.5 and
    the first element. *)
Definition process_on (st : Store) (sch : Scheduler) : @World no_callbacks :=
  let ss := @CollectionFrequencyService.new_service plain_builtins no_callbacks st in
  {| store := ss.2; frequency_service := ss.1; collection_scheduler := sch;
     random_draws := 0; random_float := λ _, 0.5%float; random_index := λ _, 0%nat |}.

(** A fresh controller on a fresh database. *)
Definition fresh_world : @World no_callbacks := process_on empty_store new_scheduler.

(** The same with the scheduler running. *)
Definition running_world : @World no_callbacks := process_on empty_store running_scheduler.

(** A fresh controller whose database stops answering once the controller
    is constructed. *)
Definition broken_world : @World no_callbacks :=
  set_store (failing_from (statements (store fresh_world)) (store fresh_world)) fresh_world.

(** A controller whose database does not answer at all. *)
Definition dead_world : @World no_callbacks :=
  set_store (failing_from 0 empty_store) fresh_world.

(** A configuration row whose sensor interval is 0. The column is declared
    [INTEGER NOT NULL] without a check, and [find_all] builds its instances
    from the rows without validating them. *)
Definition zero_interval_row : gmap string pyval :=
  <["id" := PInt 1]>
  (<["sensor_interval" := PInt 0]>
  (<["rfid_interval" := PInt 10]>
  (<["is_paused" := PInt 0]>
  (<["updated_by" := PStr "system"]>
  (<["created_at" := PStr "T"]>
  (<["updated_at" := PStr "T"]> ∅)))))).

(** A database whose latest configuration is that row. *)
Definition zero_interval_store : Store :=
  {| tables := <["collection_configs" := {| rows := [zero_interval_row]; last_rowid := 1 |}]>
               (tables empty_store);
     system_logs := []; statements := 0; sql_fault := λ _, None;
     sql_rows := λ _, [zero_interval_row];
     clock_reads := 0; clock := reading |}.

(** A controller constructed on that database. *)
Definition zero_interval_world : @World no_callbacks :=
  process_on zero_interval_store new_scheduler.

(** The default configuration object on a fresh database. *)
Definition default_config : outcome Store BaseModel.obj :=
  @CollectionConfig.get_or_create_default plain_builtins empty_store.

(** A controller that loaded a paused configuration. *)
Definition paused_world : @World no_callbacks :=
  set_service
    (CollectionFrequencyService.set_current_config
       {| BaseModel.data := <["is_paused" := PBool true]> (BaseModel.data (cached fresh_world));
          BaseModel.original_data := BaseModel.original_data (cached fresh_world) |})
    fresh_world.

(** Three updates of the sensor interval, by three users. *)
Definition three_updates : list (pyval * pyval * pyval * string) :=
  [(PInt 40, PNone, PNone, "user1"); (PInt 50, PNone, PNone, "user2");
   (PInt 60, PNone, PNone, "user3")].

(** One column of the persisted configuration rows. *)
Definition column (name : string) (st : Store) : list pyval :=
  (λ row, dict_get row name) <$> config_rows st.

(* ===================================================================== *)
(** * Properties *)
(* ===================================================================== *)

Section MonadFacts.
Context {S A B : Type}.
Implicit Types (m : M S A) (k : A → M S B).

Lemma bind_Returns m k s b s' :
  bind m k s = Returns b s' →
  ∃ a s1, m s = Returns a s1 ∧ k a s1 = Returns b s'.
Proof.
  unfold bind. destruct (m s) as [a s1|e s1|s1]; [eauto | discriminate..].
Qed.

Lemma bind_Raises m k s e s' :
  bind m k s = Raises e s' →
  m s = Raises e s' ∨ ∃ a s1, m s = Returns a s1 ∧ k a s1 = Raises e s'.
Proof.
  unfold bind. destruct (m s) as [a s1|e1 s1|s1]; intros Hk; [eauto | | discriminate].
  left. congruence.
Qed.

Lemma bind_Blocks m k s s' :
  bind m k s = Blocks s' →
  m s = Blocks s' ∨ ∃ a s1, m s = Returns a s1 ∧ k a s1 = Blocks s'.
Proof.
  unfold bind. destruct (m s) as [a s1|e1 s1|s1]; intros Hk; [eauto | discriminate | ].
  left. congruence.
Qed.

Lemma bind_step m k s a s1 :
  m s = Returns a s1 → bind m k s = k a s1.
Proof. unfold bind. intros ->. reflexivity. Qed.

End MonadFacts.

(* ===================================================================== *)
(** ** The configuration model: one row, rewritten in place *)
(* ===================================================================== *)

Section ModelFacts.
Context {builtins : Builtins}.

Lemma update_config_eq s r p by_ o st :
  CollectionConfig.update_config s r p by_ (o, st) =
  CollectionConfig.save
    ({| BaseModel.data := attempted s r p by_ (clock st (clock_reads st)) (BaseModel.data o);
        BaseModel.original_data := BaseModel.original_data o |},
     count_clock_read st).
Proof.
  unfold CollectionConfig.update_config, CollectionConfig.set_if_given, attempted, assign.
  destruct (is_None s), (is_None r), (is_None p); reflexivity.
Qed.

Lemma changed_fields_sub o k v :
  BaseModel.changed_fields o !! k = Some v → BaseModel.data o !! k = Some v ∧ k ≠ "id".
Proof.
  unfold BaseModel.changed_fields. rewrite map_lookup_imap.
  destruct (BaseModel.data o !! k) as [x|] eqn:E; simpl; [|discriminate].
  destruct (negb (String.eqb k "id") && py_ne x (dict_get (BaseModel.original_data o) k)) eqn:E2;
    [|discriminate].
  intros [= ->]. split; [reflexivity|]. intros ->. simpl in E2. discriminate.
Qed.

Lemma rows_of_insert tbl t st :
  rows_of tbl (set_tables (insert tbl t) st) = rows t.
Proof. unfold rows_of, set_tables. simpl. rewrite lookup_insert_eq. reflexivity. Qed.

Lemma update_Returns cls o st b o' st' :
  BaseModel._update cls (o, st) = Returns b (o', st') →
  b = true ∧ ∃ changed,
    (∀ k v, changed !! k = Some v → BaseModel.data o' !! k = Some v)
    ∧ changed !! "id" = None
    ∧ BaseModel.data o' !! "id" = BaseModel.data o !! "id"
    ∧ rows_of (BaseModel.table_name cls) st'
      = overwrite (dict_get (BaseModel.data o) "id") changed <$> rows_of (BaseModel.table_name cls) st.
Proof.
  unfold BaseModel._update, bind, get_state. simpl.
  destruct (decide (BaseModel.changed_fields o = ∅)) as [He|Hne].
  - intros [= <- <- <-]. split; [reflexivity|]. exists ∅. repeat split.
    + intros k v. rewrite lookup_empty. discriminate.
    + transitivity (Datatypes.id <$> rows_of (BaseModel.table_name cls) st).
      * symmetry. apply list_fmap_id.
      * apply list_fmap_ext. intros _ r _. unfold overwrite.
        destruct (row_matches _ r); [|reflexivity]. simpl. symmetry. apply (left_id_L ∅ (∪)).
  - assert (Hid : BaseModel.changed_fields o !! "id" = None).
    { destruct (BaseModel.changed_fields o !! "id") eqn:E; [|reflexivity].
      apply changed_fields_sub in E. destruct E as [_ E]. congruence. }
    assert (Hrows : ∀ t, tables st !! BaseModel.table_name cls = Some t →
                         rows t = rows_of (BaseModel.table_name cls) st).
    { intros t Et. unfold rows_of. rewrite Et. reflexivity. }
    destruct (BaseModel.changed_fields o !! "updated_at") as [u|] eqn:Eu.
    + unfold ret, BaseModel.self_data, BaseModel.on_store, zoom, execute_update, bind, sql_begin, get_state. simpl.
      destruct (sql_fault st (statements st)); simpl; [discriminate|].
      destruct (tables st !! BaseModel.table_name cls) as [t|] eqn:Et; simpl.
      2:{ unfold raise. discriminate. }
      unfold modify. simpl. intros [= <- <- <-]. split; [reflexivity|].
      exists (BaseModel.changed_fields o). repeat split; [|exact Hid|].
      * intros k v Hk. simpl. apply changed_fields_sub in Hk. tauto.
      * rewrite rows_of_insert. simpl. rewrite (Hrows t eq_refl). reflexivity.
    + unfold ret, BaseModel.self_data, BaseModel.on_store, BaseModel.set_data, zoom,
        execute_update, bind, sql_begin, get_state, now_isoformat, modify. simpl.
      destruct (sql_fault st (statements st)); simpl; [discriminate|].
      destruct (tables st !! BaseModel.table_name cls) as [t|] eqn:Et; simpl.
      2:{ unfold raise. discriminate. }
      intros [= <- <- <-]. split; [reflexivity|].
      exists (<["updated_at" := PStr (clock st (clock_reads st))]> (BaseModel.changed_fields o)).
      repeat split.
      * intros k v. simpl. rewrite !lookup_insert. case_decide; [tauto|].
        intros Hk. apply changed_fields_sub in Hk. tauto.
      * rewrite lookup_insert_ne; [exact Hid | discriminate].
      * simpl. rewrite lookup_insert_ne; [reflexivity | discriminate].
      * rewrite rows_of_insert. simpl. rewrite (Hrows t eq_refl).
        unfold dict_get. rewrite lookup_insert_ne; [reflexivity | discriminate].
Qed.

Lemma save_Returns o st b o' st' :
  has_key o = true →
  CollectionConfig.save (o, st) = Returns b (o', st') →
  b = true ∧ ∃ changed,
    (∀ k v, changed !! k = Some v → BaseModel.data o' !! k = Some v)
    ∧ changed !! "id" = None
    ∧ BaseModel.data o' !! "id" = BaseModel.data o !! "id"
    ∧ config_rows st' = overwrite (dict_get (BaseModel.data o) "id") changed <$> config_rows st.
Proof.
  intros Hkey. unfold CollectionConfig.save, bind, BaseModel.self_data, of_result, ret, raise.
  simpl. destruct (CollectionConfig.validate (BaseModel.data o)); simpl; [|discriminate].
  unfold BaseModel.save, bind, BaseModel.self_data. unfold has_key in Hkey. simpl. rewrite Hkey.
  apply (update_Returns CollectionConfig.cls).
Qed.

Lemma row_matches_id key r r' : r' !! "id" = r !! "id" → row_matches key r' = row_matches key r.
Proof. unfold row_matches, row_has_rowid. intros ->. reflexivity. Qed.

Lemma same_row_unless_refl key r : same_row_unless key r r.
Proof. split; [reflexivity | intros _; reflexivity]. Qed.

Lemma same_row_unless_trans key r1 r2 r3 :
  same_row_unless key r1 r2 → same_row_unless key r2 r3 → same_row_unless key r1 r3.
Proof.
  intros [Hi1 Hr1] [Hi2 Hr2]. split; [congruence|].
  intros Hm. rewrite <- (Hr1 Hm). apply Hr2. rewrite (row_matches_id key r1 r2 Hi1). exact Hm.
Qed.

Lemma overwrite_same_row key changed r :
  changed !! "id" = None → same_row_unless key r (overwrite key changed r).
Proof.
  intros Hid. unfold overwrite. destruct (row_matches key r) eqn:Em.
  - split; [|congruence]. rewrite lookup_union_r; [reflexivity | exact Hid].
  - apply same_row_unless_refl.
Qed.

Lemma attempted_lookup_id s r p by_ t d : attempted s r p by_ t d !! "id" = d !! "id".
Proof.
  unfold attempted, assign.
  destruct (is_None s), (is_None r), (is_None p);
    rewrite ?lookup_insert_ne by done; reflexivity.
Qed.

Lemma update_config_Returns s r p by_ o st b o' st' :
  has_key o = true →
  CollectionConfig.update_config s r p by_ (o, st) = Returns b (o', st') →
  b = true
  ∧ BaseModel.data o' !! "id" = BaseModel.data o !! "id"
  ∧ Forall2 (same_row_unless (dict_get (BaseModel.data o) "id")) (config_rows st) (config_rows st').
Proof.
  intros Hkey. rewrite update_config_eq. intros Hs.
  apply save_Returns in Hs.
  2:{ unfold has_key. simpl. rewrite attempted_lookup_id. exact Hkey. }
  destruct Hs as (-> & changed & _ & Hid & Hdata & Hrows). simpl in *.
  rewrite attempted_lookup_id in Hdata. split; [reflexivity|]. split; [exact Hdata|].
  change (config_rows (count_clock_read st)) with (config_rows st) in Hrows. rewrite Hrows.
  apply Forall2_fmap_r, Forall_Forall2_diag, Forall_forall. intros x _.
  unfold dict_get. rewrite attempted_lookup_id. apply overwrite_same_row. exact Hid.
Qed.

Lemma update_all_in_place calls o st o' st' :
  has_key o = true →
  update_all calls (o, st) = Returns tt (o', st') →
  length (config_rows st') = length (config_rows st)
  ∧ BaseModel.data o' !! "id" = BaseModel.data o !! "id"
  ∧ Forall2 (same_row_unless (dict_get (BaseModel.data o) "id")) (config_rows st) (config_rows st').
Proof.
  intros Hkey Hrun.
  cut (BaseModel.data o' !! "id" = BaseModel.data o !! "id"
       ∧ Forall2 (same_row_unless (dict_get (BaseModel.data o) "id"))
                 (config_rows st) (config_rows st')).
  { intros [Hid Hrows]. split; [|split; assumption].
    symmetry. exact (Forall2_length _ _ _ Hrows). }
  revert o st Hkey Hrun. induction calls as [|[[[s r] p] by_] rest IH]; intros o st Hkey Hrun.
  - simpl in Hrun. injection Hrun as <- <-. split; [reflexivity|].
    apply Forall_Forall2_diag, Forall_forall. intros x _. apply same_row_unless_refl.
  - simpl in Hrun. apply bind_Returns in Hrun. destruct Hrun as (b & [o1 st1] & Hstep & Hrest).
    apply update_config_Returns in Hstep; [|exact Hkey].
    destruct Hstep as (_ & Hid1 & Hrows1).
    apply IH in Hrest.
    2:{ unfold has_key in *. rewrite Hid1. exact Hkey. }
    destruct Hrest as [Hid2 Hrows2]. split; [congruence|].
    unfold dict_get in Hrows2. rewrite Hid1 in Hrows2.
    eapply Forall2_trans; [|exact Hrows1|exact Hrows2].
    intros x y z. apply same_row_unless_trans.
Qed.

Lemma SFcompare_Eq x y :
  SFcompare x y = Some Eq → x = y ∨ (∃ s s', x = S754_zero s ∧ y = S754_zero s').
Proof.
  destruct x as [sx|sx| |sx mx ex], y as [sy|sy| |sy my ey]; simpl;
    try discriminate; try (destruct sx; discriminate); try (destruct sy; discriminate).
  - intros _. right. eauto.
  - destruct sx, sy; try discriminate; intros _; left; reflexivity.
  - destruct sx, sy; try discriminate.
    + destruct (ex ?= ey) eqn:Ee; try discriminate.
      destruct (Pos.compare_cont Eq mx my) eqn:Em; try discriminate.
      intros _. apply Z.compare_eq in Ee. apply Pos.compare_eq in Em. left. congruence.
    + destruct (ex ?= ey) eqn:Ee; try discriminate.
      destruct (Pos.compare_cont Eq mx my) eqn:Em; try discriminate.
      intros _. apply Z.compare_eq in Ee. apply Pos.compare_eq in Em. left. congruence.
Qed.

Lemma float_eqb_denote f g :
  PrimFloat.eqb f g = true → denote (PFloat f) = denote (PFloat g).
Proof.
  rewrite FloatAxioms.eqb_spec. unfold SFeqb.
  destruct (SFcompare (Prim2SF f) (Prim2SF g)) as [[]|] eqn:E; try discriminate.
  intros _. apply SFcompare_Eq in E. unfold denote, float_integral.
  destruct E as [E|(s & s' & E1 & E2)].
  - rewrite E. reflexivity.
  - rewrite E1, E2. reflexivity.
Qed.

Lemma float_eq_int_denote f z : float_eq_int f z = true → denote (PFloat f) = DInt z.
Proof.
  unfold float_eq_int, denote. destruct (float_integral f) as [v|]; [|discriminate].
  intros Hv. apply Z.eqb_eq in Hv. congruence.
Qed.

(** Python's [==] only holds between values that stand for the same. *)
Lemma py_eq_denote a b : py_eq a b = true → denote a = denote b.
Proof.
  destruct a as [|x|x|f|t], b as [|y|y|g|u]; simpl; try discriminate; try reflexivity.
  - intros H. apply Z.eqb_eq in H. congruence.
  - intros H. apply Z.eqb_eq in H. simpl. congruence.
  - intros H. symmetry. apply (float_eq_int_denote g (Z.b2z x) H).
  - intros H. apply Z.eqb_eq in H. simpl. congruence.
  - intros H. apply Z.eqb_eq in H. congruence.
  - intros H. symmetry. apply (float_eq_int_denote g x H).
  - intros H. apply (float_eq_int_denote f (Z.b2z y) H).
  - intros H. apply (float_eq_int_denote f y H).
  - apply float_eqb_denote.
  - intros H. apply String.eqb_eq in H. congruence.
Qed.

Lemma denote_None v : denote v = DNone → v = PNone.
Proof.
  destruct v as [|x|x|f|t]; simpl; try discriminate; [reflexivity|].
  destruct (float_integral f); discriminate.
Qed.

Lemma changed_fields_lookup o k v :
  BaseModel.data o !! k = Some v → k ≠ "id" →
  BaseModel.changed_fields o !! k = Some v
  ∨ (BaseModel.changed_fields o !! k = None
     ∧ py_eq v (dict_get (BaseModel.original_data o) k) = true).
Proof.
  intros Hk Hid. unfold BaseModel.changed_fields. rewrite map_lookup_imap, Hk. simpl.
  assert (String.eqb k "id" = false) as -> by (apply String.eqb_neq; exact Hid).
  simpl. unfold py_ne. destruct (py_eq v _); simpl; auto.
Qed.

(** What a returning [_update] has done, exactly: the columns it wrote are
    those attributes, the key apart, that differ from the snapshot; it
    stamps [updated_at] when it writes; and it renews the snapshot when and
    only when it writes. *)
Lemma update_exact cls o st b o' st' :
  BaseModel._update cls (o, st) = Returns b (o', st') →
  ∃ changed,
    (BaseModel.original_data o' = BaseModel.data o'
     ∨ (BaseModel.original_data o' = BaseModel.original_data o ∧ changed = ∅))
    ∧ (BaseModel.data o' = BaseModel.data o
       ∨ ∃ t, BaseModel.data o' = <["updated_at" := PStr t]> (BaseModel.data o))
    ∧ changed !! "id" = None
    ∧ rows_of (BaseModel.table_name cls) st'
      = overwrite (dict_get (BaseModel.data o) "id") changed
          <$> rows_of (BaseModel.table_name cls) st
    ∧ (∀ k v, k ≠ "id" → BaseModel.data o' !! k = Some v →
         changed !! k = Some v
         ∨ (changed !! k = None
            ∧ py_eq v (dict_get (BaseModel.original_data o) k) = true)).
Proof.
  unfold BaseModel._update, bind, get_state. simpl.
  destruct (decide (BaseModel.changed_fields o = ∅)) as [He|Hne].
  - intros [= <- <- <-]. exists ∅. split; [right; split; reflexivity|].
    split; [left; reflexivity|]. split; [apply lookup_empty|]. split.
    + transitivity (Datatypes.id <$> rows_of (BaseModel.table_name cls) st).
      * symmetry. apply list_fmap_id.
      * apply list_fmap_ext. intros _ r _. unfold overwrite.
        destruct (row_matches _ r); [|reflexivity]. simpl. symmetry. apply (left_id_L ∅ (∪)).
    + intros k v Hid Hk. right. split; [apply lookup_empty|].
      destruct (changed_fields_lookup o k v Hk Hid) as [Hc|[_ Hc]]; [|exact Hc].
      rewrite He, lookup_empty in Hc. discriminate.
  - assert (Hid : BaseModel.changed_fields o !! "id" = None).
    { destruct (BaseModel.changed_fields o !! "id") eqn:E; [|reflexivity].
      apply changed_fields_sub in E. destruct E as [_ E]. congruence. }
    assert (Hrows : ∀ t, tables st !! BaseModel.table_name cls = Some t →
                         rows t = rows_of (BaseModel.table_name cls) st).
    { intros t Et. unfold rows_of. rewrite Et. reflexivity. }
    destruct (BaseModel.changed_fields o !! "updated_at") as [u|] eqn:Eu.
    + unfold ret, BaseModel.self_data, BaseModel.on_store, zoom, execute_update, bind,
        sql_begin, get_state. simpl.
      destruct (sql_fault st (statements st)); simpl; [discriminate|].
      destruct (tables st !! BaseModel.table_name cls) as [t|] eqn:Et; simpl.
      2:{ unfold raise. discriminate. }
      unfold modify. simpl. intros [= <- <- <-].
      exists (BaseModel.changed_fields o). simpl.
      split; [left; reflexivity|]. split; [left; reflexivity|]. split; [exact Hid|]. split.
      * rewrite rows_of_insert. simpl. rewrite (Hrows t eq_refl). reflexivity.
      * intros k v Hk Hv. apply changed_fields_lookup; assumption.
    + unfold ret, BaseModel.self_data, BaseModel.on_store, BaseModel.set_data, zoom,
        execute_update, bind, sql_begin, get_state, now_isoformat, modify. simpl.
      destruct (sql_fault st (statements st)); simpl; [discriminate|].
      destruct (tables st !! BaseModel.table_name cls) as [t|] eqn:Et; simpl.
      2:{ unfold raise. discriminate. }
      intros [= <- <- <-].
      exists (<["updated_at" := PStr (clock st (clock_reads st))]> (BaseModel.changed_fields o)).
      simpl. split; [left; reflexivity|]. split; [right; eexists; reflexivity|]. split; [|split].
      * rewrite lookup_insert_ne; [exact Hid | discriminate].
      * rewrite rows_of_insert. simpl. rewrite (Hrows t eq_refl).
        unfold dict_get. rewrite lookup_insert_ne; [reflexivity | discriminate].
      * intros k v Hk Hv. destruct (decide (k = "updated_at")) as [->|Hu].
        -- rewrite lookup_insert_eq in Hv. rewrite lookup_insert_eq. left. exact Hv.
        -- rewrite lookup_insert_ne in Hv by congruence. rewrite lookup_insert_ne by congruence.
           apply changed_fields_lookup; assumption.
Qed.

Lemma save_exact o st b o' st' :
  has_key o = true →
  CollectionConfig.save (o, st) = Returns b (o', st') →
  ∃ changed,
    (BaseModel.original_data o' = BaseModel.data o'
     ∨ (BaseModel.original_data o' = BaseModel.original_data o ∧ changed = ∅))
    ∧ (BaseModel.data o' = BaseModel.data o
       ∨ ∃ t, BaseModel.data o' = <["updated_at" := PStr t]> (BaseModel.data o))
    ∧ changed !! "id" = None
    ∧ config_rows st' = overwrite (dict_get (BaseModel.data o) "id") changed <$> config_rows st
    ∧ (∀ k v, k ≠ "id" → BaseModel.data o' !! k = Some v →
         changed !! k = Some v
         ∨ (changed !! k = None
            ∧ py_eq v (dict_get (BaseModel.original_data o) k) = true)).
Proof.
  intros Hkey. unfold CollectionConfig.save, bind, BaseModel.self_data, of_result, ret, raise.
  simpl. destruct (CollectionConfig.validate (BaseModel.data o)); simpl; [|discriminate].
  unfold BaseModel.save, bind, BaseModel.self_data. unfold has_key in Hkey. simpl. rewrite Hkey.
  apply (update_exact CollectionConfig.cls).
Qed.

Lemma assign_new name x d k v :
  assign name x d !! k = Some v → d !! k = Some v ∨ (v = x ∧ is_None x = false).
Proof.
  unfold assign. destruct (is_None x) eqn:Ex; [auto|].
  intros Hv. apply lookup_insert_Some in Hv as [[_ <-]|[_ Hv]]; auto.
Qed.

Lemma attempted_new s r p by_ t d k v :
  attempted s r p by_ t d !! k = Some v → d !! k = None → v ≠ PNone.
Proof.
  unfold attempted. intros Hv Hd.
  apply lookup_insert_Some in Hv as [[_ <-]|[_ Hv]]; [discriminate|].
  apply lookup_insert_Some in Hv as [[_ <-]|[_ Hv]]; [discriminate|].
  apply assign_new in Hv as [Hv|[-> Hx]]; [|intros ->; simpl in Hx; discriminate].
  apply assign_new in Hv as [Hv|[-> Hx]]; [|intros ->; simpl in Hx; discriminate].
  apply assign_new in Hv as [Hv|[-> Hx]]; [|intros ->; simpl in Hx; discriminate].
  congruence.
Qed.

Lemma assign_keeps name x d k : is_Some (d !! k) → is_Some (assign name x d !! k).
Proof.
  intros Hk. unfold assign. destruct (is_None x); [exact Hk|].
  apply lookup_insert_is_Some'. right. exact Hk.
Qed.

Lemma attempted_keeps s r p by_ t d k :
  is_Some (d !! k) → is_Some (attempted s r p by_ t d !! k).
Proof.
  intros Hk. unfold attempted.
  do 2 (apply lookup_insert_is_Some'; right). do 3 apply assign_keeps. exact Hk.
Qed.

Lemma attempted_given s r p by_ t d :
  (is_None s = false → attempted s r p by_ t d !! "sensor_interval" = Some s)
  ∧ (is_None r = false → attempted s r p by_ t d !! "rfid_interval" = Some r)
  ∧ (is_None p = false → attempted s r p by_ t d !! "is_paused" = Some p)
  ∧ attempted s r p by_ t d !! "updated_by" = Some (PStr by_).
Proof.
  unfold attempted, assign.
  destruct (is_None s), (is_None r), (is_None p); repeat split; intros; try discriminate;
    rewrite ?lookup_insert_ne by done; rewrite ?lookup_insert_eq; reflexivity.
Qed.

(** One returning [update_config] on an instance with a key whose snapshot
    is in step: the rows of the key now hold the attributes of the instance,
    which are the attempted ones, and the snapshot is in step again. *)
Lemma update_config_step s r p by_ o st b o' st' :
  has_key o = true → snapshot_in_step o st →
  CollectionConfig.update_config s r p by_ (o, st) = Returns b (o', st') →
  snapshot_in_step o' st'
  ∧ key_rows_hold o' st' (BaseModel.data o')
  ∧ (∀ k, k ≠ "updated_at" →
       BaseModel.data o' !! k
       = attempted s r p by_ (clock st (clock_reads st)) (BaseModel.data o) !! k).
Proof.
  intros Hkey [Hdom Hsnap]. rewrite update_config_eq. intros Hs.
  apply save_exact in Hs.
  2:{ unfold has_key. simpl. rewrite attempted_lookup_id. exact Hkey. }
  destruct Hs as (changed & Horig & Hdata & Hcid & Hrows & Hch). simpl in *.
  change (config_rows (count_clock_read st)) with (config_rows st) in Hrows.
  set (d1 := attempted s r p by_ (clock st (clock_reads st)) (BaseModel.data o)) in *.
  assert (Hd1 : ∀ k, k ≠ "updated_at" → BaseModel.data o' !! k = d1 !! k).
  { intros k Hk. destruct Hdata as [->|[t ->]]; [reflexivity|].
    rewrite lookup_insert_ne by congruence. reflexivity. }
  assert (Hkeyeq : dict_get (BaseModel.data o') "id" = dict_get (BaseModel.data o) "id").
  { unfold dict_get. rewrite Hd1 by discriminate. unfold d1. rewrite attempted_lookup_id.
    reflexivity. }
  assert (Hkey1 : dict_get d1 "id" = dict_get (BaseModel.data o) "id").
  { unfold dict_get, d1. rewrite attempted_lookup_id. reflexivity. }
  rewrite Hkey1 in Hrows.
  assert (Hnew : ∀ k v, BaseModel.data o' !! k = Some v → BaseModel.data o !! k = None →
                        v ≠ PNone).
  { intros k v Hv Hk. destruct Hdata as [Hd|[t Hd]]; rewrite Hd in Hv.
    - exact (attempted_new _ _ _ _ _ _ _ _ Hv Hk).
    - apply lookup_insert_Some in Hv as [[_ <-]|[_ Hv]]; [discriminate|].
      exact (attempted_new _ _ _ _ _ _ _ _ Hv Hk). }
  assert (Hkeeps : ∀ k, is_Some (BaseModel.data o !! k) → is_Some (BaseModel.data o' !! k)).
  { intros k Hk. apply (attempted_keeps s r p by_ (clock st (clock_reads st))) in Hk.
    fold d1 in Hk. destruct Hdata as [->|[t ->]]; [exact Hk|].
    apply lookup_insert_is_Some'. right. exact Hk. }
  assert (Hrow : ∀ r', r' ∈ config_rows st' →
                   row_matches (dict_get (BaseModel.data o) "id") r' = true →
                   ∃ r0, r0 ∈ config_rows st
                         ∧ row_matches (dict_get (BaseModel.data o) "id") r0 = true
                         ∧ r' = changed ∪ r0).
  { intros r' Hr' Hm. rewrite Hrows in Hr'. apply list_elem_of_fmap in Hr' as (r0 & -> & Hr0).
    pose proof (overwrite_same_row (dict_get (BaseModel.data o) "id") changed r0 Hcid)
      as [Hsame _].
    rewrite (row_matches_id _ _ _ Hsame) in Hm.
    exists r0. split; [exact Hr0|]. split; [exact Hm|]. unfold overwrite. rewrite Hm.
    reflexivity. }
  assert (Hold : ∀ r0 k v, r0 ∈ config_rows st →
                   row_matches (dict_get (BaseModel.data o) "id") r0 = true →
                   k ≠ "id" → BaseModel.data o' !! k = Some v →
                   py_eq v (dict_get (BaseModel.original_data o) k) = true →
                   denote (dict_get r0 k) = denote v).
  { intros r0 k v Hr0 Hm Hk Hv Heq. apply py_eq_denote in Heq. rewrite Heq.
    destruct (BaseModel.data o !! k) as [x|] eqn:Ex.
    - apply (Hsnap r0 Hr0 Hm k Hk). rewrite Ex. eauto.
    - exfalso. apply (Hnew k v Hv Ex). apply denote_None. rewrite Heq.
      destruct (BaseModel.original_data o !! k) as [y|] eqn:Ey.
      + assert (Hy : is_Some (BaseModel.data o !! k)) by (apply Hdom; rewrite Ey; eauto).
        rewrite Ex in Hy. destruct Hy as [? Hy]. discriminate.
      + unfold dict_get. rewrite Ey. reflexivity. }
  assert (Hall : ∀ r', r' ∈ config_rows st' →
                   row_matches (dict_get (BaseModel.data o) "id") r' = true →
                   ∀ k v, k ≠ "id" → BaseModel.data o' !! k = Some v →
                          denote (dict_get r' k) = denote v).
  { intros r' Hr' Hm k v Hk Hv. destruct (Hrow r' Hr' Hm) as (r0 & Hr0 & Hm0 & ->).
    destruct (Hch k v Hk Hv) as [Hc|[Hc Heq]].
    - unfold dict_get. rewrite (lookup_union_Some_l _ _ _ _ Hc). reflexivity.
    - unfold dict_get at 1. rewrite (lookup_union_r _ _ _ Hc).
      exact (Hold r0 k v Hr0 Hm0 Hk Hv Heq). }
  assert (Hwritten : key_rows_hold o' st' (BaseModel.data o')).
  { intros r' Hr' Hm k Hk [v Hv]. rewrite Hkeyeq in Hm.
    rewrite (Hall r' Hr' Hm k v Hk Hv). unfold dict_get. rewrite Hv. reflexivity. }
  split; [|split; [exact Hwritten | exact Hd1]].
  destruct Horig as [Ho|[Ho ->]].
  - split.
    + intros k. rewrite Ho. auto.
    + rewrite Ho. exact Hwritten.
  - split.
    + intros k Hk. rewrite Ho in Hk. apply Hkeeps, Hdom. exact Hk.
    + intros r' Hr' Hm k Hk [v Hv]. rewrite Hkeyeq in Hm. rewrite Ho.
      rewrite (Hall r' Hr' Hm k v Hk Hv).
      destruct (Hch k v Hk Hv) as [Hc|[_ Heq]].
      * rewrite lookup_empty in Hc. discriminate.
      * apply py_eq_denote. exact Heq.
Qed.

Lemma update_all_in_step calls o st o' st' :
  has_key o = true → snapshot_in_step o st →
  update_all calls (o, st) = Returns tt (o', st') →
  snapshot_in_step o' st'
  ∧ (calls ≠ [] → key_rows_hold o' st' (BaseModel.data o') ∧ holds_last_call calls o').
Proof.
  revert o st. induction calls as [|[[[s r] p] by_] rest IH]; intros o st Hkey Hstep Hrun.
  - simpl in Hrun. injection Hrun as <- <-. split; [exact Hstep | congruence].
  - simpl in Hrun. apply bind_Returns in Hrun. destruct Hrun as (b & [o1 st1] & Hone & Hrest).
    pose proof (update_config_Returns _ _ _ _ _ _ _ _ _ Hkey Hone) as (_ & Hid1 & _).
    destruct (update_config_step _ _ _ _ _ _ _ _ _ Hkey Hstep Hone) as (Hstep1 & Hrows1 & Hd1).
    assert (Hkey1 : has_key o1 = true).
    { unfold has_key in *. rewrite Hid1. exact Hkey. }
    destruct rest as [|c rest'].
    + simpl in Hrest. injection Hrest as <- <-. split; [exact Hstep1|]. intros _.
      split; [exact Hrows1|]. unfold holds_last_call. simpl.
      destruct (attempted_given s r p by_ (clock st (clock_reads st)) (BaseModel.data o))
        as (Hs & Hr & Hp & Hby).
      rewrite !Hd1 by discriminate. auto.
    + destruct (IH o1 st1 Hkey1 Hstep1 Hrest) as [Hfin Hlast].
      split; [exact Hfin|]. intros _. destruct Hlast as [Hrows Hvals]; [discriminate|].
      split; [exact Hrows|]. exact Hvals.
Qed.

(** C1 (what the code does instead): the cached configuration object carries
    the key of its row, so [save] takes the UPDATE branch. Whatever sequence
    of [CollectionConfig.update_config] calls (pause, resume and reset are
    such calls) returns on an object with a key, the table has as many rows
    afterwards as before, the object keeps its key, and every row other than
    those of that key is exactly what it was: no version is added. When the
    snapshot of the object was in step with the table before the calls, it
    is in step after them, and after at least one call the rows of the key
    hold, column by column, the attributes of the object, which are those
    the last call gave it: the earlier values are overwritten. *)
Theorem update_config_rewrites_in_place calls o st o' st' :
  has_key o = true →
  update_all calls (o, st) = Returns tt (o', st') →
  length (config_rows st') = length (config_rows st)
  ∧ BaseModel.data o' !! "id" = BaseModel.data o !! "id"
  ∧ Forall2 (same_row_unless (dict_get (BaseModel.data o) "id")) (config_rows st) (config_rows st')
  ∧ (snapshot_in_step o st →
     snapshot_in_step o' st'
     ∧ (calls ≠ [] →
        key_rows_hold o' st' (BaseModel.data o') ∧ holds_last_call calls o')).
Proof.
  intros Hkey Hrun.
  destruct (update_all_in_place calls o st o' st' Hkey Hrun) as (Hlen & Hid & Hrows).
  split; [exact Hlen|]. split; [exact Hid|]. split; [exact Hrows|].
  intros Hstep. exact (update_all_in_step calls o st o' st' Hkey Hstep Hrun).
Qed.

Lemma execute_update_Raises tbl changed key st e st' :
  execute_update tbl changed key st = Raises e st' → tables st' = tables st.
Proof.
  unfold execute_update, bind, sql_begin, get_state.
  destruct (sql_fault st (statements st)); simpl.
  - intros [= <- <-]. reflexivity.
  - destruct (tables st !! tbl); simpl; unfold raise, modify; [discriminate|].
    intros [= <- <-]. reflexivity.
Qed.

Lemma execute_insert_Raises tbl values st e st' :
  execute_insert tbl values st = Raises e st' → tables st' = tables st.
Proof.
  unfold execute_insert, bind, sql_begin, get_state.
  destruct (sql_fault st (statements st)); simpl.
  - intros [= <- <-]. reflexivity.
  - destruct (tables st !! tbl); simpl; unfold raise, modify.
    2:{ intros [= <- <-]. reflexivity. }
    destruct (sql_rowid _) as [key|]; simpl.
    2:{ intros [= <- <-]. reflexivity. }
    destruct (existsb _ _); simpl; [|discriminate].
    intros [= <- <-]. reflexivity.
Qed.

Lemma BaseModel_save_Raises cls o st e o' st' :
  BaseModel.save cls (o, st) = Raises e (o', st') →
  tables st' = tables st
  ∧ ∀ k, k ≠ "created_at" → k ≠ "updated_at" → BaseModel.data o' !! k = BaseModel.data o !! k.
Proof.
  unfold BaseModel.save, bind, BaseModel.self_data. simpl.
  destruct (match BaseModel.data o !! "id" with Some v => py_truthy v | None => false end).
  - unfold BaseModel._update, bind, get_state. simpl.
    destruct (decide (BaseModel.changed_fields o = ∅)); [unfold ret; discriminate|].
    destruct (BaseModel.changed_fields o !! "updated_at").
    + unfold ret, BaseModel.self_data, BaseModel.on_store, zoom. simpl.
      destruct (execute_update _ _ _ st) as [[] st1|e1 st1|st1] eqn:E; simpl; try discriminate.
      intros [= <- <- <-]. apply execute_update_Raises in E. split; [exact E | reflexivity].
    + unfold ret, BaseModel.self_data, BaseModel.on_store, BaseModel.set_data, zoom,
        now_isoformat, modify. simpl.
      destruct (execute_update _ _ _ (count_clock_read st)) as [[] st1|e1 st1|st1] eqn:E;
        simpl; try discriminate.
      intros [= <- <- <-]. apply execute_update_Raises in E. split; [exact E|].
      intros k _ Hk. simpl. rewrite lookup_insert_ne by congruence. reflexivity.
  - unfold BaseModel._insert, bind, BaseModel.self_data. simpl.
    destruct (BaseModel.data o !! "created_at").
    + unfold ret, BaseModel.on_store, zoom. simpl.
      destruct (execute_insert _ _ st) as [v st1|e1 st1|st1] eqn:E; simpl; try discriminate.
      intros [= <- <- <-]. apply execute_insert_Raises in E. split; [exact E | reflexivity].
    + unfold ret, BaseModel.on_store, BaseModel.setattr, BaseModel.set_data, zoom,
        now_isoformat, modify. simpl.
      destruct (execute_insert _ _ (count_clock_read st)) as [v st1|e1 st1|st1] eqn:E;
        simpl; try discriminate.
      intros [= <- <- <-]. apply execute_insert_Raises in E. split; [exact E|].
      intros k Hk _. simpl. rewrite lookup_insert_ne by congruence. reflexivity.
Qed.

Lemma update_config_Raises s r p by_ o st e o' st' :
  CollectionConfig.update_config s r p by_ (o, st) = Raises e (o', st') →
  tables st' = tables st
  ∧ ∀ k, k ≠ "created_at" → k ≠ "updated_at" →
         BaseModel.data o' !! k
         = attempted s r p by_ (clock st (clock_reads st)) (BaseModel.data o) !! k.
Proof.
  rewrite update_config_eq. unfold CollectionConfig.save, bind, BaseModel.self_data, of_result.
  simpl. destruct (CollectionConfig.validate _); simpl.
  - intros Hs. apply BaseModel_save_Raises in Hs. exact Hs.
  - unfold raise. intros [= <- <- <-]. split; reflexivity.
Qed.

End ModelFacts.

(* ===================================================================== *)
(** ** The controller: the mutex and what runs under it *)
(* ===================================================================== *)

Section ControllerFacts.
Context {builtins : Builtins} {callbacks : Callbacks} {dispatch : Dispatch}.

Lemma keeps_lock_stays {A} (m : M World A) : keeps_lock m → stays_locked m.
Proof. intros Hm w Hw. rewrite Hm. exact Hw. Qed.

Lemma keeps_lock_ret {A} (a : A) : keeps_lock (ret a).
Proof. intros w. reflexivity. Qed.

Lemma keeps_lock_raise {A} e : keeps_lock (raise e : M World A).
Proof. intros w. reflexivity. Qed.

Lemma keeps_lock_of_result {A} (r : result A) : keeps_lock (of_result r).
Proof. destruct r; intros w; reflexivity. Qed.

Lemma keeps_lock_get_state : keeps_lock get_state.
Proof. intros w. reflexivity. Qed.

Lemma keeps_lock_bind {A B} (m : M World A) (k : A → M World B) :
  keeps_lock m → (∀ a, keeps_lock (k a)) → keeps_lock (bind m k).
Proof.
  intros Hm Hk w. unfold bind. specialize (Hm w).
  destruct (m w) as [a w1|e w1|w1]; simpl in *; [|exact Hm..].
  rewrite Hk. exact Hm.
Qed.

Lemma keeps_lock_try {A} (m : M World A) h :
  keeps_lock m → (∀ e, keeps_lock (h e)) → keeps_lock (try_except m h).
Proof.
  intros Hm Hh w. unfold try_except. specialize (Hm w).
  destruct (m w) as [a w1|e w1|w1]; simpl in *; [exact Hm| |exact Hm].
  rewrite Hh. exact Hm.
Qed.

Lemma keeps_lock_in_store {A} (m : M Store A) : keeps_lock (in_store m).
Proof.
  intros w. unfold in_store, zoom. destruct (m (store w)); reflexivity.
Qed.

Lemma keeps_lock_on_current_config {A} (m : BaseModel.Meth A) :
  keeps_lock (CollectionFrequencyService.on_current_config m).
Proof.
  intros w. unfold CollectionFrequencyService.on_current_config, zoom.
  destruct (m _); reflexivity.
Qed.

Lemma stays_locked_bind {A B} (m : M World A) (k : A → M World B) :
  stays_locked m → (∀ a, stays_locked (k a)) → stays_locked (bind m k).
Proof.
  intros Hm Hk w Hw. unfold bind. specialize (Hm w Hw).
  destruct (m w) as [a w1|e w1|w1]; simpl in *; [|exact Hm..].
  apply Hk. exact Hm.
Qed.

Lemma with_lock_held {A} (body : M World A) w :
  lock_held w = true → CollectionFrequencyService.with_lock body w = Blocks w.
Proof. unfold CollectionFrequencyService.with_lock, lock_held. intros ->. reflexivity. Qed.

Lemma stays_locked_with_lock {A} (body : M World A) :
  stays_locked (CollectionFrequencyService.with_lock body).
Proof. intros w Hw. rewrite with_lock_held by exact Hw. exact Hw. Qed.

Lemma keeps_lock_current_api_dict : keeps_lock CollectionFrequencyService.current_api_dict.
Proof.
  apply keeps_lock_bind; [apply keeps_lock_get_state|]. intros w. apply keeps_lock_of_result.
Qed.

Lemma keeps_lock_log_config_change old new by_ action :
  keeps_lock (CollectionFrequencyService._log_config_change old new by_ action).
Proof.
  apply keeps_lock_try; [|intros; apply keeps_lock_ret].
  cbv zeta. destruct (_ || _); [apply keeps_lock_in_store | apply keeps_lock_ret].
Qed.

Lemma keeps_lock_record_status_change status by_ :
  keeps_lock (CollectionFrequencyService._record_status_change status by_).
Proof.
  apply keeps_lock_try; [|intros; apply keeps_lock_ret].
  apply keeps_lock_bind; [apply keeps_lock_in_store|]. intros _. apply keeps_lock_in_store.
Qed.

Lemma unlock_after_lock w :
  lock_held w = false →
  set_service (CollectionFrequencyService.set_lock false)
    (set_service (CollectionFrequencyService.set_lock true) w) = w.
Proof.
  destruct w as [st [l c cs ss] sch n rf ri]. unfold lock_held. simpl. intros ->. reflexivity.
Qed.

Lemma get_current_config_Returns w :
  lock_held w = false →
  CollectionFrequencyService.get_current_config w =
  Returns (match CollectionConfig.to_api_dict
                   (BaseModel.data (_current_config (frequency_service w))) with
           | Ok c => c
           | Err _ => CollectionFrequencyService.default_api_dict
           end) w.
Proof.
  intros Hw. unfold CollectionFrequencyService.get_current_config, try_except,
    CollectionFrequencyService.with_lock. unfold lock_held in Hw. rewrite Hw.
  unfold CollectionFrequencyService.current_api_dict, bind, get_state, of_result. simpl.
  destruct (CollectionConfig.to_api_dict _); simpl; unfold ret; f_equal;
    apply unlock_after_lock; exact Hw.
Qed.

Lemma notify_config_blocks old new w :
  lock_held w = true →
  CollectionFrequencyService._notify_config_change_callbacks old new w = Blocks w.
Proof. apply with_lock_held. Qed.

Lemma notify_status_blocks status by_ w :
  lock_held w = true →
  CollectionFrequencyService._notify_status_change_callbacks status by_ w = Blocks w.
Proof. apply with_lock_held. Qed.

Lemma Returns_final {A} (m : M World A) w a w' : m w = Returns a w' → final (m w) = w'.
Proof. intros ->. reflexivity. Qed.

Lemma Raises_final {A} (m : M World A) w e w' : m w = Raises e w' → final (m w) = w'.
Proof. intros ->. reflexivity. Qed.

Lemma Blocks_final {A} (m : M World A) w w' : m w = Blocks w' → final (m w) = w'.
Proof. intros ->. reflexivity. Qed.

Lemma config_section_locked step by_ action okm kom w :
  lock_held w = true →
  match config_section step by_ action okm kom w with
  | Returns rep w' => success rep = false ∧ lock_held w' = true
  | Raises _ w' => lock_held w' = true
  | Blocks w' => lock_held w' = true
  end.
Proof.
  intros Hw. unfold config_section.
  pose proof (keeps_lock_current_api_dict w) as H1. unfold bind at 1.
  destruct (CollectionFrequencyService.current_api_dict w) as [old w1|e w1|w1]; simpl in H1;
    [|congruence..].
  assert (Hw1 : lock_held w1 = true) by congruence. clear H1.
  pose proof (keeps_lock_on_current_config step w1) as H2. unfold bind at 1.
  destruct (CollectionFrequencyService.on_current_config step w1) as [ok w2|e w2|w2];
    simpl in H2; [|congruence..].
  assert (Hw2 : lock_held w2 = true) by congruence. clear H2.
  destruct ok; [|simpl; auto].
  pose proof (keeps_lock_current_api_dict w2) as H3. unfold bind at 1.
  destruct (CollectionFrequencyService.current_api_dict w2) as [new w3|e w3|w3]; simpl in H3;
    [|congruence..].
  assert (Hw3 : lock_held w3 = true) by congruence. clear H3.
  pose proof (keeps_lock_log_config_change old new by_ action w3) as H4. unfold bind at 1.
  destruct (CollectionFrequencyService._log_config_change old new by_ action w3)
    as [[] w4|e w4|w4]; simpl in H4; [|congruence..].
  assert (Hw4 : lock_held w4 = true) by congruence. clear H4.
  unfold bind. rewrite notify_config_blocks by exact Hw4. exact Hw4.
Qed.

Lemma with_lock_free {A} (body : M World A) w :
  lock_held w = false →
  CollectionFrequencyService.with_lock body w =
  match body (set_service (CollectionFrequencyService.set_lock true) w) with
  | Returns a w' => Returns a (set_service (CollectionFrequencyService.set_lock false) w')
  | Raises e w' => Raises e (set_service (CollectionFrequencyService.set_lock false) w')
  | Blocks w' => Blocks w'
  end.
Proof. unfold CollectionFrequencyService.with_lock, lock_held. intros ->. reflexivity. Qed.

Lemma update_config_never_succeeds cfg by_ w :
  lock_held w = false →
  never_succeeds (CollectionFrequencyService.update_config cfg by_ w).
Proof.
  intros Hw. unfold CollectionFrequencyService.update_config, try_except.
  unfold bind at 1.
  destruct (CollectionFrequencyService.check_config_data _ _ _) as [[]|e]; simpl.
  2:{ unfold raise, bind. rewrite get_current_config_Returns by exact Hw. reflexivity. }
  unfold ret at 1. rewrite with_lock_free by exact Hw.
  pose proof (config_section_locked
                (CollectionConfig.update_config (dict_get cfg "sensorInterval")
                   (dict_get cfg "rfidInterval") (dict_get cfg "isPaused") by_)
                by_ "update" "配置更新成功" "配置更新失败"
                (set_service (CollectionFrequencyService.set_lock true) w) eq_refl) as Hs.
  unfold config_section in Hs.
  destruct (bind CollectionFrequencyService.current_api_dict _ _) as [rep w1|e w1|w1].
  - simpl. tauto.
  - unfold bind. rewrite get_current_config_Returns by reflexivity. reflexivity.
  - simpl. exact Hs.
Qed.

Lemma failed_state_unlocked w o' st' :
  lock_held w = false →
  set_service (CollectionFrequencyService.set_lock false)
    (failed_state (set_service (CollectionFrequencyService.set_lock true) w) o' st')
  = failed_state w o' st'.
Proof.
  destruct w as [st [l c cs ss] sch n rf ri]. unfold lock_held. simpl. intros ->. reflexivity.
Qed.

Lemma on_current_config_Raises {A} (step : BaseModel.Meth A) w e o' st' :
  step (_current_config (frequency_service w), store w) = Raises e (o', st') →
  CollectionFrequencyService.on_current_config step w = Raises e (failed_state w o' st').
Proof.
  intros Hs. unfold CollectionFrequencyService.on_current_config, zoom. rewrite Hs. reflexivity.
Qed.

Lemma config_section_Raises step by_ action okm kom w old e o' st' :
  CollectionConfig.to_api_dict (BaseModel.data (_current_config (frequency_service w))) = Ok old →
  step (_current_config (frequency_service w), store w) = Raises e (o', st') →
  config_section step by_ action okm kom w = Raises e (failed_state w o' st').
Proof.
  intros Hold Hs. unfold config_section.
  unfold bind at 1. unfold CollectionFrequencyService.current_api_dict at 1.
  unfold bind at 1. unfold get_state, of_result. rewrite Hold. unfold ret at 1.
  unfold bind at 1. rewrite (on_current_config_Raises _ _ _ _ _ Hs). reflexivity.
Qed.

Lemma get_current_config_failed_state w o' st' :
  lock_held w = false →
  CollectionFrequencyService.get_current_config (failed_state w o' st')
  = Returns (answer_of o') (failed_state w o' st').
Proof.
  intros Hw. rewrite get_current_config_Returns; [reflexivity|].
  unfold lock_held in *. simpl. exact Hw.
Qed.

Lemma update_config_fails cfg by_ w old e o' st' :
  lock_held w = false →
  CollectionFrequencyService.check_config_data (dict_get cfg "sensorInterval")
    (dict_get cfg "rfidInterval") (dict_get cfg "isPaused") = Ok tt →
  CollectionConfig.to_api_dict (BaseModel.data (_current_config (frequency_service w))) = Ok old →
  CollectionConfig.update_config (dict_get cfg "sensorInterval") (dict_get cfg "rfidInterval")
    (dict_get cfg "isPaused") by_ (_current_config (frequency_service w), store w)
  = Raises e (o', st') →
  CollectionFrequencyService.update_config cfg by_ w
  = Returns {| success := false;
               message := if is_ValidationError e then exn_text e
                          else "配置更新失败: " +:+ exn_text e;
               config := Some (answer_of o'); status := None |}
            (failed_state w o' st').
Proof.
  intros Hw Hcheck Hold Hs.
  unfold CollectionFrequencyService.update_config, try_except. unfold bind at 1.
  rewrite Hcheck. unfold of_result, ret at 1. rewrite with_lock_free by exact Hw.
  pose proof (config_section_Raises
                (CollectionConfig.update_config (dict_get cfg "sensorInterval")
                   (dict_get cfg "rfidInterval") (dict_get cfg "isPaused") by_)
                by_ "update" "配置更新成功" "配置更新失败"
                (set_service (CollectionFrequencyService.set_lock true) w) old e o' st'
                Hold Hs) as Hsec.
  unfold config_section in Hsec. rewrite Hsec.
  rewrite failed_state_unlocked by exact Hw.
  unfold bind. rewrite get_current_config_failed_state by exact Hw. reflexivity.
Qed.

Lemma attempted_sensor s r p by_ t d :
  attempted s r p by_ t d !! "sensor_interval"
  = if is_None s then d !! "sensor_interval" else Some s.
Proof.
  unfold attempted, assign.
  destruct (is_None s), (is_None r), (is_None p);
    rewrite ?lookup_insert_ne by done; rewrite ?lookup_insert_eq; reflexivity.
Qed.

Lemma attempted_rfid s r p by_ t d :
  attempted s r p by_ t d !! "rfid_interval"
  = if is_None r then d !! "rfid_interval" else Some r.
Proof.
  unfold attempted, assign.
  destruct (is_None s), (is_None r), (is_None p);
    rewrite ?lookup_insert_ne by done; rewrite ?lookup_insert_eq;
    rewrite ?lookup_insert_ne by done; reflexivity.
Qed.

Lemma attempted_paused s r p by_ t d :
  attempted s r p by_ t d !! "is_paused"
  = if is_None p then d !! "is_paused" else Some p.
Proof.
  unfold attempted, assign.
  destruct (is_None s), (is_None r), (is_None p);
    rewrite ?lookup_insert_ne by done; rewrite ?lookup_insert_eq;
    rewrite ?lookup_insert_ne by done; reflexivity.
Qed.

Lemma attempted_updated_by s r p by_ t d :
  attempted s r p by_ t d !! "updated_by" = Some (PStr by_).
Proof.
  unfold attempted. rewrite lookup_insert_ne by done. apply lookup_insert_eq.
Qed.

Lemma to_api_dict_Ok d c :
  CollectionConfig.to_api_dict d = Ok c →
  d !! "sensor_interval" = Some (sensorInterval c)
  ∧ d !! "rfid_interval" = Some (rfidInterval c)
  ∧ d !! "is_paused" = Some (isPaused c)
  ∧ d !! "updated_by" = Some (updatedBy c)
  ∧ CollectionConfig.get_performance_impact d = Ok (performanceImpact c).
Proof.
  unfold CollectionConfig.to_api_dict, CollectionConfig.getattr, BaseModel.getattr_result.
  destruct (d !! "sensor_interval"); [|discriminate].
  destruct (d !! "rfid_interval"); [|discriminate].
  destruct (d !! "is_paused"); [|discriminate].
  destruct (d !! "updated_by"); [|discriminate].
  destruct (CollectionConfig.get_performance_impact d); [|discriminate].
  intros [= <-]. simpl. auto.
Qed.

Lemma performance_impact_Ok d p :
  CollectionConfig.get_performance_impact d = Ok p →
  ∃ sv rv, d !! "sensor_interval" = Some sv ∧ d !! "rfid_interval" = Some rv
           ∧ int_truediv_by 60 sv = Ok (sensorLoad p) ∧ int_truediv_by 60 rv = Ok (rfidLoad p).
Proof.
  unfold CollectionConfig.get_performance_impact, CollectionConfig.getattr,
    BaseModel.getattr_result.
  destruct (d !! "sensor_interval") as [sv|]; [|discriminate].
  destruct (int_truediv_by 60 sv) as [sl|] eqn:Esl; [|discriminate].
  destruct (d !! "rfid_interval") as [rv|]; [|discriminate].
  destruct (int_truediv_by 60 rv) as [rl|] eqn:Erl; [|discriminate].
  intros [= <-]. simpl. exists sv, rv. auto.
Qed.

Lemma to_api_dict_built d sv rv pv uv sl rl :
  d !! "sensor_interval" = Some sv → d !! "rfid_interval" = Some rv →
  d !! "is_paused" = Some pv → d !! "updated_by" = Some uv →
  int_truediv_by 60 sv = Ok sl → int_truediv_by 60 rv = Ok rl →
  ∃ c, CollectionConfig.to_api_dict d = Ok c
       ∧ sensorInterval c = sv ∧ rfidInterval c = rv ∧ isPaused c = pv ∧ updatedBy c = uv.
Proof.
  intros Hs Hr Hp Hu Hsl Hrl.
  unfold CollectionConfig.to_api_dict, CollectionConfig.get_performance_impact,
    CollectionConfig.getattr, BaseModel.getattr_result.
  rewrite Hs, Hr, Hp, Hu, Hsl, Hrl. eexists. split; [reflexivity|]. simpl. auto.
Qed.

Lemma accepted_interval_divides v lo hi :
  0 < lo → is_None v = false →
  CollectionFrequencyService.interval_rejected v lo hi = false →
  ∃ x, int_truediv_by 60 v = Ok x.
Proof.
  intros Hlo _. unfold CollectionFrequencyService.interval_rejected.
  destruct v as [|b|z|f|t]; simpl; try discriminate.
  - destruct b; simpl; [eauto|]. intros Hb. apply orb_false_elim in Hb as [Hb _].
    apply Z.ltb_ge in Hb. lia.
  - intros Hz. apply orb_false_elim in Hz as [Hz _]. apply Z.ltb_ge in Hz.
    destruct (z =? 0) eqn:E; [apply Z.eqb_eq in E; lia | eauto].
Qed.

Lemma check_config_data_Ok s r p :
  CollectionFrequencyService.check_config_data s r p = Ok tt →
  (is_None s = false → CollectionFrequencyService.interval_rejected s
       CollectionConfig.MIN_SENSOR_INTERVAL CollectionConfig.MAX_SENSOR_INTERVAL = false)
  ∧ (is_None r = false → CollectionFrequencyService.interval_rejected r
       CollectionConfig.MIN_RFID_INTERVAL CollectionConfig.MAX_RFID_INTERVAL = false)
  ∧ (is_None p = false → isinstance_bool p = true).
Proof.
  unfold CollectionFrequencyService.check_config_data.
  destruct (is_None s); simpl.
  - destruct (is_None r); simpl.
    + destruct (is_None p); simpl; [intros _; repeat split; discriminate|].
      destruct (isinstance_bool p); simpl; [|discriminate]. intros _. repeat split; discriminate.
    + destruct (CollectionFrequencyService.interval_rejected r _ _); [discriminate|].
      destruct (is_None p); simpl; [intros _; repeat split; discriminate|].
      destruct (isinstance_bool p); simpl; [|discriminate]. intros _. repeat split; discriminate.
  - destruct (CollectionFrequencyService.interval_rejected s _ _); [discriminate|].
    destruct (is_None r); simpl.
    + destruct (is_None p); simpl; [intros _; repeat split; discriminate|].
      destruct (isinstance_bool p); simpl; [|discriminate]. intros _. repeat split; discriminate.
    + destruct (CollectionFrequencyService.interval_rejected r _ _); [discriminate|].
      destruct (is_None p); simpl; [intros _; repeat split; discriminate|].
      destruct (isinstance_bool p); simpl; [|discriminate]. intros _. repeat split; discriminate.
Qed.

Lemma attempted_answer s r p by_ t d old o' :
  CollectionFrequencyService.check_config_data s r p = Ok tt →
  CollectionConfig.to_api_dict d = Ok old →
  (∀ k, k ≠ "created_at" → k ≠ "updated_at" →
        BaseModel.data o' !! k = attempted s r p by_ t d !! k) →
  ∃ c, CollectionConfig.to_api_dict (BaseModel.data o') = Ok c
       ∧ sensorInterval c = (if is_None s then sensorInterval old else s)
       ∧ rfidInterval c = (if is_None r then rfidInterval old else r)
       ∧ isPaused c = (if is_None p then isPaused old else p)
       ∧ updatedBy c = PStr by_.
Proof.
  intros Hcheck Hold Hd.
  apply check_config_data_Ok in Hcheck as (Hs & Hr & _).
  pose proof (to_api_dict_Ok _ _ Hold) as (Hos & Hor & Hop & _ & Himp).
  apply performance_impact_Ok in Himp as (sv & rv & Hsv & Hrv & Hsl & Hrl).
  assert (sv = sensorInterval old) as -> by congruence.
  assert (rv = rfidInterval old) as -> by congruence.
  assert (∃ x, int_truediv_by 60 (if is_None s then sensorInterval old else s) = Ok x)
    as [sl Hsl'].
  { destruct (is_None s) eqn:Es; [eauto|].
    eapply accepted_interval_divides; [|exact Es|apply Hs; reflexivity]. reflexivity. }
  assert (∃ x, int_truediv_by 60 (if is_None r then rfidInterval old else r) = Ok x)
    as [rl Hrl'].
  { destruct (is_None r) eqn:Er; [eauto|].
    eapply accepted_interval_divides; [|exact Er|apply Hr; reflexivity]. reflexivity. }
  eapply to_api_dict_built; [| | | |exact Hsl'|exact Hrl'].
  - rewrite Hd by done. rewrite attempted_sensor. destruct (is_None s); [exact Hos|reflexivity].
  - rewrite Hd by done. rewrite attempted_rfid. destruct (is_None r); [exact Hor|reflexivity].
  - rewrite Hd by done. rewrite attempted_paused. destruct (is_None p); [exact Hop|reflexivity].
  - rewrite Hd by done. apply attempted_updated_by.
Qed.

Lemma status_section_noop already step label by_ noop done_ failed w v :
  BaseModel.data (_current_config (frequency_service w)) !! "is_paused" = Some v →
  already v = true →
  status_section already step label by_ noop done_ failed w = Returns noop w.
Proof.
  intros Hv Ha. unfold status_section, bind, get_state, of_result, CollectionConfig.getattr,
    BaseModel.getattr_result. rewrite Hv. unfold ret at 1. rewrite Ha. reflexivity.
Qed.

Lemma status_section_locked already step label by_ noop done_ failed w v :
  BaseModel.data (_current_config (frequency_service w)) !! "is_paused" = Some v →
  already v = false →
  success failed = false →
  lock_held w = true →
  match status_section already step label by_ noop done_ failed w with
  | Returns rep w' => success rep = false ∧ lock_held w' = true
  | Raises _ w' => lock_held w' = true
  | Blocks w' => lock_held w' = true
  end.
Proof.
  intros Hv Ha Hf Hw. unfold status_section. unfold bind at 1. unfold get_state.
  unfold bind at 1. unfold of_result, CollectionConfig.getattr, BaseModel.getattr_result.
  rewrite Hv. unfold ret at 1. rewrite Ha.
  pose proof (keeps_lock_on_current_config step w) as K2. unfold bind at 1.
  destruct (CollectionFrequencyService.on_current_config step w) as [ok w2|e w2|w2];
    simpl in K2; [|congruence..].
  assert (Hw2 : lock_held w2 = true) by congruence. clear K2.
  destruct ok; [|simpl; auto].
  pose proof (keeps_lock_record_status_change label by_ w2) as K3. unfold bind at 1.
  destruct (CollectionFrequencyService._record_status_change label by_ w2)
    as [[] w3|e w3|w3]; simpl in K3; [|congruence..].
  assert (Hw3 : lock_held w3 = true) by congruence. clear K3.
  unfold bind. rewrite notify_status_blocks by exact Hw3. exact Hw3.
Qed.

Lemma status_section_Raises already step label by_ noop done_ failed w v e o' st' :
  BaseModel.data (_current_config (frequency_service w)) !! "is_paused" = Some v →
  already v = false →
  step (_current_config (frequency_service w), store w) = Raises e (o', st') →
  status_section already step label by_ noop done_ failed w = Raises e (failed_state w o' st').
Proof.
  intros Hv Ha Hs. unfold status_section. unfold bind at 1. unfold get_state.
  unfold bind at 1. unfold of_result, CollectionConfig.getattr, BaseModel.getattr_result.
  rewrite Hv. unfold ret at 1. rewrite Ha.
  unfold bind. rewrite (on_current_config_Raises _ _ _ _ _ Hs). reflexivity.
Qed.

Lemma pause_collection_noop by_ w v :
  lock_held w = false →
  BaseModel.data (_current_config (frequency_service w)) !! "is_paused" = Some v →
  py_truthy v = true →
  CollectionFrequencyService.pause_collection by_ w = Returns already_paused_reply w.
Proof.
  intros Hw Hv Ht. unfold CollectionFrequencyService.pause_collection, try_except.
  rewrite with_lock_free by exact Hw.
  pose proof (status_section_noop py_truthy (CollectionConfig.pause_collection by_) "paused" by_
    already_paused_reply
    {| success := true; message := "数据采集已暂停"; config := None; status := Some "paused" |}
    {| success := false; message := "暂停数据采集失败"; config := None; status := Some "unknown" |}
    (set_service (CollectionFrequencyService.set_lock true) w) v Hv Ht) as Hn.
  unfold status_section, already_paused_reply in Hn. rewrite Hn.
  unfold already_paused_reply. f_equal. apply unlock_after_lock. exact Hw.
Qed.

Lemma pause_collection_never_succeeds by_ w v :
  lock_held w = false →
  BaseModel.data (_current_config (frequency_service w)) !! "is_paused" = Some v →
  py_truthy v = false →
  never_succeeds (CollectionFrequencyService.pause_collection by_ w).
Proof.
  intros Hw Hv Ht. unfold CollectionFrequencyService.pause_collection, try_except.
  rewrite with_lock_free by exact Hw.
  pose proof (status_section_locked py_truthy (CollectionConfig.pause_collection by_) "paused" by_
    already_paused_reply
    {| success := true; message := "数据采集已暂停"; config := None; status := Some "paused" |}
    {| success := false; message := "暂停数据采集失败"; config := None; status := Some "unknown" |}
    (set_service (CollectionFrequencyService.set_lock true) w) v Hv Ht eq_refl eq_refl) as Hn.
  unfold status_section, already_paused_reply in Hn.
  destruct (bind get_state _ _) as [rep w1|e w1|w1]; simpl; tauto.
Qed.

Lemma resume_collection_noop by_ w v :
  lock_held w = false →
  BaseModel.data (_current_config (frequency_service w)) !! "is_paused" = Some v →
  py_truthy v = false →
  CollectionFrequencyService.resume_collection by_ w = Returns already_running_reply w.
Proof.
  intros Hw Hv Ht. unfold CollectionFrequencyService.resume_collection, try_except.
  rewrite with_lock_free by exact Hw.
  pose proof (status_section_noop (λ x, negb (py_truthy x))
    (CollectionConfig.resume_collection by_) "running" by_
    already_running_reply
    {| success := true; message := "数据采集已恢复"; config := None; status := Some "running" |}
    {| success := false; message := "恢复数据采集失败"; config := None; status := Some "unknown" |}
    (set_service (CollectionFrequencyService.set_lock true) w) v Hv) as Hn.
  simpl in Hn. rewrite Ht in Hn. specialize (Hn eq_refl).
  unfold status_section, already_running_reply in Hn. rewrite Hn.
  unfold already_running_reply. f_equal. apply unlock_after_lock. exact Hw.
Qed.

Lemma resume_collection_never_succeeds by_ w v :
  lock_held w = false →
  BaseModel.data (_current_config (frequency_service w)) !! "is_paused" = Some v →
  py_truthy v = true →
  never_succeeds (CollectionFrequencyService.resume_collection by_ w).
Proof.
  intros Hw Hv Ht. unfold CollectionFrequencyService.resume_collection, try_except.
  rewrite with_lock_free by exact Hw.
  pose proof (status_section_locked (λ x, negb (py_truthy x))
    (CollectionConfig.resume_collection by_) "running" by_
    already_running_reply
    {| success := true; message := "数据采集已恢复"; config := None; status := Some "running" |}
    {| success := false; message := "恢复数据采集失败"; config := None; status := Some "unknown" |}
    (set_service (CollectionFrequencyService.set_lock true) w) v Hv) as Hn.
  simpl in Hn. rewrite Ht in Hn. specialize (Hn eq_refl eq_refl eq_refl).
  unfold status_section, already_running_reply in Hn.
  destruct (bind get_state _ _) as [rep w1|e w1|w1]; simpl; tauto.
Qed.

Lemma reset_to_default_never_succeeds by_ w :
  lock_held w = false →
  never_succeeds (CollectionFrequencyService.reset_to_default by_ w).
Proof.
  intros Hw. unfold CollectionFrequencyService.reset_to_default, try_except.
  rewrite with_lock_free by exact Hw.
  pose proof (config_section_locked (CollectionConfig.reset_to_default by_)
                by_ "reset" "配置已重置为默认值" "重置配置失败"
                (set_service (CollectionFrequencyService.set_lock true) w) eq_refl) as Hs.
  unfold config_section in Hs.
  destruct (bind CollectionFrequencyService.current_api_dict _ _) as [rep w1|e w1|w1].
  - simpl. tauto.
  - unfold bind. rewrite get_current_config_Returns by reflexivity. reflexivity.
  - simpl. exact Hs.
Qed.

End ControllerFacts.

(* ===================================================================== *)
(** ** The performance estimate *)
(* ===================================================================== *)

Lemma SFcompare_swap a b : SFcompare b a = CompOpp <$> SFcompare a b.
Proof.
  destruct a as [sa|sa| |sa ma ea], b as [sb|sb| |sb mb eb]; simpl;
    try reflexivity; try (destruct sa; reflexivity); try (destruct sb; reflexivity);
    try (destruct sa, sb; reflexivity).
  destruct sa, sb; simpl; try reflexivity.
  - rewrite (Z.compare_antisym ea eb). destruct (ea ?= eb); simpl; try reflexivity.
    do 2 f_equal. symmetry. exact (Pos.compare_cont_antisym ma mb Eq).
  - rewrite (Z.compare_antisym ea eb). destruct (ea ?= eb); simpl; try reflexivity.
    f_equal. symmetry. exact (Pos.compare_cont_antisym ma mb Eq).
Qed.

Lemma float_ltb_comparable a t : PrimFloat.ltb a t = true → ∀ b, Prim2SF b ≠ S754_nan →
  ∃ c, SFcompare (Prim2SF b) (Prim2SF t) = Some c.
Proof.
  rewrite ltb_spec. unfold SFltb. intros Hlt b Hb.
  destruct (Prim2SF t) as [st|st| |st mt et] eqn:Et.
  - destruct (Prim2SF b) as [sb|sb| |sb mb eb]; simpl; eauto; congruence.
  - destruct (Prim2SF b) as [sb|sb| |sb mb eb]; simpl; eauto; congruence.
  - destruct (Prim2SF a); simpl in Hlt; discriminate.
  - destruct (Prim2SF b) as [sb|sb| |sb mb eb]; simpl; eauto; congruence.
Qed.

Lemma float_not_above_iff_at_most b t :
  (∃ c, SFcompare (Prim2SF b) (Prim2SF t) = Some c) →
  PrimFloat.ltb b t = false ↔ PrimFloat.leb t b = true.
Proof.
  intros [c Hc]. rewrite ltb_spec, leb_spec. unfold SFltb, SFleb.
  rewrite (SFcompare_swap (Prim2SF b) (Prim2SF t)), Hc. simpl.
  destruct c; simpl; split; congruence.
Qed.

Lemma float_20_not_nan : Prim2SF 20 ≠ S754_nan.
Proof. vm_compute. discriminate. Qed.

Lemma above_10_not_above_20 t :
  PrimFloat.ltb 10 t = true → PrimFloat.ltb 20 t = false ↔ PrimFloat.leb t 20 = true.
Proof.
  intros H10. apply float_not_above_iff_at_most.
  exact (float_ltb_comparable 10 t H10 20%float float_20_not_nan).
Qed.

(** C5 (the estimate, and the one payload that does not carry it): whenever
    [get_performance_impact] answers, on the attributes [d], the loads are
    [60 / sensor_interval] and [60 / rfid_interval], the total is their sum,
    the CPU estimate is [min(100, (sensor_load * 0.5 + rfid_load * 1.0) /
    100)], the memory estimate is [sensor_load * 0.1 + rfid_load * 0.2], the
    level is high exactly when the total exceeds 20, medium exactly when it
    exceeds 10 and not 20, low otherwise, and a warning is present exactly
    for high and medium. It answers for all non-zero integer intervals,
    [to_api_dict] attaches exactly this estimate to the payload, and for 30
    and 10 the loads are 2.0, 6.0 and 8.0, the level is low, there is no
    warning and the CPU estimate is 0.07. But [get_current_config], on a
    free mutex, answers with the payload of [to_api_dict] only when the
    cached object can be rendered; when it cannot, it answers with a literal
    payload whose intervals are 30 and 10 and whose CPU estimate is 3.5, not
    the 0.07 of the function (its memory estimate, 1.4, is one binary64 step
    below the function's). A controller constructed on a database whose
    latest row has the sensor interval 0 answers with that literal. *)
Theorem performance_estimate_except_in_the_fallback :
  (∀ d p, CollectionConfig.get_performance_impact d = Ok p →
     ∃ sensor_interval rfid_interval,
       d !! "sensor_interval" = Some sensor_interval
       ∧ d !! "rfid_interval" = Some rfid_interval
       ∧ int_truediv_by 60 sensor_interval = Ok (sensorLoad p)
       ∧ int_truediv_by 60 rfid_interval = Ok (rfidLoad p)
       ∧ totalLoad p = (sensorLoad p + rfidLoad p)%float
       ∧ estimatedCpuUsage p
         = (let x := ((sensorLoad p * 0.5 + rfidLoad p * 1.0) / 100)%float in
            if PrimFloat.ltb 100 x then PInt 100 else PFloat x)
       ∧ estimatedMemoryMB p = (sensorLoad p * 0.1 + rfidLoad p * 0.2)%float
       ∧ (performanceLevel p = "high" ↔ PrimFloat.ltb 20 (totalLoad p) = true)
       ∧ (performanceLevel p = "medium"
          ↔ PrimFloat.ltb 10 (totalLoad p) = true ∧ PrimFloat.leb (totalLoad p) 20 = true)
       ∧ (performanceLevel p = "low"
          ↔ performanceLevel p ≠ "high" ∧ performanceLevel p ≠ "medium")
       ∧ (is_Some (warning p)
          ↔ performanceLevel p = "high" ∨ performanceLevel p = "medium"))
  ∧ (∀ d s r, d !! "sensor_interval" = Some (PInt s) → d !! "rfid_interval" = Some (PInt r) →
       s ≠ 0 → r ≠ 0 →
       ∃ p, CollectionConfig.get_performance_impact d = Ok p
            ∧ sensorLoad p = int_truediv 60 s ∧ rfidLoad p = int_truediv 60 r)
  ∧ (∀ d c, CollectionConfig.to_api_dict d = Ok c →
            CollectionConfig.get_performance_impact d = Ok (performanceImpact c))
  ∧ (∀ d, d !! "sensor_interval" = Some (PInt 30) → d !! "rfid_interval" = Some (PInt 10) →
       ∃ p, CollectionConfig.get_performance_impact d = Ok p
            ∧ sensorLoad p = 2.0%float ∧ rfidLoad p = 6.0%float ∧ totalLoad p = 8.0%float
            ∧ estimatedCpuUsage p = PFloat 0.07
            ∧ estimatedMemoryMB p = 1.4000000000000001%float
            ∧ performanceLevel p = "low" ∧ warning p = None)
  ∧ (∀ (callbacks : Callbacks) (w : World), lock_held w = false →
       CollectionFrequencyService.get_current_config w = Returns (answer_of (cached w)) w
       ∧ (∀ c, CollectionConfig.to_api_dict (BaseModel.data (cached w)) = Ok c →
               answer_of (cached w) = c)
       ∧ (∀ e, CollectionConfig.to_api_dict (BaseModel.data (cached w)) = Err e →
               answer_of (cached w) = CollectionFrequencyService.default_api_dict))
  ∧ (sensorInterval CollectionFrequencyService.default_api_dict = PInt 30
     ∧ rfidInterval CollectionFrequencyService.default_api_dict = PInt 10
     ∧ estimatedCpuUsage (performanceImpact CollectionFrequencyService.default_api_dict)
       = PFloat 3.5
     ∧ estimatedMemoryMB (performanceImpact CollectionFrequencyService.default_api_dict)
       = 1.4%float
     ∧ PrimFloat.eqb 1.4 1.4000000000000001 = false)
  ∧ (lock_held zero_interval_world = false
     ∧ dict_get (BaseModel.data (cached zero_interval_world)) "sensor_interval" = PInt 0
     ∧ CollectionFrequencyService.get_current_config zero_interval_world
       = Returns CollectionFrequencyService.default_api_dict zero_interval_world).
Proof.
  split; [|split; [|split; [|split; [|split; [|split]]]]].
  - intros d p. unfold CollectionConfig.get_performance_impact, CollectionConfig.getattr,
      BaseModel.getattr_result.
    destruct (d !! "sensor_interval") as [sv|]; [|discriminate].
    destruct (int_truediv_by 60 sv) as [sl|] eqn:Esl; [|discriminate].
    destruct (d !! "rfid_interval") as [rv|]; [|discriminate].
    destruct (int_truediv_by 60 rv) as [rl|] eqn:Erl; [|discriminate].
    intros [= <-]. exists sv, rv. simpl.
    do 2 (split; [reflexivity|]). split; [exact Esl|]. split; [exact Erl|].
    do 3 (split; [reflexivity|]).
    destruct (PrimFloat.ltb 20 (sl + rl)) eqn:E20; simpl.
    + split; [split; reflexivity|]. split; [|split].
      * split; [discriminate|]. intros [H10 Hle].
        apply above_10_not_above_20 in Hle; [congruence | exact H10].
      * split; [discriminate|]. intros [Hh _]. congruence.
      * split; [intros _; left; reflexivity | intros _; eexists; reflexivity].
    + destruct (PrimFloat.ltb 10 (sl + rl)) eqn:E10; simpl.
      * split; [split; discriminate|]. split; [|split].
        -- split; [intros _; split; [reflexivity|] | reflexivity].
           apply above_10_not_above_20; assumption.
        -- split; [discriminate|]. intros [_ Hm]. congruence.
        -- split; [intros _; right; reflexivity | intros _; eexists; reflexivity].
      * split; [split; discriminate|]. split; [|split].
        -- split; [discriminate|]. intros [? _]. discriminate.
        -- split; [intros _; split; discriminate | reflexivity].
        -- split; [intros [x Hx]; discriminate | intros [?|?]; discriminate].
  - intros d s r Hs Hr Hs0 Hr0.
    unfold CollectionConfig.get_performance_impact, CollectionConfig.getattr,
      BaseModel.getattr_result. rewrite Hs, Hr. simpl.
    destruct (s =? 0) eqn:Es; [apply Z.eqb_eq in Es; contradiction|].
    destruct (r =? 0) eqn:Er; [apply Z.eqb_eq in Er; contradiction|].
    eexists. split; [reflexivity|]. split; reflexivity.
  - intros d c.
    unfold CollectionConfig.to_api_dict, CollectionConfig.getattr, BaseModel.getattr_result.
    destruct (d !! "sensor_interval"); [|discriminate].
    destruct (d !! "rfid_interval"); [|discriminate].
    destruct (d !! "is_paused"); [|discriminate].
    destruct (d !! "updated_by"); [|discriminate].
    destruct (CollectionConfig.get_performance_impact d); [|discriminate].
    intros [= <-]. reflexivity.
  - intros d Hs Hr. unfold CollectionConfig.get_performance_impact, CollectionConfig.getattr,
      BaseModel.getattr_result. rewrite Hs, Hr. eexists. split; [reflexivity|].
    vm_compute. repeat split; reflexivity.
  - intros callbacks w Hw. split; [|split].
    + apply (get_current_config_Returns w Hw).
    + intros c Hc. unfold answer_of. rewrite Hc. reflexivity.
    + intros e He. unfold answer_of. rewrite He. reflexivity.
  - vm_compute. repeat split; reflexivity.
  - vm_compute. repeat split; reflexivity.
Qed.

(* ===================================================================== *)
(** ** Computations that never wait *)
(* ===================================================================== *)

Section NeverBlocks.
Context {S : Type}.

Lemma never_blocks_ret {A} (a : A) : never_blocks (ret a : M S A).
Proof. intros s s'. discriminate. Qed.

Lemma never_blocks_raise {A} e : never_blocks (raise e : M S A).
Proof. intros s s'. discriminate. Qed.

Lemma never_blocks_of_result {A} (r : result A) : never_blocks (of_result r : M S A).
Proof. destruct r; intros s s'; discriminate. Qed.

Lemma never_blocks_get_state : never_blocks (get_state : M S S).
Proof. intros s s'. discriminate. Qed.

Lemma never_blocks_modify f : never_blocks (modify f : M S unit).
Proof. intros s s'. discriminate. Qed.

Lemma never_blocks_bind {A B} (m : M S A) (k : A → M S B) :
  never_blocks m → (∀ a, never_blocks (k a)) → never_blocks (bind m k).
Proof.
  intros Hm Hk s s'. unfold bind. specialize (Hm s).
  destruct (m s) as [a s1|e s1|s1]; [apply Hk | discriminate | exfalso; eapply Hm; reflexivity].
Qed.

Lemma never_blocks_try {A} (m : M S A) h :
  never_blocks m → (∀ e, never_blocks (h e)) → never_blocks (try_except m h).
Proof.
  intros Hm Hh s s'. unfold try_except. specialize (Hm s).
  destruct (m s) as [a s1|e s1|s1]; [discriminate | apply Hh | exfalso; eapply Hm; reflexivity].
Qed.

Lemma never_blocks_zoom {T A} (get : S → T) set (m : M T A) :
  never_blocks m → never_blocks (zoom get set m).
Proof.
  intros Hm s s'. unfold zoom. specialize (Hm (get s)).
  destruct (m (get s)) as [a t|e t|t]; [discriminate.. | exfalso; eapply Hm; reflexivity].
Qed.

End NeverBlocks.

Ltac never_blocks_step :=
  first
    [ apply never_blocks_ret | apply never_blocks_raise | apply never_blocks_of_result
    | apply never_blocks_get_state | apply never_blocks_modify
    | apply never_blocks_bind; [|intros ?]
    | apply never_blocks_try; [|intros ?]
    | apply never_blocks_zoom
    | match goal with
      | |- never_blocks (match ?x with _ => _ end) => destruct x
      | |- never_blocks (if ?x then _ else _) => destruct x
      end
    | progress cbv zeta ].

Lemma never_blocks_now : never_blocks now_isoformat.
Proof. intros s s'. discriminate. Qed.

Lemma never_blocks_sql_begin : never_blocks sql_begin.
Proof. intros s s'. unfold sql_begin. destruct (sql_fault s _); discriminate. Qed.

Lemma never_blocks_execute_insert tbl values : never_blocks (execute_insert tbl values).
Proof.
  unfold execute_insert. repeat first [apply never_blocks_sql_begin | never_blocks_step].
Qed.

Lemma never_blocks_execute_update tbl changed key : never_blocks (execute_update tbl changed key).
Proof.
  unfold execute_update. repeat first [apply never_blocks_sql_begin | never_blocks_step].
Qed.

Lemma never_blocks_execute_select : never_blocks execute_select.
Proof.
  unfold execute_select. repeat first [apply never_blocks_sql_begin | never_blocks_step].
Qed.

Lemma never_blocks_create cls kwargs :
  (∀ kw, never_blocks (BaseModel.construct cls kw)) →
  never_blocks (BaseModel.create cls kwargs).
Proof.
  intros Hc. unfold BaseModel.create.
  repeat first [apply never_blocks_now | apply never_blocks_execute_insert | apply Hc
               | never_blocks_step].
Qed.

Lemma never_blocks_save cls : never_blocks (BaseModel.save cls).
Proof.
  unfold BaseModel.save, BaseModel._update, BaseModel._insert, BaseModel.self_data,
    BaseModel.on_store, BaseModel.setattr, BaseModel.set_data, BaseModel.copy_to_original.
  repeat first [apply never_blocks_now | apply never_blocks_execute_insert
               | apply never_blocks_execute_update
               | match goal with |- never_blocks (λ s, Returns _ s) => intros ? ?; discriminate end
               | never_blocks_step].
Qed.

(* ===================================================================== *)
(** ** The scheduler: the two ticks and their error list *)
(* ===================================================================== *)

Section SchedulerFacts.
Context {builtins : Builtins} {callbacks : Callbacks} {dispatch : Dispatch}
        {triggers : Triggers}.

Lemma keeps_scheduler_ret {A} (a : A) : keeps_scheduler (ret a).
Proof. intros w. reflexivity. Qed.

Lemma keeps_scheduler_of_result {A} (r : result A) : keeps_scheduler (of_result r).
Proof. destruct r; intros w; reflexivity. Qed.

Lemma keeps_scheduler_get_state : keeps_scheduler get_state.
Proof. intros w. reflexivity. Qed.

Lemma keeps_scheduler_bind {A B} (m : M World A) (k : A → M World B) :
  keeps_scheduler m → (∀ a, keeps_scheduler (k a)) → keeps_scheduler (bind m k).
Proof.
  intros Hm Hk w. unfold bind. specialize (Hm w).
  destruct (m w) as [a w1|e w1|w1]; simpl in *; [|exact Hm..].
  rewrite Hk. exact Hm.
Qed.

Lemma keeps_scheduler_in_store {A} (m : M Store A) : keeps_scheduler (in_store m).
Proof. intros w. unfold in_store, zoom. destruct (m (store w)); reflexivity. Qed.

Lemma keeps_scheduler_random_random : keeps_scheduler CollectionScheduler.random_random.
Proof. intros w. reflexivity. Qed.

Lemma keeps_scheduler_random_uniform a b : keeps_scheduler (CollectionScheduler.random_uniform a b).
Proof.
  apply keeps_scheduler_bind; [apply keeps_scheduler_random_random|].
  intros r. apply keeps_scheduler_ret.
Qed.

Lemma keeps_scheduler_random_choice {A} (l : list A) :
  keeps_scheduler (CollectionScheduler.random_choice l).
Proof. intros w. unfold CollectionScheduler.random_choice. destruct (l !! _); reflexivity. Qed.

Lemma keeps_scheduler_on_tag {A} tag (m : BaseModel.Meth A) :
  keeps_scheduler (CollectionScheduler.on_tag tag m).
Proof. intros w. unfold CollectionScheduler.on_tag. destruct (m _); reflexivity. Qed.

Lemma keeps_scheduler_collect_one sensor_id info :
  keeps_scheduler (CollectionScheduler.collect_one_sensor sensor_id info).
Proof.
  unfold CollectionScheduler.collect_one_sensor.
  repeat first [ apply keeps_scheduler_ret | apply keeps_scheduler_in_store
               | apply keeps_scheduler_random_uniform
               | apply keeps_scheduler_bind; [|intros ?] | progress cbv zeta ].
Qed.

Lemma keeps_scheduler_collect_all sensors :
  keeps_scheduler (CollectionScheduler.collect_all_sensors sensors).
Proof.
  induction sensors as [|[sensor_id info] rest IH]; simpl.
  - apply keeps_scheduler_ret.
  - apply keeps_scheduler_bind; [apply keeps_scheduler_collect_one | intros _; exact IH].
Qed.

Lemma errors_of_without job_type l : errors_of job_type (CollectionScheduler.without_errors_of job_type l) = [].
Proof.
  unfold errors_of, CollectionScheduler.without_errors_of. induction l as [|x l IH]; simpl; [reflexivity|].
  destruct (String.eqb (err_type x) job_type) eqn:E; simpl; [exact IH|]. rewrite E. exact IH.
Qed.

Lemma in_store_now w :
  in_store now_isoformat w
  = Returns (clock (store w) (clock_reads (store w))) (set_store (count_clock_read (store w)) w).
Proof. reflexivity. Qed.

Lemma record_error_Returns job_type e w :
  ∃ w', CollectionScheduler.record_error job_type e w = Returns tt w'
        ∧ _collection_errors (collection_scheduler w')
          = _collection_errors (collection_scheduler w)
            ++ [{| err_type := job_type; err_message := exn_text e;
                   err_timestamp := clock (store w) (clock_reads (store w)) |}].
Proof. eexists. split; reflexivity. Qed.

Lemma tick_with_epilogue {A} (sampling : M World A) set_last job_type w :
  (∀ t s, _collection_errors (set_last t s) = _collection_errors s) →
  keeps_scheduler sampling →
  match bind sampling (λ _, tick_epilogue set_last job_type) w with
  | Raises e w1 =>
      _collection_errors (collection_scheduler w1) = _collection_errors (collection_scheduler w)
  | Returns _ w1 =>
      _collection_errors (collection_scheduler w1)
      = CollectionScheduler.without_errors_of job_type (_collection_errors (collection_scheduler w))
  | Blocks w1 => sampling w = Blocks w1
  end.
Proof.
  intros Hset Hk. unfold bind at 1. specialize (Hk w).
  destruct (sampling w) as [a w1|e w1|w1]; simpl in Hk; [|congruence|reflexivity].
  unfold tick_epilogue, bind, modify. rewrite in_store_now. simpl.
  rewrite Hset. rewrite Hk. reflexivity.
Qed.

Lemma never_blocks_in_store {A} (m : M Store A) : never_blocks m → never_blocks (in_store m).
Proof. apply never_blocks_zoom. Qed.

Lemma never_blocks_random_random : never_blocks CollectionScheduler.random_random.
Proof. intros s s'. discriminate. Qed.

Lemma never_blocks_random_choice {A} (l : list A) :
  never_blocks (CollectionScheduler.random_choice l).
Proof. intros s s'. unfold CollectionScheduler.random_choice. destruct (l !! _); discriminate. Qed.

Lemma never_blocks_on_tag {A} tag (m : BaseModel.Meth A) :
  never_blocks m → never_blocks (CollectionScheduler.on_tag tag m).
Proof.
  intros Hm s s'. unfold CollectionScheduler.on_tag. specialize (Hm (tag, store s)).
  destruct (m _) as [a t|e t|t]; [discriminate.. | exfalso; eapply Hm; reflexivity].
Qed.

Ltac nb_with tac :=
  repeat first
    [ tac | apply never_blocks_now | apply never_blocks_execute_insert
    | apply never_blocks_execute_update | apply never_blocks_execute_select
    | apply never_blocks_save | apply never_blocks_random_random
    | apply never_blocks_random_choice
    | apply never_blocks_in_store | apply never_blocks_on_tag
    | apply never_blocks_create; intros ?
    | match goal with |- never_blocks (λ s, Returns _ s) => intros ? ?; discriminate end
    | never_blocks_step ].

Ltac nb := nb_with fail.

Lemma never_blocks_collect_all sensors :
  never_blocks (CollectionScheduler.collect_all_sensors sensors).
Proof.
  induction sensors as [|[sensor_id info] rest IH]; simpl; [apply never_blocks_ret|].
  apply never_blocks_bind; [|intros _; exact IH].
  unfold CollectionScheduler.collect_one_sensor, CollectionScheduler.random_uniform.
  nb. simpl. unfold EnvironmentData.__init__. nb.
Qed.

Lemma never_blocks_update_location location device_id :
  never_blocks (RfidTag.update_location location device_id).
Proof.
  unfold RfidTag.update_location, RfidTag._get_archive_id_by_tag, BaseModel.setattr,
    BaseModel.set_data, BaseModel.on_store, BaseModel.self_data, Archive.find_one.
  nb. simpl. unfold LocationHistory.__init__. nb.
Qed.

Lemma never_blocks_sensor_sampling : never_blocks sensor_sampling.
Proof. unfold sensor_sampling. nb_with ltac:(apply never_blocks_collect_all). Qed.

Lemma never_blocks_rfid_sampling : never_blocks rfid_sampling.
Proof.
  unfold rfid_sampling, RfidTag.get_active_tags.
  nb_with ltac:(apply never_blocks_update_location).
Qed.

Lemma keeps_scheduler_sensor_sampling : keeps_scheduler sensor_sampling.
Proof.
  unfold sensor_sampling. apply keeps_scheduler_bind; [apply keeps_scheduler_get_state|].
  intros w. apply keeps_scheduler_collect_all.
Qed.

Lemma keeps_scheduler_rfid_sampling : keeps_scheduler rfid_sampling.
Proof.
  unfold rfid_sampling.
  repeat first [ apply keeps_scheduler_ret | apply keeps_scheduler_in_store
               | apply keeps_scheduler_random_random | apply keeps_scheduler_random_choice
               | apply keeps_scheduler_on_tag | apply keeps_scheduler_of_result
               | apply keeps_scheduler_get_state
               | apply keeps_scheduler_bind; [|intros ?]
               | match goal with
                 | |- keeps_scheduler (match ?x with _ => _ end) => destruct x
                 | |- keeps_scheduler (if ?x then _ else _) => destruct x
                 end ].
Qed.

Lemma sensor_body_eq :
  CollectionScheduler.collect_sensor_data_body
  = bind sensor_sampling (λ _, tick_epilogue CollectionScheduler.set_sensor_last_collection "sensor").
Proof. reflexivity. Qed.

Lemma rfid_body_eq :
  CollectionScheduler.scan_rfid_devices_body
  = bind rfid_sampling (λ _, tick_epilogue CollectionScheduler.set_rfid_last_collection "rfid").
Proof. reflexivity. Qed.

Lemma tick_bookkeeping_of (sampling : M World unit) set_last job_type w :
  (∀ t s, _collection_errors (set_last t s) = _collection_errors s) →
  keeps_scheduler sampling → never_blocks sampling →
  tick_bookkeeping (bind sampling (λ _, tick_epilogue set_last job_type))
                   (try_except (bind sampling (λ _, tick_epilogue set_last job_type))
                               (CollectionScheduler.record_error job_type))
                   job_type w.
Proof.
  intros Hset Hk Hnb. unfold tick_bookkeeping, try_except, error_list.
  pose proof (tick_with_epilogue sampling set_last job_type w Hset Hk) as Ht.
  destruct (bind sampling _ w) as [[] w1|e w1|w1].
  - split; [reflexivity|]. split; [exact Ht|]. rewrite Ht. apply errors_of_without.
  - destruct (record_error_Returns job_type e w1) as (w' & Hr & He).
    exists w', (clock (store w1) (clock_reads (store w1))).
    split; [exact Hr|]. rewrite He, Ht. reflexivity.
  - exact (Hnb w w1 Ht).
Qed.

(** C7: the error list of the scheduler, tick by tick. For the sensor tick
    and for the RFID tick, started in any state: if the work of the tick
    fails, the tick still returns and the list is the old list followed by
    exactly one entry, of the type of the tick, with the text of the failure
    and a time stamp; if the work succeeds, the tick returns and the list is
    the old list without the entries of that type, so it holds no entry of
    that type; and the work of a tick never waits. *)
Theorem tick_error_bookkeeping w :
  tick_bookkeeping CollectionScheduler.collect_sensor_data_body
                   CollectionScheduler._collect_sensor_data "sensor" w
  ∧ tick_bookkeeping CollectionScheduler.scan_rfid_devices_body
                     CollectionScheduler._scan_rfid_devices "rfid" w.
Proof.
  split.
  - unfold CollectionScheduler._collect_sensor_data. rewrite sensor_body_eq.
    apply tick_bookkeeping_of;
      [ intros t s; reflexivity | apply keeps_scheduler_sensor_sampling
      | apply never_blocks_sensor_sampling ].
  - unfold CollectionScheduler._scan_rfid_devices. rewrite rfid_body_eq.
    apply tick_bookkeeping_of;
      [ intros t s; reflexivity | apply keeps_scheduler_rfid_sampling
      | apply never_blocks_rfid_sampling ].
Qed.

Lemma update_intervals_when_stopped s r w :
  is_running (collection_scheduler w) = false →
  scheduler_lock (collection_scheduler w) = false →
  CollectionScheduler.update_intervals s r w
  = Returns {| success := false; message := "数据采集未运行，无法更新间隔";
               config := None; status := Some "stopped" |} w.
Proof.
  intros Hr Hl. unfold CollectionScheduler.update_intervals, try_except,
    CollectionScheduler.with_lock. rewrite Hl. unfold bind, get_state. simpl. rewrite Hr. simpl.
  unfold ret. f_equal.
  destruct w as [st fs [run l sl rl errs js ja ms md] n rf ri]. simpl in *. subst. reflexivity.
Qed.

Lemma keeps_scheduler_on_current_config {A} (m : BaseModel.Meth A) :
  keeps_scheduler (CollectionFrequencyService.on_current_config m).
Proof.
  intros w. unfold CollectionFrequencyService.on_current_config, zoom.
  destruct (m _); reflexivity.
Qed.

Lemma keeps_scheduler_current_api_dict :
  keeps_scheduler CollectionFrequencyService.current_api_dict.
Proof.
  apply keeps_scheduler_bind; [apply keeps_scheduler_get_state|].
  intros w. apply keeps_scheduler_of_result.
Qed.

Lemma keeps_scheduler_log_config_change old new by_ action :
  keeps_scheduler (CollectionFrequencyService._log_config_change old new by_ action).
Proof.
  intros w. unfold CollectionFrequencyService._log_config_change, try_except. cbv zeta.
  destruct (_ || _).
  - pose proof (keeps_scheduler_in_store
                  (insert_system_log
                     {| log_level := "INFO"; log_module := "collection_frequency_service";
                        log_text := ConfigChangeLog action
                          ((if py_ne (sensorInterval old) (sensorInterval new)
                            then [SensorIntervalChanged (sensorInterval old) (sensorInterval new)]
                            else [])
                           ++ (if py_ne (rfidInterval old) (rfidInterval new)
                               then [RfidIntervalChanged (rfidInterval old) (rfidInterval new)]
                               else [])
                           ++ (if py_ne (isPaused old) (isPaused new)
                               then [CollectionStateChanged (py_truthy (isPaused new))]
                               else []));
                        log_user := by_ |}) w) as Hk.
    destruct (in_store _ w); simpl in *; exact Hk.
  - reflexivity.
Qed.

(** Under the controller's mutex the section of an update touches the
    store and the cached object, and then waits: the scheduler object is
    what it was, whatever the listeners would do. *)
Lemma config_section_keeps_scheduler step by_ action okm kom w :
  lock_held w = true →
  collection_scheduler (final (config_section step by_ action okm kom w))
  = collection_scheduler w.
Proof.
  intros Hw. unfold config_section.
  pose proof (keeps_lock_current_api_dict w) as H1.
  pose proof (keeps_scheduler_current_api_dict w) as K1. unfold bind at 1.
  destruct (CollectionFrequencyService.current_api_dict w) as [old w1|e w1|w1];
    simpl in H1, K1; [|exact K1..].
  assert (Hw1 : lock_held w1 = true) by congruence. clear H1.
  pose proof (keeps_lock_on_current_config step w1) as H2.
  pose proof (keeps_scheduler_on_current_config step w1) as K2. unfold bind at 1.
  destruct (CollectionFrequencyService.on_current_config step w1) as [ok w2|e w2|w2];
    simpl in H2, K2; [|simpl; congruence..].
  assert (Hw2 : lock_held w2 = true) by congruence. clear H2.
  destruct ok; [|simpl; congruence].
  pose proof (keeps_lock_current_api_dict w2) as H3.
  pose proof (keeps_scheduler_current_api_dict w2) as K3. unfold bind at 1.
  destruct (CollectionFrequencyService.current_api_dict w2) as [new w3|e w3|w3];
    simpl in H3, K3; [|simpl; congruence..].
  assert (Hw3 : lock_held w3 = true) by congruence. clear H3.
  pose proof (keeps_lock_log_config_change old new by_ action w3) as H4.
  pose proof (keeps_scheduler_log_config_change old new by_ action w3) as K4. unfold bind at 1.
  destruct (CollectionFrequencyService._log_config_change old new by_ action w3)
    as [[] w4|e w4|w4]; simpl in H4, K4; [|simpl; congruence..].
  assert (Hw4 : lock_held w4 = true) by congruence. clear H4.
  unfold bind. rewrite notify_config_blocks by exact Hw4. simpl. congruence.
Qed.

Lemma update_config_keeps_scheduler cfg by_ w :
  lock_held w = false →
  collection_scheduler (final (CollectionFrequencyService.update_config cfg by_ w))
  = collection_scheduler w.
Proof.
  intros Hw. unfold CollectionFrequencyService.update_config, try_except.
  unfold bind at 1.
  destruct (CollectionFrequencyService.check_config_data _ _ _) as [[]|e]; simpl.
  2:{ unfold raise, bind. rewrite get_current_config_Returns by exact Hw. reflexivity. }
  unfold ret at 1. rewrite with_lock_free by exact Hw.
  pose proof (config_section_keeps_scheduler
                (CollectionConfig.update_config (dict_get cfg "sensorInterval")
                   (dict_get cfg "rfidInterval") (dict_get cfg "isPaused") by_)
                by_ "update" "配置更新成功" "配置更新失败"
                (set_service (CollectionFrequencyService.set_lock true) w) eq_refl) as Hs.
  unfold config_section in Hs.
  destruct (bind CollectionFrequencyService.current_api_dict _ _) as [rep w1|e w1|w1].
  - simpl in *. exact Hs.
  - unfold bind. rewrite get_current_config_Returns by reflexivity. simpl in *. exact Hs.
  - simpl in *. exact Hs.
Qed.

End SchedulerFacts.

(* ===================================================================== *)
(** ** The controller: what its operations answer *)
(* ===================================================================== *)

Section ControllerClaims.
Context {builtins : Builtins} {callbacks : Callbacks} {dispatch : Dispatch}.

Lemma out_of_domain_rejected v lo hi :
  out_of_domain v lo hi
  ↔ is_None v = false ∧ CollectionFrequencyService.interval_rejected v lo hi = true.
Proof.
  unfold out_of_domain, CollectionFrequencyService.interval_rejected. split.
  - intros [Hn Hz]. split; [destruct v; simpl; congruence|].
    destruct (int_value v) as [z|]; [|reflexivity].
    destruct (Hz z eq_refl) as [Hlo|Hhi]; apply orb_true_iff; [left|right]; apply Z.ltb_lt; lia.
  - intros [Hn Hr]. split; [intros ->; discriminate|].
    intros z Hz. rewrite Hz in Hr. apply orb_true_iff in Hr as [Hr|Hr]; apply Z.ltb_lt in Hr; lia.
Qed.

Lemma not_a_boolean_rejected v :
  not_a_boolean v ↔ is_None v = false ∧ isinstance_bool v = false.
Proof.
  unfold not_a_boolean. split.
  - intros [Hn Hb]. destruct v; simpl; split; try reflexivity; try congruence.
  - intros [Hn Hb]. split; [intros ->; discriminate|]. intros b ->. discriminate.
Qed.

Lemma sensor_range_message_text :
  CollectionFrequencyService.sensor_range_message = "传感器采集间隔必须在 1-300 秒之间".
Proof. vm_compute. reflexivity. Qed.

Lemma rfid_range_message_text :
  CollectionFrequencyService.rfid_range_message = "RFID扫描间隔必须在 1-60 秒之间".
Proof. vm_compute. reflexivity. Qed.

Lemma check_config_data_Err s r p :
  out_of_domain s 1 300 ∨ out_of_domain r 1 60 ∨ not_a_boolean p →
  ∃ m, CollectionFrequencyService.check_config_data s r p = Err (Exn ValidationError m)
       ∧ ((m = "传感器采集间隔必须在 1-300 秒之间" ∧ out_of_domain s 1 300)
          ∨ (m = "RFID扫描间隔必须在 1-60 秒之间" ∧ out_of_domain r 1 60)
          ∨ (m = "暂停状态必须是布尔值" ∧ not_a_boolean p)).
Proof.
  intros Hbad. unfold CollectionFrequencyService.check_config_data.
  destruct (negb (is_None s) && CollectionFrequencyService.interval_rejected s _ _) eqn:Es.
  { eexists. split; [reflexivity|]. left. split; [apply sensor_range_message_text|].
    apply out_of_domain_rejected. apply andb_true_iff in Es as [Hn Hr].
    apply negb_true_iff in Hn. split; assumption. }
  destruct (negb (is_None r) && CollectionFrequencyService.interval_rejected r _ _) eqn:Er.
  { eexists. split; [reflexivity|]. right. left. split; [apply rfid_range_message_text|].
    apply out_of_domain_rejected. apply andb_true_iff in Er as [Hn Hr].
    apply negb_true_iff in Hn. split; assumption. }
  destruct (negb (is_None p) && negb (isinstance_bool p)) eqn:Ep.
  { eexists. split; [reflexivity|]. right. right. split; [reflexivity|].
    apply not_a_boolean_rejected. apply andb_true_iff in Ep as [Hn Hb].
    apply negb_true_iff in Hn, Hb. split; assumption. }
  exfalso. destruct Hbad as [Hb|[Hb|Hb]].
  - apply out_of_domain_rejected in Hb as [Hn Hr].
    unfold CollectionConfig.MIN_SENSOR_INTERVAL, CollectionConfig.MAX_SENSOR_INTERVAL in Es.
    rewrite Hn, Hr in Es. discriminate.
  - apply out_of_domain_rejected in Hb as [Hn Hr].
    unfold CollectionConfig.MIN_RFID_INTERVAL, CollectionConfig.MAX_RFID_INTERVAL in Er.
    rewrite Hn, Hr in Er. discriminate.
  - apply not_a_boolean_rejected in Hb as [Hn Hr]. rewrite Hn, Hr in Ep. discriminate.
Qed.

(** C4: an update whose sensor interval is given and is not an [int] of
    [[1, 300]], or whose RFID interval is given and is not an [int] of
    [[1, 60]], or whose pause flag is given and is not a [bool], is turned
    down before anything is touched: on a controller whose mutex is free the
    call returns [success = false] in the very state it started in, its
    message is the text of the first rule that is violated (the two interval
    rules spell out their bounds), and [get_current_config] answers after the
    call what it answered before. *)
Theorem invalid_update_is_rejected cfg by_ w :
  lock_held w = false →
  out_of_domain (dict_get cfg "sensorInterval") 1 300
  ∨ out_of_domain (dict_get cfg "rfidInterval") 1 60
  ∨ not_a_boolean (dict_get cfg "isPaused") →
  ∃ m, CollectionFrequencyService.update_config cfg by_ w
       = Returns {| success := false; message := m;
                    config := Some (answer_of (cached w)); status := None |} w
       ∧ CollectionFrequencyService.get_current_config w = Returns (answer_of (cached w)) w
       ∧ ((m = "传感器采集间隔必须在 1-300 秒之间"
           ∧ out_of_domain (dict_get cfg "sensorInterval") 1 300)
          ∨ (m = "RFID扫描间隔必须在 1-60 秒之间"
             ∧ out_of_domain (dict_get cfg "rfidInterval") 1 60)
          ∨ (m = "暂停状态必须是布尔值" ∧ not_a_boolean (dict_get cfg "isPaused"))).
Proof.
  intros Hw Hbad. apply check_config_data_Err in Hbad as (m & Hm & Hwhich).
  exists m. split; [|split; [apply get_current_config_Returns; exact Hw | exact Hwhich]].
  unfold CollectionFrequencyService.update_config, try_except. unfold bind at 1.
  rewrite Hm. unfold of_result, raise. unfold bind.
  rewrite get_current_config_Returns by exact Hw. reflexivity.
Qed.

Lemma reset_to_default_fails by_ w old e o' st' :
  lock_held w = false →
  CollectionConfig.to_api_dict (BaseModel.data (cached w)) = Ok old →
  CollectionConfig.reset_to_default by_ (cached w, store w) = Raises e (o', st') →
  CollectionFrequencyService.reset_to_default by_ w
  = Returns {| success := false; message := "重置失败: " +:+ exn_text e;
               config := Some (answer_of o'); status := None |}
            (failed_state w o' st').
Proof.
  intros Hw Hold Hs. unfold CollectionFrequencyService.reset_to_default, try_except.
  rewrite with_lock_free by exact Hw.
  pose proof (config_section_Raises (CollectionConfig.reset_to_default by_)
                by_ "reset" "配置已重置为默认值" "重置配置失败"
                (set_service (CollectionFrequencyService.set_lock true) w) old e o' st'
                Hold Hs) as Hsec.
  unfold config_section in Hsec. rewrite Hsec.
  rewrite failed_state_unlocked by exact Hw.
  unfold bind. rewrite get_current_config_failed_state by exact Hw. reflexivity.
Qed.

Lemma pause_collection_fails by_ w v e o' st' :
  lock_held w = false →
  BaseModel.data (cached w) !! "is_paused" = Some v →
  py_truthy v = false →
  CollectionConfig.pause_collection by_ (cached w, store w) = Raises e (o', st') →
  CollectionFrequencyService.pause_collection by_ w
  = Returns {| success := false; message := "暂停失败: " +:+ exn_text e;
               config := None; status := Some "error" |}
            (failed_state w o' st').
Proof.
  intros Hw Hv Ht Hs. unfold CollectionFrequencyService.pause_collection, try_except.
  rewrite with_lock_free by exact Hw.
  pose proof (status_section_Raises py_truthy (CollectionConfig.pause_collection by_)
    "paused" by_ already_paused_reply
    {| success := true; message := "数据采集已暂停"; config := None; status := Some "paused" |}
    {| success := false; message := "暂停数据采集失败"; config := None;
       status := Some "unknown" |}
    (set_service (CollectionFrequencyService.set_lock true) w) v e o' st' Hv Ht Hs) as Hn.
  unfold status_section, already_paused_reply in Hn. rewrite Hn.
  rewrite failed_state_unlocked by exact Hw. reflexivity.
Qed.

Lemma resume_collection_fails by_ w v e o' st' :
  lock_held w = false →
  BaseModel.data (cached w) !! "is_paused" = Some v →
  py_truthy v = true →
  CollectionConfig.resume_collection by_ (cached w, store w) = Raises e (o', st') →
  CollectionFrequencyService.resume_collection by_ w
  = Returns {| success := false; message := "恢复失败: " +:+ exn_text e;
               config := None; status := Some "error" |}
            (failed_state w o' st').
Proof.
  intros Hw Hv Ht Hs. unfold CollectionFrequencyService.resume_collection, try_except.
  rewrite with_lock_free by exact Hw.
  pose proof (status_section_Raises (λ x, negb (py_truthy x))
    (CollectionConfig.resume_collection by_) "running" by_ already_running_reply
    {| success := true; message := "数据采集已恢复"; config := None; status := Some "running" |}
    {| success := false; message := "恢复数据采集失败"; config := None;
       status := Some "unknown" |}
    (set_service (CollectionFrequencyService.set_lock true) w) v e o' st' Hv) as Hn.
  simpl in Hn. rewrite Ht in Hn. specialize (Hn eq_refl Hs).
  unfold status_section, already_running_reply in Hn. rewrite Hn.
  rewrite failed_state_unlocked by exact Hw. reflexivity.
Qed.

Lemma model_step_eq m by_ :
  model_step m by_
  = CollectionConfig.update_config (arguments_of m).1.1 (arguments_of m).1.2
                                   (arguments_of m).2 by_.
Proof. destruct m; reflexivity. Qed.

Lemma reaches_persistence_checked m old :
  reaches_persistence m old = true →
  CollectionFrequencyService.check_config_data
    (arguments_of m).1.1 (arguments_of m).1.2 (arguments_of m).2 = Ok tt.
Proof.
  destruct m; simpl; try reflexivity.
  destruct (CollectionFrequencyService.check_config_data _ _ _) as [[]|]; [reflexivity|].
  discriminate.
Qed.

Lemma run_fails m by_ w old e o' st' :
  lock_held w = false →
  CollectionConfig.to_api_dict (BaseModel.data (cached w)) = Ok old →
  reaches_persistence m old = true →
  model_step m by_ (cached w, store w) = Raises e (o', st') →
  ∃ rep, run m by_ w = Returns rep (failed_state w o' st') ∧ success rep = false.
Proof.
  intros Hw Hold Hreach Hs.
  pose proof (to_api_dict_Ok _ _ Hold) as (_ & _ & Hp & _).
  destruct m; simpl in *.
  - eexists. split; [|shelve].
    eapply update_config_fails; [exact Hw| |exact Hold|exact Hs].
    apply (reaches_persistence_checked (Update config_data) old Hreach).
    Unshelve. reflexivity.
  - eexists. split; [|shelve].
    eapply pause_collection_fails; [exact Hw|exact Hp| |exact Hs].
    apply negb_true_iff. exact Hreach.
    Unshelve. reflexivity.
  - eexists. split; [|shelve].
    eapply resume_collection_fails; [exact Hw|exact Hp|exact Hreach|exact Hs].
    Unshelve. reflexivity.
  - eexists. split; [|shelve].
    eapply reset_to_default_fails; [exact Hw|exact Hold|exact Hs].
    Unshelve. reflexivity.
Qed.

(** C2 (as the code has it): a mutation whose persistence step raises is
    answered with a failure and leaves the tables as they were, but not the
    cache. For each of the four operations, on a controller whose mutex is
    free and whose cached configuration renders as [old], when the input
    reaches the model method and that method raises: the operation returns
    [success = false]; the tables of the store are unchanged; and the cached
    object keeps the values that were being written, so that the next
    [get_current_config] answers with the attempted intervals, pause flag
    and author, each of them the given value, or the old one where none was
    given. *)
Theorem failed_persistence_keeps_the_attempt m by_ w old e o' st' :
  lock_held w = false →
  CollectionConfig.to_api_dict (BaseModel.data (cached w)) = Ok old →
  reaches_persistence m old = true →
  model_step m by_ (cached w, store w) = Raises e (o', st') →
  ∃ rep new,
    run m by_ w = Returns rep (failed_state w o' st')
    ∧ success rep = false
    ∧ CollectionFrequencyService.get_current_config (failed_state w o' st')
      = Returns new (failed_state w o' st')
    ∧ tables st' = tables (store w)
    ∧ sensorInterval new = given_or (arguments_of m).1.1 (sensorInterval old)
    ∧ rfidInterval new = given_or (arguments_of m).1.2 (rfidInterval old)
    ∧ isPaused new = given_or (arguments_of m).2 (isPaused old)
    ∧ updatedBy new = PStr by_.
Proof.
  intros Hw Hold Hreach Hs.
  destruct (run_fails m by_ w old e o' st' Hw Hold Hreach Hs) as (rep & Hrun & Hrep).
  rewrite model_step_eq in Hs. apply update_config_Raises in Hs as [Htables Hdata].
  destruct (attempted_answer _ _ _ by_ _ _ old o'
              (reaches_persistence_checked m old Hreach) Hold Hdata)
    as (new & Hnew & Hsensor & Hrfid & Hpaused & Hby).
  exists rep, new. split; [exact Hrun|]. split; [exact Hrep|].
  split; [|split; [exact Htables|unfold given_or; auto]].
  rewrite get_current_config_failed_state by exact Hw.
  unfold answer_of. rewrite Hnew. reflexivity.
Qed.

(** C3 (what the code does instead): for integers [s] in [[1, 300]] and [r]
    in [[1, 60]], the input passes the check of [update_config], and yet the
    call, on a controller whose mutex is free, never answers
    [success = true]: it either answers with a failure of the persistence
    or, once the values are persisted, waits for ever for the mutex it holds
    itself, which its notification step takes a second time. *)
Theorem valid_update_never_reports_success (s r : Z) by_ w :
  1 ≤ s ≤ 300 → 1 ≤ r ≤ 60 →
  lock_held w = false →
  CollectionFrequencyService.check_config_data (PInt s) (PInt r) PNone = Ok tt
  ∧ never_succeeds
      (CollectionFrequencyService.update_config
         (<["sensorInterval" := PInt s]> (<["rfidInterval" := PInt r]> ∅)) by_ w).
Proof.
  intros Hs Hr Hw. split; [|apply update_config_never_succeeds; exact Hw].
  unfold CollectionFrequencyService.check_config_data,
    CollectionFrequencyService.interval_rejected,
    CollectionConfig.MIN_SENSOR_INTERVAL, CollectionConfig.MAX_SENSOR_INTERVAL,
    CollectionConfig.MIN_RFID_INTERVAL, CollectionConfig.MAX_RFID_INTERVAL. simpl.
  assert ((s <? 1) = false) as -> by (apply Z.ltb_ge; lia).
  assert ((300 <? s) = false) as -> by (apply Z.ltb_ge; lia).
  assert ((r <? 1) = false) as -> by (apply Z.ltb_ge; lia).
  assert ((60 <? r) = false) as -> by (apply Z.ltb_ge; lia).
  reflexivity.
Qed.

(** C8 (what the code does instead): on a controller whose mutex is free,
    the toggle towards the state the configuration is already in returns the
    no-op answer and leaves the whole process, store included, exactly as it
    was; the toggle towards the other state never answers [success = true]:
    it fails, or it waits for ever in its notification step. So a pause
    followed by a resume does not come back. *)
Theorem pause_and_resume_return_only_as_noops by_ w v :
  lock_held w = false →
  BaseModel.data (cached w) !! "is_paused" = Some v →
  if py_truthy v
  then CollectionFrequencyService.pause_collection by_ w = Returns already_paused_reply w
       ∧ never_succeeds (CollectionFrequencyService.resume_collection by_ w)
  else CollectionFrequencyService.resume_collection by_ w = Returns already_running_reply w
       ∧ never_succeeds (CollectionFrequencyService.pause_collection by_ w).
Proof.
  intros Hw Hv. destruct (py_truthy v) eqn:Ht; split.
  - exact (pause_collection_noop by_ w v Hw Hv Ht).
  - exact (resume_collection_never_succeeds by_ w v Hw Hv Ht).
  - exact (resume_collection_noop by_ w v Hw Hv Ht).
  - exact (pause_collection_never_succeeds by_ w v Hw Hv Ht).
Qed.

(** C9 (what the code does instead): the mutex is not re-entrant and the two
    notification steps take it themselves. Started with the mutex held, as
    they are by every mutating operation, they wait for ever, whatever the
    listeners are; so on a controller whose mutex is free neither
    [update_config], on any input, nor [reset_to_default] ever answers
    [success = true]. *)
Theorem notification_waits_for_its_own_lock by_ w :
  lock_held w = false →
  let held := set_service (CollectionFrequencyService.set_lock true) w in
  (∀ old new,
     CollectionFrequencyService._notify_config_change_callbacks old new held = Blocks held)
  ∧ (∀ status,
       CollectionFrequencyService._notify_status_change_callbacks status by_ held
       = Blocks held)
  ∧ (∀ cfg, never_succeeds (CollectionFrequencyService.update_config cfg by_ w))
  ∧ never_succeeds (CollectionFrequencyService.reset_to_default by_ w).
Proof.
  intros Hw held. split; [|split; [|split]].
  - intros old new. apply notify_config_blocks. reflexivity.
  - intros status. apply notify_status_blocks. reflexivity.
  - intros cfg. apply update_config_never_succeeds. exact Hw.
  - apply reset_to_default_never_succeeds. exact Hw.
Qed.

End ControllerClaims.

(* ===================================================================== *)
(** ** The model after the controller's check *)
(* ===================================================================== *)

Section ModelValidation.
Context {builtins : Builtins}.

Lemma validate_range_of_lookup d d' field lo hi :
  d !! field = d' !! field →
  BaseModel.validate_range_of d field lo hi = BaseModel.validate_range_of d' field lo hi.
Proof. unfold BaseModel.validate_range_of. intros ->. reflexivity. Qed.

Lemma required_field_lookup d d' field :
  d !! field = d' !! field →
  BaseModel.validate_required_fields d [field] = BaseModel.validate_required_fields d' [field].
Proof. unfold BaseModel.validate_required_fields. simpl. intros ->. reflexivity. Qed.

Lemma required_fields_two d a b :
  BaseModel.validate_required_fields d [a; b] = Ok tt
  ↔ BaseModel.validate_required_fields d [a] = Ok tt
    ∧ BaseModel.validate_required_fields d [b] = Ok tt.
Proof.
  unfold BaseModel.validate_required_fields. simpl.
  destruct (match d !! a with Some v => is_None v || py_eq v (PStr "") | None => true end),
           (match d !! b with Some v => is_None v || py_eq v (PStr "") | None => true end);
    simpl; split; try tauto; try (intros [? ?]; discriminate); discriminate.
Qed.

Lemma validate_Ok d :
  CollectionConfig.validate d = Ok tt
  ↔ BaseModel.validate_required_fields d ["sensor_interval"] = Ok tt
    ∧ BaseModel.validate_required_fields d ["rfid_interval"] = Ok tt
    ∧ BaseModel.validate_range_of d "sensor_interval" 1 300 = Ok tt
    ∧ BaseModel.validate_range_of d "rfid_interval" 1 60 = Ok tt
    ∧ match d !! "is_paused" with Some v => isinstance_bool v | None => true end = true
    ∧ match d !! "updated_by" with Some v => str_longer_than_100 v | None => false end = false.
Proof.
  unfold CollectionConfig.validate.
  pose proof (required_fields_two d "sensor_interval" "rfid_interval") as Hreq.
  destruct (BaseModel.validate_required_fields d ["sensor_interval"; "rfid_interval"])
    as [[]|e].
  2:{ split; [discriminate|]. intros (H1 & H2 & _).
      destruct Hreq as [_ Hreq]. discriminate (Hreq (conj H1 H2)). }
  destruct Hreq as [Hreq _]. destruct (Hreq eq_refl) as [Hreq1 Hreq2].
  simpl. unfold CollectionConfig.MIN_SENSOR_INTERVAL, CollectionConfig.MAX_SENSOR_INTERVAL,
    CollectionConfig.MIN_RFID_INTERVAL, CollectionConfig.MAX_RFID_INTERVAL.
  destruct (BaseModel.validate_range_of d "sensor_interval" 1 300) as [[]|e].
  2:{ split; [discriminate | intros (_ & _ & ? & _); discriminate]. }
  destruct (BaseModel.validate_range_of d "rfid_interval" 1 60) as [[]|e].
  2:{ split; [discriminate | intros (_ & _ & _ & ? & _); discriminate]. }
  destruct (d !! "is_paused") as [pv|]; [destruct (isinstance_bool pv)|]; simpl;
    (destruct (d !! "updated_by") as [uv|]; [destruct (str_longer_than_100 uv)|]); simpl;
    split; try discriminate; try tauto;
    try (intros (_ & _ & _ & _ & ? & ?); discriminate).
Qed.

Lemma accepted_interval_in_range v lo hi :
  is_None v = false → CollectionFrequencyService.interval_rejected v lo hi = false →
  ∃ z, int_value v = Some z ∧ lo ≤ z ≤ hi ∧ (v = PInt z ∨ ∃ b, v = PBool b).
Proof.
  unfold CollectionFrequencyService.interval_rejected. intros _.
  destruct (int_value v) as [z|] eqn:Ez; [|discriminate].
  intros Hr. apply orb_false_elim in Hr as [H1 H2]. apply Z.ltb_ge in H1, H2.
  exists z. split; [reflexivity|]. split; [lia|].
  destruct v; simpl in Ez; try discriminate; [right; eauto | left; congruence].
Qed.

Lemma integers_in_range_pass field lo hi :
  forallb (λ z, match BaseModel.validate_range_of {[ field := PInt z ]} field lo hi with
                | Ok _ => true
                | Err _ => false
                end) (seqZ lo (hi - lo + 1)) = true →
  ∀ d z, d !! field = Some (PInt z) → lo ≤ z ≤ hi →
         BaseModel.validate_range_of d field lo hi = Ok tt.
Proof.
  intros Hall d z Hd Hz. rewrite forallb_forall in Hall.
  specialize (Hall z). rewrite (validate_range_of_lookup d {[ field := PInt z ]}).
  2:{ rewrite Hd, lookup_singleton_eq. reflexivity. }
  destruct (BaseModel.validate_range_of _ field lo hi) as [[]|e]; [reflexivity|].
  assert (false = true); [|discriminate]. apply Hall.
  apply list_elem_of_In, elem_of_seqZ. lia.
Qed.

Lemma accepted_interval_passes d field lo hi v :
  forallb (λ z, match BaseModel.validate_range_of {[ field := PInt z ]} field lo hi with
                | Ok _ => true
                | Err _ => false
                end) (seqZ lo (hi - lo + 1)) = true →
  BaseModel.validate_range_of {[ field := PBool true ]} field lo hi = Ok tt →
  0 < lo →
  d !! field = Some v →
  is_None v = false → CollectionFrequencyService.interval_rejected v lo hi = false →
  BaseModel.validate_required_fields d [field] = Ok tt
  ∧ BaseModel.validate_range_of d field lo hi = Ok tt.
Proof.
  intros Hall Htrue Hlo Hd Hn Hr.
  destruct (accepted_interval_in_range v lo hi Hn Hr) as (z & Hz & Hin & Hv).
  split.
  - unfold BaseModel.validate_required_fields. simpl. rewrite Hd.
    destruct Hv as [-> | [b ->]]; reflexivity.
  - destruct Hv as [-> | [b ->]].
    + exact (integers_in_range_pass field lo hi Hall d z Hd Hin).
    + destruct b; simpl in Hz; [|injection Hz as <-; lia].
      rewrite (validate_range_of_lookup d {[ field := PBool true ]}); [exact Htrue|].
      rewrite Hd, lookup_singleton_eq. reflexivity.
Qed.

Lemma sensor_integers_pass :
  forallb (λ z, match BaseModel.validate_range_of {[ "sensor_interval" := PInt z ]}
                        "sensor_interval" 1 300 with
                | Ok _ => true
                | Err _ => false
                end) (seqZ 1 (300 - 1 + 1)) = true.
Proof. vm_compute. reflexivity. Qed.

Lemma rfid_integers_pass :
  forallb (λ z, match BaseModel.validate_range_of {[ "rfid_interval" := PInt z ]}
                        "rfid_interval" 1 60 with
                | Ok _ => true
                | Err _ => false
                end) (seqZ 1 (60 - 1 + 1)) = true.
Proof. vm_compute. reflexivity. Qed.

Lemma attempted_passes_validation s r p by_ t d :
  CollectionFrequencyService.check_config_data s r p = Ok tt →
  CollectionConfig.validate d = Ok tt →
  py_len by_ ≤ 100 →
  CollectionConfig.validate (attempted s r p by_ t d) = Ok tt.
Proof.
  intros Hcheck Hd Hby. apply check_config_data_Ok in Hcheck as (Hs & Hr & Hp).
  apply validate_Ok in Hd as (Hd1 & Hd2 & Hd3 & Hd4 & Hd5 & _).
  apply validate_Ok.
  pose proof (attempted_sensor s r p by_ t d) as As.
  pose proof (attempted_rfid s r p by_ t d) as Ar.
  pose proof (attempted_paused s r p by_ t d) as Ap.
  pose proof (attempted_updated_by s r p by_ t d) as Au.
  assert (Hsensor : BaseModel.validate_required_fields (attempted s r p by_ t d)
                      ["sensor_interval"] = Ok tt
                    ∧ BaseModel.validate_range_of (attempted s r p by_ t d)
                        "sensor_interval" 1 300 = Ok tt).
  { destruct (is_None s) eqn:Es.
    - rewrite (required_field_lookup _ d), (validate_range_of_lookup _ d) by exact As. auto.
    - eapply accepted_interval_passes;
        [exact sensor_integers_pass | vm_compute; reflexivity | lia | exact As | exact Es
        | apply Hs; reflexivity ]. }
  assert (Hrfid : BaseModel.validate_required_fields (attempted s r p by_ t d)
                    ["rfid_interval"] = Ok tt
                  ∧ BaseModel.validate_range_of (attempted s r p by_ t d)
                      "rfid_interval" 1 60 = Ok tt).
  { destruct (is_None r) eqn:Er.
    - rewrite (required_field_lookup _ d), (validate_range_of_lookup _ d) by exact Ar. auto.
    - eapply accepted_interval_passes;
        [exact rfid_integers_pass | vm_compute; reflexivity | lia | exact Ar | exact Er
        | apply Hr; reflexivity ]. }
  destruct Hsensor as [Hs1 Hs2]. destruct Hrfid as [Hr1 Hr2].
  repeat split; try assumption.
  - rewrite Ap. destruct (is_None p) eqn:Ep; [exact Hd5 | apply Hp; reflexivity].
  - rewrite Au. simpl. apply Z.ltb_ge. exact Hby.
Qed.

Lemma execute_update_raises_database tbl changed key st e st' :
  execute_update tbl changed key st = Raises e st' → exn_class_of e = DatabaseError.
Proof.
  unfold execute_update, bind, sql_begin, get_state.
  destruct (sql_fault st (statements st)); simpl.
  - intros [= <- <-]. reflexivity.
  - destruct (tables st !! tbl); simpl; unfold raise, modify; [discriminate|].
    intros [= <- <-]. reflexivity.
Qed.

Lemma execute_insert_raises_database tbl values st e st' :
  execute_insert tbl values st = Raises e st' → exn_class_of e = DatabaseError.
Proof.
  unfold execute_insert, bind, sql_begin, get_state.
  destruct (sql_fault st (statements st)); simpl.
  - intros [= <- <-]. reflexivity.
  - destruct (tables st !! tbl); simpl; unfold raise, modify.
    2:{ intros [= <- <-]. reflexivity. }
    destruct (sql_rowid _) as [key|]; simpl.
    2:{ intros [= <- <-]. reflexivity. }
    destruct (existsb _ _); simpl; [|discriminate].
    intros [= <- <-]. reflexivity.
Qed.

Lemma BaseModel_save_outcome cls o st :
  match BaseModel.save cls (o, st) with
  | Returns ok _ => ok = true
  | Raises e _ => exn_class_of e = DatabaseError
  | Blocks _ => False
  end.
Proof.
  unfold BaseModel.save, bind, BaseModel.self_data. simpl.
  destruct (match BaseModel.data o !! "id" with Some v => py_truthy v | None => false end).
  - unfold BaseModel._update, bind, get_state. simpl.
    destruct (decide (BaseModel.changed_fields o = ∅)); [reflexivity|].
    destruct (BaseModel.changed_fields o !! "updated_at").
    + unfold ret, BaseModel.self_data, BaseModel.on_store, zoom. simpl.
      destruct (execute_update _ _ _ st) as [[] st1|e1 st1|st1] eqn:E; simpl.
      * reflexivity.
      * exact (execute_update_raises_database _ _ _ _ _ _ E).
      * exact (never_blocks_execute_update _ _ _ _ _ E).
    + unfold ret, BaseModel.self_data, BaseModel.on_store, BaseModel.set_data, zoom,
        now_isoformat, modify. simpl.
      destruct (execute_update _ _ _ (count_clock_read st)) as [[] st1|e1 st1|st1] eqn:E;
        simpl.
      * reflexivity.
      * exact (execute_update_raises_database _ _ _ _ _ _ E).
      * exact (never_blocks_execute_update _ _ _ _ _ E).
  - unfold BaseModel._insert, bind, BaseModel.self_data. simpl.
    destruct (BaseModel.data o !! "created_at").
    + unfold ret, BaseModel.on_store, zoom. simpl.
      destruct (execute_insert _ _ st) as [v st1|e1 st1|st1] eqn:E; simpl.
      * reflexivity.
      * exact (execute_insert_raises_database _ _ _ _ _ E).
      * exact (never_blocks_execute_insert _ _ _ _ E).
    + unfold ret, BaseModel.on_store, BaseModel.setattr, BaseModel.set_data, zoom,
        now_isoformat, modify. simpl.
      destruct (execute_insert _ _ (count_clock_read st)) as [v st1|e1 st1|st1] eqn:E;
        simpl.
      * reflexivity.
      * exact (execute_insert_raises_database _ _ _ _ _ E).
      * exact (never_blocks_execute_insert _ _ _ _ E).
Qed.

(** Once the controller's check has let the values through, the model has
    nothing left to object to: on a cached configuration that is itself
    valid, and for an author of at most 100 characters, the model's
    [update_config] returns [True] or raises a database error, and nothing
    else; in particular it never raises a validation error. *)
Theorem checked_update_fails_only_in_the_database s r p by_ o st :
  CollectionFrequencyService.check_config_data s r p = Ok tt →
  CollectionConfig.validate (BaseModel.data o) = Ok tt →
  py_len by_ ≤ 100 →
  match CollectionConfig.update_config s r p by_ (o, st) with
  | Returns ok _ => ok = true
  | Raises e _ => exn_class_of e = DatabaseError
  | Blocks _ => False
  end.
Proof.
  intros Hcheck Hvalid Hby. rewrite update_config_eq.
  unfold CollectionConfig.save, bind, BaseModel.self_data, of_result. simpl.
  rewrite (attempted_passes_validation s r p by_ _ _ Hcheck Hvalid Hby). simpl.
  apply BaseModel_save_outcome.
Qed.

End ModelValidation.

(* ===================================================================== *)
(** ** BaseModel: insert, update and delete by key *)
(* ===================================================================== *)

Section BaseModelFacts.
Context (cls : BaseModel.pyclass).

Lemma fresh_rowid_is_unused t :
  table_wf t → existsb (row_has_rowid (last_rowid t + 1)) (rows t) = false.
Proof.
  unfold table_wf. intros Hwf. apply not_true_is_false. intros Hex.
  apply existsb_exists in Hex as (r & Hin & Hr).
  rewrite Forall_forall in Hwf. apply list_elem_of_In in Hin. specialize (Hwf r Hin).
  unfold row_has_rowid in Hr. destruct (r !! "id") as [[| |i| |]|]; try discriminate.
  apply Z.eqb_eq in Hr. specialize (Hwf i eq_refl). lia.
Qed.

Lemma execute_insert_fresh tbl values st t :
  values !! "id" = None →
  sql_fault st (statements st) = None →
  tables st !! tbl = Some t →
  table_wf t →
  execute_insert tbl values st
  = Returns (PInt (last_rowid t + 1))
      (set_tables (insert tbl {| rows := rows t ++ [<["id" := PInt (last_rowid t + 1)]> values];
                                 last_rowid := Z.max (last_rowid t) (last_rowid t + 1) |})
                  (count_statement st)).
Proof.
  intros Hid Hfault Ht Hwf. unfold execute_insert, bind, sql_begin, get_state.
  rewrite Hfault. simpl. rewrite Ht. unfold dict_get. rewrite Hid. simpl.
  rewrite (fresh_rowid_is_unused t Hwf). reflexivity.
Qed.

(** Saving an instance that has no key inserts it: when the statement goes
    through, on a table none of whose rows is beyond the AUTOINCREMENT mark,
    [save] returns [True], the instance gets the next id and a creation time
    if it had none and keeps every other attribute, its snapshot of saved
    values is brought up to date, the table has gained exactly one row, the
    instance's attributes, after the rows it had, and no other table changed. *)
Theorem save_without_key_inserts_one_row o st t :
  BaseModel.data o !! "id" = None →
  sql_fault st (statements st) = None →
  tables st !! BaseModel.table_name cls = Some t →
  table_wf t →
  ∃ o' st',
    BaseModel.save cls (o, st) = Returns true (o', st')
    ∧ BaseModel.data o' !! "id" = Some (PInt (last_rowid t + 1))
    ∧ is_Some (BaseModel.data o' !! "created_at")
    ∧ (∀ k, k ≠ "id" → k ≠ "created_at" →
            BaseModel.data o' !! k = BaseModel.data o !! k)
    ∧ BaseModel.original_data o' = BaseModel.data o'
    ∧ rows_of (BaseModel.table_name cls) st' = rows t ++ [BaseModel.data o']
    ∧ (∀ tbl, tbl ≠ BaseModel.table_name cls → tables st' !! tbl = tables st !! tbl).
Proof.
  intros Hid Hfault Ht Hwf.
  unfold BaseModel.save, bind, BaseModel.self_data. simpl. rewrite Hid.
  unfold BaseModel._insert, bind, BaseModel.self_data. simpl.
  destruct (BaseModel.data o !! "created_at") as [c|] eqn:Hc.
  - unfold ret, BaseModel.on_store, zoom. simpl.
    rewrite (execute_insert_fresh _ _ st t Hid Hfault Ht Hwf). simpl.
    eexists _, _. split; [reflexivity|]. simpl.
    split; [apply lookup_insert_eq|].
    split; [rewrite lookup_insert_ne by done; rewrite Hc; eauto|].
    split; [intros k Hk _; rewrite lookup_insert_ne by congruence; reflexivity|].
    split; [reflexivity|].
    split; [unfold rows_of; simpl; rewrite lookup_insert_eq; reflexivity|].
    intros tbl Htbl. apply lookup_insert_ne. congruence.
  - unfold ret, BaseModel.on_store, BaseModel.setattr, BaseModel.set_data, zoom,
      now_isoformat, modify. simpl.
    rewrite (execute_insert_fresh _ _ (count_clock_read st) t);
      [|rewrite lookup_insert_ne by done; exact Hid | exact Hfault | exact Ht | exact Hwf].
    simpl. eexists _, _. split; [reflexivity|]. simpl.
    split; [apply lookup_insert_eq|].
    split; [rewrite lookup_insert_ne by done; rewrite lookup_insert_eq; eauto|].
    split; [intros k Hk Hk'; rewrite !lookup_insert_ne by congruence; reflexivity|].
    split; [reflexivity|].
    split; [unfold rows_of; simpl; rewrite lookup_insert_eq; reflexivity|].
    intros tbl Htbl. apply lookup_insert_ne. congruence.
Qed.

Lemma py_eq_refl v :
  (∀ f, v = PFloat f → PrimFloat.eqb f f = true) → py_eq v v = true.
Proof.
  intros Hf. destruct v as [|b|z|f|s]; simpl.
  - reflexivity.
  - apply Z.eqb_refl.
  - apply Z.eqb_refl.
  - apply Hf. reflexivity.
  - apply String.eqb_refl.
Qed.

Lemma nothing_changed o :
  BaseModel.original_data o = BaseModel.data o →
  (∀ k f, BaseModel.data o !! k = Some (PFloat f) → PrimFloat.eqb f f = true) →
  BaseModel.changed_fields o = ∅.
Proof.
  intros Horig Hnan. apply map_eq. intros k.
  unfold BaseModel.changed_fields. rewrite map_lookup_imap, lookup_empty.
  destruct (BaseModel.data o !! k) as [v|] eqn:Hk; [|reflexivity]. simpl.
  unfold py_ne, dict_get. rewrite Horig, Hk. simpl.
  rewrite (py_eq_refl v); [rewrite andb_false_r; reflexivity|].
  intros f ->. exact (Hnan k f Hk).
Qed.

(** Saving twice writes once: for an instance that has a key, whose
    snapshot of saved values equals its attributes (as [save] leaves it) and
    none of whose attributes is a NaN, [save] returns [True] without
    executing a statement or reading the clock; the instance and the store
    are exactly as they were. *)
Theorem save_of_unchanged_instance_writes_nothing o st :
  has_key o = true →
  BaseModel.original_data o = BaseModel.data o →
  (∀ k f, BaseModel.data o !! k = Some (PFloat f) → PrimFloat.eqb f f = true) →
  BaseModel.save cls (o, st) = Returns true (o, st).
Proof.
  intros Hkey Horig Hnan. unfold BaseModel.save, bind, BaseModel.self_data. simpl.
  unfold has_key in Hkey. rewrite Hkey.
  unfold BaseModel._update, bind, get_state. simpl.
  rewrite (nothing_changed o Horig Hnan).
  destruct (decide (∅ = ∅)) as [_|Hne]; [reflexivity | contradiction].
Qed.

Lemma overwrite_unmatched key changed (l : list (gmap string pyval)) :
  Forall (λ r, row_matches key r = false) l →
  (λ r, if row_matches key r then changed ∪ r else r) <$> l = l.
Proof.
  induction 1 as [|r l Hr _ IH]; [reflexivity|]. csimpl. rewrite Hr. f_equal. exact IH.
Qed.

(** A lost update goes unnoticed: when an instance has a key that no row of
    its table carries, and the statement goes through, [save] returns
    [True] (or was a no-op) and the rows of the table are exactly what they
    were: nothing of the instance has been written. *)
Theorem save_on_a_missing_row_reports_success o st t :
  has_key o = true →
  sql_fault st (statements st) = None →
  tables st !! BaseModel.table_name cls = Some t →
  Forall (λ r, row_matches (dict_get (BaseModel.data o) "id") r = false) (rows t) →
  ∃ o' st',
    BaseModel.save cls (o, st) = Returns true (o', st')
    ∧ rows_of (BaseModel.table_name cls) st' = rows t.
Proof.
  intros Hkey Hfault Ht Hmiss. unfold BaseModel.save, bind, BaseModel.self_data. simpl.
  unfold has_key in Hkey. rewrite Hkey.
  unfold BaseModel._update, bind, get_state. simpl.
  destruct (decide (BaseModel.changed_fields o = ∅)).
  { eexists _, _. split; [reflexivity|]. unfold rows_of. rewrite Ht. reflexivity. }
  destruct (BaseModel.changed_fields o !! "updated_at").
  - unfold ret, BaseModel.self_data, BaseModel.on_store, zoom, execute_update, bind,
      sql_begin, get_state, modify, BaseModel.copy_to_original. simpl.
    rewrite Hfault. simpl. rewrite Ht. simpl.
    eexists _, _. split; [reflexivity|]. unfold rows_of. simpl.
    rewrite lookup_insert_eq. simpl. apply overwrite_unmatched. exact Hmiss.
  - unfold ret, BaseModel.self_data, BaseModel.on_store, BaseModel.set_data, zoom,
      execute_update, bind, sql_begin, get_state, now_isoformat, modify,
      BaseModel.copy_to_original. simpl.
    rewrite Hfault. simpl. rewrite Ht. simpl.
    eexists _, _. split; [reflexivity|]. unfold rows_of. simpl.
    rewrite lookup_insert_eq. simpl. apply overwrite_unmatched.
    unfold dict_get. rewrite lookup_insert_ne by done. exact Hmiss.
Qed.

(** [delete] at its edges. An instance without a key is refused with a
    [ValueError] before any statement is executed. For an instance with a
    key, when the statement goes through, [delete] returns [True], removes
    from the table exactly the rows carrying that key, keeping the others in
    order, and leaves the instance as it was, key included; no row of the
    table carries the key afterwards. *)
Theorem delete_refuses_unsaved_and_removes_by_key o st :
  (has_key o = false →
   BaseModel.delete cls (o, st) = Raises (Exn ValueError "无法删除未保存的记录") (o, st))
  ∧ (∀ t, has_key o = true →
          sql_fault st (statements st) = None →
          tables st !! BaseModel.table_name cls = Some t →
          ∃ st',
            BaseModel.delete cls (o, st) = Returns true (o, st')
            ∧ rows_of (BaseModel.table_name cls) st'
              = List.filter (λ r, negb (row_matches (dict_get (BaseModel.data o) "id") r))
                            (rows t)
            ∧ Forall (λ r, row_matches (dict_get (BaseModel.data o) "id") r = false)
                     (rows_of (BaseModel.table_name cls) st')).
Proof.
  split.
  - intros Hkey. unfold BaseModel.delete, bind, BaseModel.self_data. simpl.
    unfold has_key in Hkey. rewrite Hkey. destruct o. reflexivity.
  - intros t Hkey Hfault Ht. unfold BaseModel.delete, bind, BaseModel.self_data. simpl.
    unfold has_key in Hkey. rewrite Hkey.
    unfold ret, BaseModel.on_store, zoom, execute_delete, bind, sql_begin, get_state, modify.
    simpl. rewrite Hfault. simpl. rewrite Ht. simpl.
    eexists. split; [destruct o; reflexivity|]. unfold rows_of. simpl.
    rewrite lookup_insert_eq. simpl. split; [reflexivity|].
    apply Forall_forall. intros r Hr. apply list_elem_of_In, filter_In in Hr as [_ Hr].
    apply negb_true_iff. exact Hr.
Qed.

End BaseModelFacts.

(* ===================================================================== *)
(** ** The controller: dry run, loading, audit and history *)
(* ===================================================================== *)

Section ControllerReads.
Context {builtins : Builtins} {callbacks : Callbacks} {dispatch : Dispatch}.

Lemma interval_findings_errors v lo hi short_below a b c d :
  (CollectionFrequencyService.interval_findings v lo hi short_below a b c d).1 = []
  ↔ is_None v = true ∨ CollectionFrequencyService.interval_rejected v lo hi = false.
Proof.
  unfold CollectionFrequencyService.interval_findings,
    CollectionFrequencyService.interval_rejected.
  destruct (is_None v); [split; [left; reflexivity | reflexivity]|].
  destruct (int_value v) as [z|]; simpl.
  - destruct (z <? lo); simpl; [split; [discriminate | intros [?|?]; discriminate]|].
    destruct (hi <? z); simpl; [split; [discriminate | intros [?|?]; discriminate]|].
    destruct (z <? short_below); simpl; split; auto.
  - split; [discriminate | intros [?|?]; discriminate].
Qed.

Lemma check_config_data_accepts s r p :
  CollectionFrequencyService.check_config_data s r p = Ok tt
  ↔ (is_None s = true ∨ CollectionFrequencyService.interval_rejected s 1 300 = false)
    ∧ (is_None r = true ∨ CollectionFrequencyService.interval_rejected r 1 60 = false)
    ∧ (is_None p = true ∨ isinstance_bool p = true).
Proof.
  unfold CollectionFrequencyService.check_config_data,
    CollectionConfig.MIN_SENSOR_INTERVAL, CollectionConfig.MAX_SENSOR_INTERVAL,
    CollectionConfig.MIN_RFID_INTERVAL, CollectionConfig.MAX_RFID_INTERVAL.
  destruct (is_None s), (CollectionFrequencyService.interval_rejected s 1 300),
    (is_None r), (CollectionFrequencyService.interval_rejected r 1 60),
    (is_None p), (isinstance_bool p); simpl;
    (split; [intros Hc; try discriminate Hc; repeat split; auto
            | intros (H1 & H2 & H3); try reflexivity;
              destruct H1 as [?|?]; destruct H2 as [?|?]; destruct H3 as [?|?];
              discriminate ]).
Qed.

Lemma impact_of_accepted s r :
  py_truthy s = true → py_truthy r = true →
  CollectionFrequencyService.interval_rejected s 1 300 = false →
  CollectionFrequencyService.interval_rejected r 1 60 = false →
  ∃ impact,
    CollectionConfig.get_performance_impact
      (BaseModel.data (CollectionConfig.__init__
                         (<["sensor_interval" := s]> (<["rfid_interval" := r]> ∅))))
    = Ok impact.
Proof.
  intros Hs Hr Hsa Hra.
  destruct (accepted_interval_divides s 1 300) as [sl Hsl]; [lia | | exact Hsa |].
  { destruct s; simpl in *; congruence. }
  destruct (accepted_interval_divides r 1 60) as [rl Hrl]; [lia | | exact Hra |].
  { destruct r; simpl in *; congruence. }
  unfold CollectionConfig.get_performance_impact, CollectionConfig.getattr,
    BaseModel.getattr_result, CollectionConfig.__init__, CollectionConfig.setdefault. simpl.
  rewrite !lookup_insert_eq. simpl.
  rewrite lookup_insert_ne by done. rewrite !lookup_insert_eq. simpl.
  repeat (rewrite ?lookup_insert_ne by done; rewrite ?lookup_insert_eq; rewrite ?lookup_empty;
          simpl).
  rewrite Hsl, Hrl. eexists. reflexivity.
Qed.

(** The dry run and the real check agree: [validate_config] reports a
    configuration as valid exactly when the check that [update_config] runs
    before it takes the mutex lets it through. *)
Theorem validate_config_agrees_with_update_check cfg :
  valid (CollectionFrequencyService.validate_config cfg) = true
  ↔ CollectionFrequencyService.check_config_data
      (dict_get cfg "sensorInterval") (dict_get cfg "rfidInterval")
      (dict_get cfg "isPaused") = Ok tt.
Proof.
  rewrite check_config_data_accepts.
  unfold CollectionFrequencyService.validate_config.
  set (s := dict_get cfg "sensorInterval"). set (r := dict_get cfg "rfidInterval").
  set (p := dict_get cfg "isPaused").
  set (fs := CollectionFrequencyService.interval_findings s _ _ _ _ _ _ _).
  set (fr := CollectionFrequencyService.interval_findings r _ _ _ _ _ _ _).
  pose proof (interval_findings_errors s CollectionConfig.MIN_SENSOR_INTERVAL
                CollectionConfig.MAX_SENSOR_INTERVAL 10
                "传感器采集间隔必须是整数"
                ("传感器采集间隔不能小于 " +:+ pretty CollectionConfig.MIN_SENSOR_INTERVAL +:+ " 秒")
                ("传感器采集间隔不能大于 " +:+ pretty CollectionConfig.MAX_SENSOR_INTERVAL +:+ " 秒")
                "传感器采集间隔过短可能影响系统性能") as Hfs.
  pose proof (interval_findings_errors r CollectionConfig.MIN_RFID_INTERVAL
                CollectionConfig.MAX_RFID_INTERVAL 5
                "RFID扫描间隔必须是整数"
                ("RFID扫描间隔不能小于 " +:+ pretty CollectionConfig.MIN_RFID_INTERVAL +:+ " 秒")
                ("RFID扫描间隔不能大于 " +:+ pretty CollectionConfig.MAX_RFID_INTERVAL +:+ " 秒")
                "RFID扫描间隔过短可能影响系统性能") as Hfr.
  fold fs in Hfs. fold fr in Hfr.
  unfold CollectionConfig.MIN_SENSOR_INTERVAL, CollectionConfig.MAX_SENSOR_INTERVAL,
    CollectionConfig.MIN_RFID_INTERVAL, CollectionConfig.MAX_RFID_INTERVAL in Hfs, Hfr.
  assert (Herr : Nat.eqb (length (fs.1 ++ fr.1 ++
                   (if negb (is_None p) && negb (isinstance_bool p)
                    then ["暂停状态必须是布尔值"] else []))) 0 = true
                 ↔ (is_None s = true ∨ CollectionFrequencyService.interval_rejected s 1 300 = false)
                   ∧ (is_None r = true
                      ∨ CollectionFrequencyService.interval_rejected r 1 60 = false)
                   ∧ (is_None p = true ∨ isinstance_bool p = true)).
  { rewrite <- Hfs, <- Hfr. rewrite Nat.eqb_eq, length_zero_iff_nil.
    split.
    - intros Happ. apply app_eq_nil in Happ as [H1 Happ].
      apply app_eq_nil in Happ as [H2 H3]. split; [exact H1|]. split; [exact H2|].
      destruct (is_None p), (isinstance_bool p); simpl in *; auto; discriminate.
    - intros (H1 & H2 & H3). rewrite H1, H2. simpl.
      destruct H3 as [-> | ->]; [reflexivity|]. rewrite andb_false_r. reflexivity. }
  destruct (py_truthy s && py_truthy r) eqn:Htruthy; [|exact Herr].
  apply andb_true_iff in Htruthy as [Hts Htr].
  destruct (CollectionConfig.get_performance_impact _) as [impact|e] eqn:Himpact;
    [exact Herr|].
  simpl. split; [discriminate|].
  intros ([Hs|Hs] & [Hr|Hr] & _).
  - destruct s; simpl in *; congruence.
  - destruct s; simpl in *; congruence.
  - destruct r; simpl in *; congruence.
  - destruct (impact_of_accepted s r Hts Htr Hs Hr) as [impact Hok]. congruence.
Qed.

Lemma never_blocks_get_or_create_default :
  never_blocks CollectionConfig.get_or_create_default.
Proof.
  unfold CollectionConfig.get_or_create_default, CollectionConfig.get_current_config,
    CollectionConfig.find_all, CollectionConfig.create.
  repeat first [ apply never_blocks_execute_select | apply never_blocks_now
               | apply never_blocks_execute_insert
               | apply never_blocks_create; intros ?; simpl
               | never_blocks_step ].
Qed.

(** The constructor's loading step cannot fail. On a controller whose mutex
    is free, [_load_current_config] returns with the mutex free again and
    the scheduler untouched; the cached configuration is the one
    [get_or_create_default] gave, and when that raised (the default row could
    not be inserted) it is a bare [CollectionConfig()], which has no id and,
    unlike the default row, is paused. *)
Theorem load_current_config_falls_back_to_paused w :
  lock_held w = false →
  ∃ w',
    CollectionFrequencyService._load_current_config w = Returns tt w'
    ∧ lock_held w' = false
    ∧ collection_scheduler w' = collection_scheduler w
    ∧ match CollectionConfig.get_or_create_default (store w) with
      | Returns c st' => cached w' = c ∧ store w' = st'
      | Raises _ st' =>
          store w' = st'
          ∧ BaseModel.data (cached w') !! "id" = None
          ∧ BaseModel.data (cached w') !! "is_paused" = Some (PBool true)
          ∧ BaseModel.data (cached w') !! "sensor_interval" = Some (PInt 30)
          ∧ BaseModel.data (cached w') !! "rfid_interval" = Some (PInt 10)
      | Blocks _ => False
      end.
Proof.
  intros Hw. unfold CollectionFrequencyService._load_current_config, try_except,
    CollectionFrequencyService.with_lock. unfold lock_held in *. rewrite Hw.
  unfold bind, in_store, zoom, modify. simpl.
  pose proof (never_blocks_get_or_create_default (store w)) as Hnb.
  destruct (CollectionConfig.get_or_create_default (store w)) as [c st'|e st'|st'].
  - eexists. split; [reflexivity|]. simpl. auto.
  - simpl. eexists. split; [reflexivity|]. simpl. repeat split; reflexivity.
  - exfalso. exact (Hnb st' eq_refl).
Qed.

(** The audit entry of a configuration change never gets in the way.
    [_log_config_change] always returns, whatever the store does, and leaves
    the controller, the scheduler and every table untouched. When the two
    payloads agree on both intervals and on the pause flag and the action is
    not a reset it executes no statement at all; otherwise it executes
    exactly one, and the audit log has grown by one entry, written in the
    name of the user, exactly when that statement went through. *)
Theorem log_config_change_never_fails old new by_ action w :
  ∃ w',
    CollectionFrequencyService._log_config_change old new by_ action w = Returns tt w'
    ∧ frequency_service w' = frequency_service w
    ∧ collection_scheduler w' = collection_scheduler w
    ∧ tables (store w') = tables (store w)
    ∧ if py_eq (sensorInterval old) (sensorInterval new)
         && py_eq (rfidInterval old) (rfidInterval new)
         && py_eq (isPaused old) (isPaused new)
         && negb (String.eqb action "reset")
      then w' = w
      else statements (store w') = S (statements (store w))
           ∧ match sql_fault (store w) (statements (store w)) with
             | Some _ => system_logs (store w') = system_logs (store w)
             | None =>
                 ∃ entry, system_logs (store w') = system_logs (store w) ++ [entry]
                          ∧ log_user entry = by_ ∧ log_level entry = "INFO"
             end.
Proof.
  unfold CollectionFrequencyService._log_config_change, try_except, py_ne.
  destruct (py_eq (sensorInterval old) (sensorInterval new)),
    (py_eq (rfidInterval old) (rfidInterval new)),
    (py_eq (isPaused old) (isPaused new)), (String.eqb action "reset"); simpl;
    try (eexists; split; [reflexivity|]; repeat split; destruct w; reflexivity);
    unfold in_store, zoom, insert_system_log, bind, sql_begin, modify;
    (destruct (sql_fault (store w) (statements (store w))) eqn:Hf; simpl;
     (eexists; split; [reflexivity|]; simpl; repeat split;
      try (eexists; split; [reflexivity|]; split; reflexivity))).
Qed.

Lemma to_api_dicts_Ok l :
  ∀ payloads, CollectionFrequencyService.to_api_dicts l = Ok payloads →
  Forall2 (λ c payload, CollectionConfig.to_api_dict (BaseModel.data c) = Ok payload)
          l payloads.
Proof.
  induction l as [|c rest IH]; simpl; intros payloads.
  - intros [= <-]. constructor.
  - destruct (CollectionConfig.to_api_dict (BaseModel.data c)) as [p|e] eqn:Hc;
      [|discriminate].
    destruct (CollectionFrequencyService.to_api_dicts rest) as [ps|e]; [|discriminate].
    intros [= <-]. constructor; [exact Hc | apply IH; reflexivity].
Qed.

Lemma to_api_dicts_Err l e :
  CollectionFrequencyService.to_api_dicts l = Err e →
  Exists (λ c, CollectionConfig.to_api_dict (BaseModel.data c) = Err e) l.
Proof.
  induction l as [|c rest IH]; simpl; [discriminate|].
  destruct (CollectionConfig.to_api_dict (BaseModel.data c)) as [p|e1] eqn:Hc.
  - destruct (CollectionFrequencyService.to_api_dicts rest) as [ps|e2]; [discriminate|].
    intros [= ->]. apply Exists_cons_tl. apply IH. reflexivity.
  - intros [= ->]. apply Exists_cons_hd. exact Hc.
Qed.

(** The history is all or nothing. [get_config_history] of the controller
    always returns, whether or not the mutex is held, and changes nothing
    but the count of statements. When the query goes through and every row
    it gave renders as a payload, the answer is these payloads, one per row
    and in the order of the rows; when the query fails, or when a single row
    fails to render, the answer is the empty list. *)
Theorem config_history_is_all_or_nothing w :
  ∃ history,
    CollectionFrequencyService.get_config_history w
    = Returns history (set_store (count_statement (store w)) w)
    ∧ match sql_fault (store w) (statements (store w)) with
      | Some _ => history = []
      | None =>
          Forall2 (λ row payload,
                     CollectionConfig.to_api_dict
                       (BaseModel.data (CollectionConfig.__init__ row)) = Ok payload)
                  (sql_rows (store w) (statements (store w))) history
          ∨ (history = []
             ∧ Exists (λ row, ∃ e, CollectionConfig.to_api_dict
                                     (BaseModel.data (CollectionConfig.__init__ row)) = Err e)
                      (sql_rows (store w) (statements (store w))))
      end.
Proof.
  unfold CollectionFrequencyService.get_config_history, try_except,
    CollectionConfig.get_config_history, CollectionConfig.find_all, execute_select.
  unfold bind at 1. unfold in_store, zoom. unfold try_except, bind, sql_begin, get_state.
  destruct (sql_fault (store w) (statements (store w))) as [text|] eqn:Hf; simpl.
  - exists []. split; reflexivity.
  - destruct (CollectionFrequencyService.to_api_dicts
                (CollectionConfig.__init__ <$> sql_rows (store w) (statements (store w))))
      as [payloads|e] eqn:Hr; simpl.
    + exists payloads. split; [reflexivity|]. left.
      apply to_api_dicts_Ok in Hr. apply Forall2_fmap_l in Hr. exact Hr.
    + exists []. split; [reflexivity|]. right. split; [reflexivity|].
      apply to_api_dicts_Err in Hr. apply Exists_fmap in Hr.
      eapply Exists_impl; [exact Hr|]. simpl. intros row Hrow. exists e. exact Hrow.
Qed.

Lemma bound_zero_and_hundred :
  BaseModel.bound 0 = 0%float ∧ BaseModel.bound 100 = 100%float.
Proof. vm_compute. split; reflexivity. Qed.

(** A status record is checked before it is written. [record_status] with a
    float CPU figure that is not within 0 and 100 (a NaN is not) raises the
    validation error about the CPU range; with a CPU figure that is absent
    and a float memory figure below zero it raises the one about the memory;
    in both cases no statement has been executed and every table is as it
    was. *)
Theorem record_status_validates_before_writing running sensor_last rfid_last error_message
    (cpu memory : float) st :
  (PrimFloat.leb 0 cpu && PrimFloat.leb cpu 100 = false →
   ∃ st', CollectionStatus.record_status running sensor_last rfid_last (PFloat cpu)
            (PFloat memory) error_message st
          = Raises (Exn ValidationError "cpu_usage 必须在 0-100 范围内") st'
          ∧ tables st' = tables st ∧ statements st' = statements st)
  ∧ (PrimFloat.ltb memory 0 = true →
     ∃ st', CollectionStatus.record_status running sensor_last rfid_last PNone
              (PFloat memory) error_message st
            = Raises (Exn ValidationError "memory_usage 不能为负数") st'
            ∧ tables st' = tables st ∧ statements st' = statements st).
Proof.
  destruct bound_zero_and_hundred as [B0 B100].
  split.
  - intros Hcpu. unfold CollectionStatus.record_status, CollectionStatus.create,
      CollectionStatus.__init__. unfold bind at 1 2.
    rewrite !lookup_insert_ne by done. rewrite lookup_empty.
    unfold bind at 1. unfold now_isoformat at 1. unfold ret at 1 2. unfold bind at 1.
    unfold CollectionStatus.validate, BaseModel.validate_required_fields,
      CollectionConfig.setdefault. simpl.
    rewrite !lookup_insert_ne by done. rewrite lookup_insert_eq. simpl.
    unfold dict_get. rewrite !lookup_insert_ne by done. rewrite lookup_insert_eq. simpl.
    rewrite !lookup_insert_ne by done. rewrite lookup_insert_eq. simpl.
    rewrite B0, B100.
    destruct (PrimFloat.leb 0 cpu); simpl in *;
      [rewrite Hcpu|]; simpl; eexists; (split; [reflexivity|]); split; reflexivity.
  - intros Hmem. unfold CollectionStatus.record_status, CollectionStatus.create,
      CollectionStatus.__init__. unfold bind at 1 2.
    rewrite !lookup_insert_ne by done. rewrite lookup_empty.
    unfold bind at 1. unfold now_isoformat at 1. unfold ret at 1 2. unfold bind at 1.
    unfold CollectionStatus.validate, BaseModel.validate_required_fields,
      CollectionConfig.setdefault. simpl.
    rewrite !lookup_insert_ne by done. rewrite lookup_insert_eq. simpl.
    unfold dict_get. rewrite !lookup_insert_ne by done. rewrite lookup_insert_eq. simpl.
    rewrite !lookup_insert_ne by done. rewrite lookup_insert_eq. simpl.
    rewrite !lookup_insert_ne by done. rewrite lookup_insert_eq. simpl.
    rewrite B0, Hmem. simpl. eexists. split; [reflexivity|]. split; reflexivity.
Qed.

End ControllerReads.

(* ===================================================================== *)
(** ** The scheduler: forced collections, edges of update_intervals, a working tick *)
(* ===================================================================== *)

Section SchedulerEdges.
Context {builtins : Builtins} {callbacks : Callbacks} {dispatch : Dispatch}
        {triggers : Triggers}.

Lemma forced_tick_outcome (body tick : M World unit) job_type text
    (h : exn → M World forced_reply) w :
  tick_bookkeeping body tick job_type w →
  ∃ rep w',
    try_except
      (bind tick (λ _, bind (in_store now_isoformat) (λ t,
         ret {| forced_success := true; forced_message := text; forced_timestamp := t |})))
      h w
    = Returns rep w'
    ∧ forced_success rep = true ∧ forced_message rep = text
    ∧ (∀ e w1, body w = Raises e w1 →
         ∃ t, error_list w'
              = error_list w ++ [{| err_type := job_type; err_message := exn_text e;
                                    err_timestamp := t |}]).
Proof.
  unfold tick_bookkeeping. intros Hb. unfold try_except, bind.
  destruct (body w) as [[] w1|e w1|w1].
  - destruct Hb as (-> & _). rewrite in_store_now. eexists _, _.
    split; [reflexivity|]. split; [reflexivity|]. split; [reflexivity|]. discriminate.
  - destruct Hb as (w' & t & -> & Herr). rewrite in_store_now. eexists _, _.
    split; [reflexivity|]. split; [reflexivity|]. split; [reflexivity|].
    intros e' w2 [= <- <-]. exists t. exact Herr.
  - contradiction.
Qed.

(** A forced collection cannot report a failure. The tick it runs catches
    every exception itself, so [force_collect_sensor_data] and
    [force_scan_rfid_devices] return [success = True] with their completion
    message in every state; when the work of the tick did fail, the only
    trace is the one entry the tick added to the error list. *)
Theorem forced_collection_always_reports_success w :
  (∃ rep w',
     CollectionScheduler.force_collect_sensor_data w = Returns rep w'
     ∧ forced_success rep = true ∧ forced_message rep = "传感器数据采集完成"
     ∧ (∀ e w1, CollectionScheduler.collect_sensor_data_body w = Raises e w1 →
          ∃ t, error_list w'
               = error_list w ++ [{| err_type := "sensor"; err_message := exn_text e;
                                     err_timestamp := t |}]))
  ∧ (∃ rep w',
       CollectionScheduler.force_scan_rfid_devices w = Returns rep w'
       ∧ forced_success rep = true ∧ forced_message rep = "RFID设备扫描完成"
       ∧ (∀ e w1, CollectionScheduler.scan_rfid_devices_body w = Raises e w1 →
            ∃ t, error_list w'
                 = error_list w ++ [{| err_type := "rfid"; err_message := exn_text e;
                                       err_timestamp := t |}])).
Proof.
  split.
  - apply forced_tick_outcome.
    unfold CollectionScheduler._collect_sensor_data. rewrite sensor_body_eq.
    apply tick_bookkeeping_of;
      [ intros t s; reflexivity | apply keeps_scheduler_sensor_sampling
      | apply never_blocks_sensor_sampling ].
  - apply forced_tick_outcome.
    unfold CollectionScheduler._scan_rfid_devices. rewrite rfid_body_eq.
    apply tick_bookkeeping_of;
      [ intros t s; reflexivity | apply keeps_scheduler_rfid_sampling
      | apply never_blocks_rfid_sampling ].
Qed.

Lemma update_data_of_lookups s r :
  dict_get (CollectionScheduler.update_data_of s r) "sensorInterval" = s
  ∧ dict_get (CollectionScheduler.update_data_of s r) "rfidInterval" = r
  ∧ dict_get (CollectionScheduler.update_data_of s r) "isPaused" = PNone.
Proof.
  unfold CollectionScheduler.update_data_of, dict_get.
  destruct s, r; simpl;
    rewrite ?lookup_insert_eq, ?lookup_insert_ne, ?lookup_empty by done;
    rewrite ?lookup_insert_eq, ?lookup_insert_ne, ?lookup_empty by done; auto.
Qed.

Lemma update_data_of_empty s r :
  CollectionScheduler.update_data_of s r = ∅ ↔ s = PNone ∧ r = PNone.
Proof.
  split.
  - intros He. pose proof (update_data_of_lookups s r) as (Hs & Hr & _).
    rewrite He in Hs, Hr. unfold dict_get in Hs, Hr. rewrite lookup_empty in Hs, Hr.
    simpl in *. auto.
  - intros [-> ->]. reflexivity.
Qed.

Lemma scheduler_unlock_after_lock w :
  scheduler_lock (collection_scheduler w) = false →
  set_scheduler (CollectionScheduler.set_scheduler_lock false)
    (set_scheduler (CollectionScheduler.set_scheduler_lock true) w) = w.
Proof.
  destruct w as [st fs [run l sl rl errs js ja ms md] n rf ri]. simpl. intros ->. reflexivity.
Qed.

(** [update_intervals] on a running scheduler, at its two edges, with both
    mutexes free. Given no interval at all it answers that there is nothing
    to update, with the current configuration, and changes nothing. Given an
    interval the controller turns down, it hands back the controller's
    failure, whose message names the violated bounds, and again nothing has
    changed: no job is rescheduled, nothing is written, the cache is intact. *)
Theorem update_intervals_without_effect s r w :
  is_running (collection_scheduler w) = true →
  scheduler_lock (collection_scheduler w) = false →
  lock_held w = false →
  (s = PNone → r = PNone →
   CollectionScheduler.update_intervals s r w
   = Returns {| success := true; message := "无需更新";
                config := Some (answer_of (cached w)); status := Some "running" |} w)
  ∧ (out_of_domain s 1 300 ∨ out_of_domain r 1 60 →
     ∃ m, CollectionScheduler.update_intervals s r w
          = Returns {| success := false; message := m;
                       config := Some (answer_of (cached w)); status := None |} w
          ∧ (m = "传感器采集间隔必须在 1-300 秒之间"
             ∨ m = "RFID扫描间隔必须在 1-60 秒之间")).
Proof.
  intros Hrun Hsl Hw.
  assert (Hget : CollectionFrequencyService.get_current_config
                   (set_scheduler (CollectionScheduler.set_scheduler_lock true) w)
                 = Returns (answer_of (cached w))
                     (set_scheduler (CollectionScheduler.set_scheduler_lock true) w)).
  { apply (get_current_config_Returns
             (set_scheduler (CollectionScheduler.set_scheduler_lock true) w)). exact Hw. }
  split.
  - intros -> ->. unfold CollectionScheduler.update_intervals, try_except,
      CollectionScheduler.with_lock. rewrite Hsl. unfold bind at 1. unfold get_state at 1.
    simpl. rewrite Hrun. simpl. unfold bind. rewrite Hget. simpl.
    unfold ret. f_equal. apply scheduler_unlock_after_lock. exact Hsl.
  - intros Hbad.
    assert (Hne : CollectionScheduler.update_data_of s r ≠ ∅).
    { intros He. apply update_data_of_empty in He as [-> ->].
      destruct Hbad as [[Hn _]|[Hn _]]; apply Hn; reflexivity. }
    pose proof (update_data_of_lookups s r) as (Ls & Lr & Lp).
    destruct (check_config_data_Err s r PNone) as (m & Hm & Hwhich).
    { destruct Hbad as [?|?]; auto. }
    exists m. split.
    + unfold CollectionScheduler.update_intervals, try_except,
        CollectionScheduler.with_lock. rewrite Hsl. unfold bind at 1. unfold get_state at 1.
      simpl. rewrite Hrun. simpl. unfold bind at 1. rewrite Hget.
      destruct (decide (CollectionScheduler.update_data_of s r = ∅)); [contradiction|].
      unfold bind at 1.
      unfold CollectionFrequencyService.update_config, try_except. unfold bind at 1.
      rewrite Ls, Lr, Lp, Hm. unfold of_result, raise. unfold bind at 1. rewrite Hget.
      simpl. unfold ret. f_equal. apply scheduler_unlock_after_lock. exact Hsl.
    + destruct Hwhich as [[-> _]|[[-> _]|[_ [Hn _]]]]; auto. contradiction.
Qed.

(** C6 (what the code does instead): with both mutexes free,
    [update_intervals] on a scheduler that is not running answers with the
    failure [stopped] and changes nothing, as the claim says. On a running
    scheduler, given a sensor interval, an RFID interval or both, it never
    answers [success = true] and never reschedules a job: it hands back a
    failure of the controller with the scheduler object as it was, or it
    waits for ever for the controller's mutex, holding its own, the jobs
    being the ones that were there. The intervals of the claim, an integer
    in [[1, 300]] for the sensors or in [[1, 60]] for the readers given
    alone, pass the controller's check; it is not the check that stops them. *)
Theorem update_intervals_never_reschedules s r w :
  scheduler_lock (collection_scheduler w) = false →
  lock_held w = false →
  (is_running (collection_scheduler w) = false →
   CollectionScheduler.update_intervals s r w
   = Returns {| success := false; message := "数据采集未运行，无法更新间隔";
                config := None; status := Some "stopped" |} w)
  ∧ (is_running (collection_scheduler w) = true →
     s ≠ PNone ∨ r ≠ PNone →
     nothing_rescheduled w (CollectionScheduler.update_intervals s r w))
  ∧ (∀ z, (1 ≤ z ≤ 300 →
           CollectionFrequencyService.check_config_data (PInt z) PNone PNone = Ok tt)
          ∧ (1 ≤ z ≤ 60 →
             CollectionFrequencyService.check_config_data PNone (PInt z) PNone = Ok tt)).
Proof.
  intros Hsl Hw. split; [|split].
  - intros Hrun. apply update_intervals_when_stopped; assumption.
  - intros Hrun Hgiven.
    assert (Hne : CollectionScheduler.update_data_of s r ≠ ∅).
    { intros He. apply update_data_of_empty in He as [-> ->].
      destruct Hgiven as [Hn|Hn]; apply Hn; reflexivity. }
    pose (w1 := set_scheduler (CollectionScheduler.set_scheduler_lock true) w).
    assert (Hw1 : lock_held w1 = false) by exact Hw.
    assert (Hget : CollectionFrequencyService.get_current_config w1
                   = Returns (answer_of (cached w)) w1).
    { apply (get_current_config_Returns w1). exact Hw1. }
    pose proof (update_config_never_succeeds
                  (CollectionScheduler.update_data_of s r) "scheduler" w1 Hw1) as Hnever.
    pose proof (update_config_keeps_scheduler
                  (CollectionScheduler.update_data_of s r) "scheduler" w1 Hw1) as Hkeeps.
    unfold CollectionScheduler.update_intervals, try_except,
      CollectionScheduler.with_lock. rewrite Hsl. unfold bind at 1. unfold get_state at 1.
    simpl. rewrite Hrun. simpl. unfold bind at 1. fold w1. rewrite Hget.
    destruct (decide (CollectionScheduler.update_data_of s r = ∅)); [contradiction|].
    unfold bind at 1.
    destruct (CollectionFrequencyService.update_config
                (CollectionScheduler.update_data_of s r) "scheduler" w1)
      as [rep w2|e w2|w2]; simpl in Hnever, Hkeeps.
    + rewrite Hnever. simpl. split; [exact Hnever|]. rewrite Hkeeps. unfold w1. simpl.
      destruct (collection_scheduler w). simpl in *. subst. reflexivity.
    + contradiction.
    + simpl. split; [exact Hnever | exact Hkeeps].
  - intros z. unfold CollectionFrequencyService.check_config_data,
      CollectionFrequencyService.interval_rejected,
      CollectionConfig.MIN_SENSOR_INTERVAL, CollectionConfig.MAX_SENSOR_INTERVAL,
      CollectionConfig.MIN_RFID_INTERVAL, CollectionConfig.MAX_RFID_INTERVAL. simpl.
    split; intros Hz.
    + assert ((z <? 1) = false) as -> by (apply Z.ltb_ge; lia).
      assert ((300 <? z) = false) as -> by (apply Z.ltb_ge; lia). reflexivity.
    + assert ((z <? 1) = false) as -> by (apply Z.ltb_ge; lia).
      assert ((60 <? z) = false) as -> by (apply Z.ltb_ge; lia). reflexivity.
Qed.

Lemma table_wf_after_insert t values :
  table_wf t →
  table_wf {| rows := rows t ++ [<["id" := PInt (last_rowid t + 1)]> values];
              last_rowid := Z.max (last_rowid t) (last_rowid t + 1) |}.
Proof.
  unfold table_wf. simpl. intros Hwf. apply Forall_app. split.
  - eapply Forall_impl; [exact Hwf|]. simpl. intros r Hr i Hi. specialize (Hr i Hi). lia.
  - apply Forall_singleton. intros i. rewrite lookup_insert_eq. intros [= <-]. lia.
Qed.

Lemma collect_one_sensor_stores_a_row sensor_id info w t :
  (∀ k, sql_fault (store w) k = None) →
  tables (store w) !! "environment_data" = Some t →
  table_wf t →
  ∃ w' row,
    CollectionScheduler.collect_one_sensor sensor_id info w = Returns tt w'
    ∧ (∀ k, sql_fault (store w') k = None)
    ∧ tables (store w') !! "environment_data"
      = Some {| rows := rows t ++ [row];
                last_rowid := Z.max (last_rowid t) (last_rowid t + 1) |}
    ∧ table_wf {| rows := rows t ++ [row];
                  last_rowid := Z.max (last_rowid t) (last_rowid t + 1) |}
    ∧ row !! "sensor_id" = Some (PStr sensor_id)
    ∧ row !! "location" = Some (PStr (location info))
    ∧ collection_scheduler w' = collection_scheduler w
    ∧ frequency_service w' = frequency_service w
    ∧ (∀ tbl, tbl ≠ "environment_data" → tables (store w') !! tbl = tables (store w) !! tbl).
Proof.
  intros Hfault Ht Hwf.
  unfold CollectionScheduler.collect_one_sensor, CollectionScheduler.random_uniform,
    CollectionScheduler.random_random. unfold bind at 1 2 3 4 5 6. unfold ret at 1 2 3.
  cbv zeta. unfold bind at 1. rewrite in_store_now.
  unfold bind at 1. unfold in_store at 1, zoom at 1.
  unfold BaseModel.create. unfold bind at 1. rewrite lookup_insert_ne by done.
  rewrite !lookup_insert_ne by done. rewrite lookup_empty.
  unfold bind at 1. unfold now_isoformat at 1. unfold ret at 1. unfold bind at 1.
  match goal with
  | |- context [execute_insert ?tbl ?values ?st] =>
      rewrite (execute_insert_fresh tbl values st t);
        [| rewrite !lookup_insert_ne by done; apply lookup_empty
         | apply Hfault | exact Ht | exact Hwf ]
  end.
  simpl. eexists _, _. split; [reflexivity|]. simpl.
  split; [exact Hfault|]. split; [apply lookup_insert_eq|].
  split; [apply table_wf_after_insert; exact Hwf|].
  split; [rewrite !lookup_insert_ne by done; apply lookup_insert_eq|].
  split; [rewrite !lookup_insert_ne by done; apply lookup_insert_eq|].
  split; [reflexivity|]. split; [reflexivity|].
  intros tbl Htbl. apply lookup_insert_ne. congruence.
Qed.

Lemma collect_all_sensors_stores_rows sensors : ∀ w t,
  (∀ k, sql_fault (store w) k = None) →
  tables (store w) !! "environment_data" = Some t →
  table_wf t →
  ∃ w' t' new,
    CollectionScheduler.collect_all_sensors sensors w = Returns tt w'
    ∧ (∀ k, sql_fault (store w') k = None)
    ∧ tables (store w') !! "environment_data" = Some t'
    ∧ table_wf t'
    ∧ rows t' = rows t ++ new
    ∧ (λ row, dict_get row "sensor_id") <$> new = (λ sensor, PStr sensor.1) <$> sensors
    ∧ collection_scheduler w' = collection_scheduler w
    ∧ frequency_service w' = frequency_service w
    ∧ (∀ tbl, tbl ≠ "environment_data" → tables (store w') !! tbl = tables (store w) !! tbl).
Proof.
  induction sensors as [|[sensor_id info] rest IH]; intros w t Hfault Ht Hwf.
  - exists w, t, []. simpl. rewrite app_nil_r. repeat split; auto.
  - destruct (collect_one_sensor_stores_a_row sensor_id info w t Hfault Ht Hwf)
      as (w1 & row & Hrun1 & Hfault1 & Ht1 & Hwf1 & Hid & _ & Hsch1 & Hsvc1 & Hother1).
    destruct (IH w1 _ Hfault1 Ht1 Hwf1)
      as (w2 & t2 & new & Hrun2 & Hfault2 & Ht2 & Hwf2 & Hrows2 & Hids & Hsch2 & Hsvc2
          & Hother2).
    exists w2, t2, (row :: new). simpl. unfold bind. rewrite Hrun1, Hrun2.
    split; [reflexivity|]. split; [exact Hfault2|]. split; [exact Ht2|].
    split; [exact Hwf2|].
    split; [rewrite Hrows2; simpl; rewrite <- app_assoc; reflexivity|].
    split; [csimpl; unfold dict_get at 1; rewrite Hid; simpl; f_equal; exact Hids|].
    split; [congruence|]. split; [congruence|].
    intros tbl Htbl. rewrite (Hother2 tbl Htbl). apply Hother1. exact Htbl.
Qed.

(** A sensor tick on a database that answers. When no statement fails and
    the readings table exists with no id beyond its AUTOINCREMENT mark, the
    tick succeeds: it appends to the table exactly one row per mock sensor,
    in the order of the sensors and carrying their ids, stamps the time of
    the collection, drops the sensor entries from the error list, and leaves
    the controller and every other table as they were. *)
Theorem sensor_tick_stores_one_row_per_sensor w t :
  (∀ k, sql_fault (store w) k = None) →
  tables (store w) !! "environment_data" = Some t →
  table_wf t →
  ∃ w' new,
    CollectionScheduler._collect_sensor_data w = Returns tt w'
    ∧ rows_of "environment_data" (store w') = rows t ++ new
    ∧ (λ row, dict_get row "sensor_id") <$> new
      = (λ sensor, PStr sensor.1) <$> mock_sensors (collection_scheduler w)
    ∧ is_Some (_sensor_last_collection (collection_scheduler w'))
    ∧ error_list w' = CollectionScheduler.without_errors_of "sensor" (error_list w)
    ∧ frequency_service w' = frequency_service w
    ∧ (∀ tbl, tbl ≠ "environment_data" → tables (store w') !! tbl = tables (store w) !! tbl).
Proof.
  intros Hfault Ht Hwf.
  destruct (collect_all_sensors_stores_rows (mock_sensors (collection_scheduler w)) w t
              Hfault Ht Hwf)
    as (w1 & t1 & new & Hrun & _ & Ht1 & _ & Hrows & Hids & Hsch & Hsvc & Hother).
  unfold CollectionScheduler._collect_sensor_data, try_except,
    CollectionScheduler.collect_sensor_data_body.
  unfold bind at 1. unfold get_state at 1. unfold bind at 1. rewrite Hrun.
  unfold bind at 1. rewrite in_store_now. unfold bind, modify. simpl.
  eexists _, new. split; [reflexivity|]. simpl.
  split; [unfold rows_of; simpl; rewrite Ht1; exact Hrows|].
  split; [exact Hids|]. split; [eauto|].
  split; [unfold error_list; simpl; rewrite Hsch; reflexivity|].
  split; [exact Hsvc|]. exact Hother.
Qed.

End SchedulerEdges.

(* ===================================================================== *)
(** ** Readings and estimates stay in range *)
(* ===================================================================== *)

Lemma SFcompare_refl x : x ≠ S754_nan → SFcompare x x = Some Eq.
Proof.
  destruct x as [s|s| |s m e]; simpl; intros Hx; try reflexivity; try contradiction.
  - destruct s; reflexivity.
  - rewrite Z.compare_refl. destruct s; simpl.
    + rewrite Pos.compare_cont_refl. reflexivity.
    + rewrite Pos.compare_cont_refl. reflexivity.
Qed.

Lemma float_ltb_leb a b : PrimFloat.ltb a b = true → PrimFloat.leb a b = true.
Proof.
  rewrite ltb_spec, leb_spec. unfold SFltb, SFleb.
  destruct (SFcompare (Prim2SF a) (Prim2SF b)) as [[]|]; congruence.
Qed.

Lemma float_leb_not_nan a b :
  PrimFloat.leb a b = true → Prim2SF a ≠ S754_nan ∧ Prim2SF b ≠ S754_nan.
Proof.
  rewrite leb_spec. unfold SFleb.
  destruct (Prim2SF a) as [sa|sa| |sa ma ea], (Prim2SF b) as [sb|sb| |sb mb eb]; simpl;
    intros H; try discriminate; split; discriminate.
Qed.

Lemma float_leb_refl a : Prim2SF a ≠ S754_nan → PrimFloat.leb a a = true.
Proof.
  intros Ha. rewrite leb_spec. unfold SFleb. rewrite (SFcompare_refl _ Ha). reflexivity.
Qed.

Lemma float_ltb_nan_l a b : Prim2SF a = S754_nan → PrimFloat.ltb a b = false.
Proof. intros Ha. rewrite ltb_spec. unfold SFltb. rewrite Ha. reflexivity. Qed.

(** The clamp of a reading, [max(lo, min(hi, x))] as the sensor tick
    computes it: for bounds with [lo <= hi] the result lies between the
    bounds whatever the float [x] is, an infinity or a NaN included; a NaN is
    clamped to the upper bound when [lo < hi]. *)
Theorem clamped_reading_is_in_range lo hi x :
  PrimFloat.leb lo hi = true →
  PrimFloat.leb lo (CollectionScheduler.float_max lo (CollectionScheduler.float_min hi x))
  = true
  ∧ PrimFloat.leb (CollectionScheduler.float_max lo (CollectionScheduler.float_min hi x)) hi
    = true
  ∧ (Prim2SF x = S754_nan → PrimFloat.ltb lo hi = true →
     CollectionScheduler.float_max lo (CollectionScheduler.float_min hi x) = hi).
Proof.
  intros Hle. destruct (float_leb_not_nan lo hi Hle) as [Hlo Hhi].
  unfold CollectionScheduler.float_max, CollectionScheduler.float_min.
  split; [|split].
  - destruct (PrimFloat.ltb x hi) eqn:Hx.
    + destruct (PrimFloat.ltb lo x) eqn:Hl;
        [apply float_ltb_leb; exact Hl | apply float_leb_refl; exact Hlo].
    + destruct (PrimFloat.ltb lo hi); [exact Hle | apply float_leb_refl; exact Hlo].
  - destruct (PrimFloat.ltb x hi) eqn:Hx.
    + destruct (PrimFloat.ltb lo x) eqn:Hl; [apply float_ltb_leb; exact Hx | exact Hle].
    + destruct (PrimFloat.ltb lo hi); [apply float_leb_refl; exact Hhi | exact Hle].
  - intros Hnan Hlt. rewrite (float_ltb_nan_l x hi Hnan), Hlt. reflexivity.
Qed.

Lemma valid_intervals_estimates :
  forallb (λ s, forallb (λ r,
      let x := ((int_truediv 60 s * 0.5 + int_truediv 60 r * 1.0) / 100)%float in
      negb (PrimFloat.ltb 100 x) && PrimFloat.leb 0.011 x && PrimFloat.leb x 0.9)
    (seqZ 1 60)) (seqZ 1 300) = true.
Proof. vm_compute. reflexivity. Qed.

(** The CPU estimate of a valid configuration: for integer intervals within
    the allowed ranges, [[1, 300]] and [[1, 60]], [get_performance_impact]
    answers, its CPU estimate is a float between 0.011 and 0.9, and the cap
    [min(..., 100)] never applies. *)
Theorem valid_intervals_never_reach_the_cpu_cap d s r :
  d !! "sensor_interval" = Some (PInt s) → d !! "rfid_interval" = Some (PInt r) →
  1 ≤ s ≤ 300 → 1 ≤ r ≤ 60 →
  ∃ p x, CollectionConfig.get_performance_impact d = Ok p
         ∧ estimatedCpuUsage p = PFloat x
         ∧ PrimFloat.leb 0.011 x = true ∧ PrimFloat.leb x 0.9 = true.
Proof.
  intros Hs Hr Hsr Hrr.
  pose proof valid_intervals_estimates as Hall. rewrite forallb_forall in Hall.
  specialize (Hall s). rewrite forallb_forall in Hall.
  assert (Hin : In s (seqZ 1 300)) by (apply list_elem_of_In, elem_of_seqZ; lia).
  specialize (Hall Hin r).
  assert (Hin' : In r (seqZ 1 60)) by (apply list_elem_of_In, elem_of_seqZ; lia).
  specialize (Hall Hin'). cbv zeta in Hall.
  apply andb_true_iff in Hall as [Hall Hhi]. apply andb_true_iff in Hall as [Hcap Hlo].
  apply negb_true_iff in Hcap.
  unfold CollectionConfig.get_performance_impact, CollectionConfig.getattr,
    BaseModel.getattr_result. rewrite Hs, Hr. simpl.
  destruct (s =? 0) eqn:Es; [apply Z.eqb_eq in Es; lia|].
  destruct (r =? 0) eqn:Er; [apply Z.eqb_eq in Er; lia|].
  eexists _, _. split; [reflexivity|]. simpl. unfold min_with_100. rewrite Hcap.
  split; [reflexivity|]. split; assumption.
Qed.

(* ===================================================================== *)
(** ** The properties on a concrete process *)
(* ===================================================================== *)

#[local] Existing Instance plain_builtins.
#[local] Existing Instance no_callbacks.
#[local] Existing Instance no_dispatch.
#[local] Existing Instance plain_triggers.

(** C1, at the failing input: three successful updates with the distinct
    valid sensor intervals 40, 50 and 60, on the default configuration of a
    fresh database, leave one persisted row, not three; that row is the one
    there was before, with the last interval written into it. *)
Example three_updates_leave_one_row :
  match update_all three_updates (cached fresh_world, store fresh_world) with
  | Returns _ (_, st) =>
      column "id" (store fresh_world) = [PInt 1]
      ∧ column "sensor_interval" (store fresh_world) = [PInt 30]
      ∧ column "id" st = [PInt 1]
      ∧ column "sensor_interval" st = [PInt 60]
      ∧ column "updated_by" st = [PStr "user3"]
  | _ => False
  end.
Proof. vm_compute. repeat split; reflexivity. Qed.

Lemma update_config_rewrites_in_place_witness :
  ∃ o' st',
    update_all three_updates (cached fresh_world, store fresh_world) = Returns tt (o', st')
    ∧ length (config_rows st') = 1%nat
    ∧ BaseModel.data o' !! "id" = Some (PInt 1)
    ∧ Forall2 (same_row_unless (PInt 1)) (config_rows (store fresh_world)) (config_rows st')
    ∧ key_rows_hold o' st' (BaseModel.data o')
    ∧ BaseModel.data o' !! "sensor_interval" = Some (PInt 60)
    ∧ BaseModel.data o' !! "updated_by" = Some (PStr "user3").
Proof.
  assert (Hkey : has_key (cached fresh_world) = true) by (vm_compute; reflexivity).
  assert (Ho : BaseModel.original_data (cached fresh_world)
               = BaseModel.data (cached fresh_world)) by (vm_compute; reflexivity).
  assert (Hr : config_rows (store fresh_world) = [BaseModel.data (cached fresh_world)])
    by (vm_compute; reflexivity).
  assert (Hfresh : snapshot_in_step (cached fresh_world) (store fresh_world)).
  { unfold snapshot_in_step, key_rows_hold. rewrite Ho, Hr. split; [auto|].
    intros r Hin _ k _ _. apply list_elem_of_singleton in Hin. subst r. reflexivity. }
  destruct (update_all three_updates (cached fresh_world, store fresh_world))
    as [[] [o' st']|e s|s] eqn:E.
  - exists o', st'. split; [reflexivity|].
    destruct (update_config_rewrites_in_place three_updates (cached fresh_world)
                (store fresh_world) o' st' Hkey E) as (Hlen & Hid & Hrows & Hstep).
    destruct (Hstep Hfresh) as [_ Hlast].
    destruct Hlast as [Hhold (Hs & _ & _ & Hby)]; [discriminate|].
    split; [rewrite Hlen, Hr; reflexivity|].
    split; [rewrite Hid; vm_compute; reflexivity|].
    split; [exact Hrows|]. split; [exact Hhold|].
    split; [exact (Hs eq_refl) | exact Hby].
  - vm_compute in E. discriminate E.
  - vm_compute in E. discriminate E.
Defined.

(** C2, refuted as stated: on a controller whose database has stopped
    answering, the update of the sensor interval to 60 returns a failure,
    and [get_current_config], which answered 30 before the call, answers 60
    after it, while the persisted row still says 30. *)
Lemma failed_update_changes_the_cache :
  match CollectionFrequencyService.get_current_config broken_world,
        CollectionFrequencyService.update_config (<["sensorInterval" := PInt 60]> ∅)
                                                 "admin" broken_world with
  | Returns before _, Returns rep w' =>
      sensorInterval before = PInt 30
      ∧ success rep = false
      ∧ column "sensor_interval" (store w') = [PInt 30]
      ∧ match CollectionFrequencyService.get_current_config w' with
        | Returns after _ => sensorInterval after = PInt 60
        | _ => False
        end
  | _, _ => False
  end.
Proof. vm_compute. repeat split; reflexivity. Qed.

Lemma failed_persistence_keeps_the_attempt_witness :
  ∃ rep new,
    success rep = false
    ∧ sensorInterval new = PInt 60 ∧ rfidInterval new = PInt 10
    ∧ isPaused new = PBool false ∧ updatedBy new = PStr "admin".
Proof.
  edestruct (failed_persistence_keeps_the_attempt
               (Update (<["sensorInterval" := PInt 60]> ∅)) "admin" broken_world)
    as (rep & new & _ & Hrep & _ & _ & Hsensor & Hrfid & Hpaused & Hby);
    [ vm_compute; reflexivity | vm_compute; reflexivity | vm_compute; reflexivity
    | vm_compute; reflexivity | ].
  exists rep, new. split; [exact Hrep|].
  split; [exact Hsensor|]. split; [exact Hrfid|]. split; [exact Hpaused|exact Hby].
Defined.

(** C3, at the input of the controller's own test: on a fresh controller the
    update to 60 and 20 persists both values into the one row, caches them,
    writes its audit entry, and then waits for the mutex it holds. *)
Example valid_update_waits_on_a_fresh_controller :
  match CollectionFrequencyService.update_config
          (<["sensorInterval" := PInt 60]> (<["rfidInterval" := PInt 20]> ∅))
          "test_user" fresh_world with
  | Blocks w' =>
      lock_held w' = true
      ∧ column "sensor_interval" (store w') = [PInt 60]
      ∧ column "rfid_interval" (store w') = [PInt 20]
      ∧ dict_get (BaseModel.data (cached w')) "sensor_interval" = PInt 60
      ∧ length (system_logs (store w')) = 1%nat
  | _ => False
  end.
Proof. vm_compute. repeat split; reflexivity. Qed.

Lemma valid_update_never_reports_success_witness :
  CollectionFrequencyService.check_config_data (PInt 60) (PInt 20) PNone = Ok tt
  ∧ never_succeeds
      (CollectionFrequencyService.update_config
         (<["sensorInterval" := PInt 60]> (<["rfidInterval" := PInt 20]> ∅))
         "test_user" fresh_world).
Proof.
  apply (valid_update_never_reports_success 60 20 "test_user" fresh_world);
    [lia | lia | vm_compute; reflexivity].
Defined.

Lemma invalid_update_is_rejected_witness :
  ∃ m, CollectionFrequencyService.update_config (<["sensorInterval" := PInt 0]> ∅)
         "test_user" fresh_world
       = Returns {| success := false; message := m;
                    config := Some (answer_of (cached fresh_world)); status := None |}
                 fresh_world
       ∧ m = "传感器采集间隔必须在 1-300 秒之间".
Proof.
  destruct (invalid_update_is_rejected (<["sensorInterval" := PInt 0]> ∅) "test_user"
              fresh_world) as (m & Hrun & _ & Hwhich).
  - vm_compute. reflexivity.
  - left. split; [vm_compute; discriminate|].
    intros z Hz. vm_compute in Hz. injection Hz as <-. lia.
  - exists m. split; [exact Hrun|].
    destruct Hwhich as [[Hm _]|[[_ [Hn _]]|[_ [Hn _]]]];
      [exact Hm | exfalso; apply Hn; reflexivity..].
Defined.

(** C6, for a change of the sensor interval alone: on the running scheduler,
    [update_intervals] with the sensor interval 60 has the controller persist
    the value, and never returns; it holds both mutexes, and the two jobs are
    the ones that were there, the sensor job still at 30 seconds. *)
Lemma update_intervals_never_reschedules_witness :
  ∃ w', CollectionScheduler.update_intervals (PInt 60) PNone running_world = Blocks w'
        ∧ lock_held w' = true
        ∧ scheduler_lock (collection_scheduler w') = true
        ∧ column "sensor_interval" (store w') = [PInt 60]
        ∧ jobs (collection_scheduler w') = jobs (collection_scheduler running_world)
        ∧ jobs (collection_scheduler w') !! "sensor_collection"
          = Some {| trigger_seconds := PInt 30; added_at := 0 |}.
Proof.
  assert (H1 : scheduler_lock (collection_scheduler running_world) = false)
    by (vm_compute; reflexivity).
  assert (H2 : lock_held running_world = false) by (vm_compute; reflexivity).
  assert (H3 : is_running (collection_scheduler running_world) = true)
    by (vm_compute; reflexivity).
  assert (H4 : PInt 60 ≠ PNone ∨ PNone ≠ PNone) by (left; discriminate).
  destruct (update_intervals_never_reschedules (PInt 60) PNone running_world H1 H2)
    as (_ & Hrunning & _).
  specialize (Hrunning H3 H4). unfold nothing_rescheduled in Hrunning.
  destruct (CollectionScheduler.update_intervals (PInt 60) PNone running_world)
    as [rep w'|e w'|w'] eqn:E.
  - vm_compute in E. discriminate E.
  - contradiction.
  - exists w'. split; [reflexivity|]. destruct Hrunning as [Hlock Hsch].
    split; [exact Hlock|].
    split; [rewrite Hsch; reflexivity|].
    split.
    { apply (f_equal final) in E. simpl in E. rewrite <- E. vm_compute. reflexivity. }
    split; rewrite Hsch; [reflexivity | vm_compute; reflexivity].
Defined.

(** C7 on two processes: with a database that has stopped answering the
    sensor tick fails and leaves exactly one entry, of type sensor; with a
    working database it succeeds and leaves none. *)
Lemma tick_error_bookkeeping_witness :
  (∃ w' entry, CollectionScheduler._collect_sensor_data broken_world = Returns tt w'
               ∧ error_list w' = [entry] ∧ err_type entry = "sensor")
  ∧ (∃ w', CollectionScheduler._collect_sensor_data fresh_world = Returns tt w'
           ∧ error_list w' = [] ∧ length (rows_of "environment_data" (store w')) = 3%nat).
Proof.
  split.
  - destruct (tick_error_bookkeeping broken_world) as [Hsensor _].
    unfold tick_bookkeeping in Hsensor.
    destruct (CollectionScheduler.collect_sensor_data_body broken_world)
      as [[] w1|e w1|w1] eqn:E.
    + vm_compute in E. discriminate E.
    + destruct Hsensor as (w' & t & Hrun & Herrors).
      exists w'. eexists. split; [exact Hrun|]. split; [exact Herrors | reflexivity].
    + contradiction.
  - destruct (tick_error_bookkeeping fresh_world) as [Hsensor _].
    unfold tick_bookkeeping in Hsensor.
    destruct (CollectionScheduler.collect_sensor_data_body fresh_world)
      as [[] w1|e w1|w1] eqn:E.
    + destruct Hsensor as (Hrun & Herrors & _).
      exists w1. split; [exact Hrun|]. split; [exact Herrors|].
      apply (f_equal final) in E. simpl in E. rewrite <- E. vm_compute. reflexivity.
    + vm_compute in E. discriminate E.
    + contradiction.
Defined.

Lemma pause_and_resume_return_only_as_noops_witness :
  (CollectionFrequencyService.resume_collection "test_user" fresh_world
   = Returns already_running_reply fresh_world
   ∧ never_succeeds (CollectionFrequencyService.pause_collection "test_user" fresh_world))
  ∧ (CollectionFrequencyService.pause_collection "test_user" paused_world
     = Returns already_paused_reply paused_world
     ∧ never_succeeds (CollectionFrequencyService.resume_collection "test_user" paused_world)).
Proof.
  split.
  - refine (pause_and_resume_return_only_as_noops "test_user" fresh_world (PBool false) _ _);
      vm_compute; reflexivity.
  - refine (pause_and_resume_return_only_as_noops "test_user" paused_world (PBool true) _ _);
      vm_compute; reflexivity.
Defined.

(** C8, at the input of the controller's own test: on a fresh controller the
    pause persists and caches the flag, records the status, and then waits
    for the mutex it holds; no resume can follow it. *)
Example pause_waits_on_a_fresh_controller :
  match CollectionFrequencyService.pause_collection "test_user" fresh_world with
  | Blocks w' =>
      lock_held w' = true
      ∧ column "is_paused" (store w') = [PBool true]
      ∧ dict_get (BaseModel.data (cached w')) "is_paused" = PBool true
      ∧ CollectionFrequencyService.resume_collection "test_user" w' = Blocks w'
  | _ => False
  end.
Proof. vm_compute. repeat split; reflexivity. Qed.

Lemma notification_waits_for_its_own_lock_witness :
  (∀ old new,
     CollectionFrequencyService._notify_config_change_callbacks old new
       (set_service (CollectionFrequencyService.set_lock true) fresh_world)
     = Blocks (set_service (CollectionFrequencyService.set_lock true) fresh_world))
  ∧ (∀ status,
       CollectionFrequencyService._notify_status_change_callbacks status "test_user"
         (set_service (CollectionFrequencyService.set_lock true) fresh_world)
       = Blocks (set_service (CollectionFrequencyService.set_lock true) fresh_world))
  ∧ (∀ cfg, never_succeeds
              (CollectionFrequencyService.update_config cfg "test_user" fresh_world))
  ∧ never_succeeds (CollectionFrequencyService.reset_to_default "test_user" fresh_world).
Proof.
  apply (notification_waits_for_its_own_lock "test_user" fresh_world).
  vm_compute. reflexivity.
Defined.

(** C9, at the input of the controller's own test: the reset of a fresh
    controller writes its audit entry and then waits for the mutex it holds;
    from then on every operation that takes the mutex waits as well, the
    read included. *)
Example reset_waits_on_a_fresh_controller :
  match CollectionFrequencyService.reset_to_default "test_user" fresh_world with
  | Blocks w' =>
      lock_held w' = true
      ∧ length (system_logs (store w')) = 1%nat
      ∧ CollectionFrequencyService.get_current_config w' = Blocks w'
  | _ => False
  end.
Proof. vm_compute. repeat split; reflexivity. Qed.

(** C10: a [bool] goes where an interval is expected. [True] passes the
    range check of [update_config] exactly as the integer 1 does, for any
    bounds, and so passes the whole check; [validate_config] reports a
    configuration whose sensor interval, RFID interval or both are [True] as
    valid, with no error; and on a fresh controller the update with
    [sensorInterval = True] stores [True] in the row and in the cache. It
    does not answer [success = true]: it then waits for the mutex it holds. *)
Theorem boolean_interval_is_taken_for_an_integer :
  (∀ lo hi, CollectionFrequencyService.interval_rejected (PBool true) lo hi
            = CollectionFrequencyService.interval_rejected (PInt 1) lo hi)
  ∧ CollectionFrequencyService.check_config_data (PBool true) PNone PNone = Ok tt
  ∧ Forall (λ cfg, valid (CollectionFrequencyService.validate_config cfg) = true
                   ∧ errors (CollectionFrequencyService.validate_config cfg) = [])
           [ <["sensorInterval" := PBool true]> ∅;
             <["rfidInterval" := PBool true]> ∅;
             <["sensorInterval" := PBool true]> (<["rfidInterval" := PBool true]> ∅) ]
  ∧ match CollectionFrequencyService.update_config (<["sensorInterval" := PBool true]> ∅)
            "admin" fresh_world with
    | Blocks w' =>
        lock_held w' = true
        ∧ column "sensor_interval" (store w') = [PBool true]
        ∧ dict_get (BaseModel.data (cached w')) "sensor_interval" = PBool true
    | _ => False
    end.
Proof.
  split; [reflexivity|]. split; [reflexivity|]. split.
  - repeat constructor; vm_compute; reflexivity.
  - vm_compute. repeat split; reflexivity.
Qed.

Lemma checked_update_fails_only_in_the_database_witness :
  match CollectionConfig.update_config (PInt 60) PNone PNone "admin"
          (cached fresh_world, store fresh_world) with
  | Returns ok _ => ok = true
  | Raises e _ => exn_class_of e = DatabaseError
  | Blocks _ => False
  end.
Proof.
  apply (checked_update_fails_only_in_the_database (PInt 60) PNone PNone "admin"
           (cached fresh_world) (store fresh_world));
    [ reflexivity | vm_compute; reflexivity | vm_compute; intros H; discriminate H ].
Defined.

Lemma save_without_key_inserts_one_row_witness :
  ∃ o' st',
    BaseModel.save CollectionConfig.cls (CollectionConfig.__init__ ∅, empty_store)
    = Returns true (o', st')
    ∧ BaseModel.data o' !! "id" = Some (PInt 1)
    ∧ BaseModel.original_data o' = BaseModel.data o'
    ∧ rows_of "collection_configs" st' = [BaseModel.data o'].
Proof.
  destruct (save_without_key_inserts_one_row CollectionConfig.cls
              (CollectionConfig.__init__ ∅) empty_store empty_table)
    as (o' & st' & Hrun & Hid & _ & _ & Horig & Hrows & _);
    [ vm_compute; reflexivity | reflexivity | vm_compute; reflexivity | constructor | ].
  exists o', st'. split; [exact Hrun|]. split; [exact Hid|]. split; [exact Horig|exact Hrows].
Defined.

Lemma save_of_unchanged_instance_writes_nothing_witness :
  BaseModel.save CollectionConfig.cls (cached fresh_world, store fresh_world)
  = Returns true (cached fresh_world, store fresh_world).
Proof.
  apply (save_of_unchanged_instance_writes_nothing CollectionConfig.cls
           (cached fresh_world) (store fresh_world));
    [ vm_compute; reflexivity | vm_compute; reflexivity | ].
  intros k f Hk. exfalso.
  assert (Hall : Forall (λ kv : string * pyval,
                           match kv.2 with PFloat _ => False | _ => True end)
                        (map_to_list (BaseModel.data (cached fresh_world)))).
  { vm_compute. repeat (constructor; [exact I|]). constructor. }
  rewrite Forall_forall in Hall.
  apply elem_of_map_to_list in Hk. exact (Hall _ Hk).
Defined.

Lemma save_on_a_missing_row_reports_success_witness :
  ∃ o' st',
    BaseModel.save CollectionConfig.cls
      ({| BaseModel.data := <["sensor_interval" := PInt 60]>
                              (BaseModel.data (cached fresh_world));
          BaseModel.original_data := BaseModel.original_data (cached fresh_world) |},
       empty_store)
    = Returns true (o', st')
    ∧ rows_of "collection_configs" st' = [].
Proof.
  apply (save_on_a_missing_row_reports_success CollectionConfig.cls _ empty_store
           empty_table); [ vm_compute; reflexivity | reflexivity | vm_compute; reflexivity
                         | constructor ].
Defined.

Lemma delete_refuses_unsaved_and_removes_by_key_witness :
  BaseModel.delete CollectionConfig.cls (CollectionConfig.__init__ ∅, empty_store)
  = Raises (Exn ValueError "无法删除未保存的记录") (CollectionConfig.__init__ ∅, empty_store)
  ∧ ∃ st',
      BaseModel.delete CollectionConfig.cls (cached fresh_world, store fresh_world)
      = Returns true (cached fresh_world, st')
      ∧ Forall (λ r, row_matches (dict_get (BaseModel.data (cached fresh_world)) "id") r
                     = false)
               (rows_of "collection_configs" st').
Proof.
  split.
  - apply (delete_refuses_unsaved_and_removes_by_key CollectionConfig.cls).
    vm_compute. reflexivity.
  - destruct (tables (store fresh_world) !! "collection_configs") as [t|] eqn:Ht;
      [|vm_compute in Ht; discriminate Ht].
    destruct (delete_refuses_unsaved_and_removes_by_key CollectionConfig.cls
                (cached fresh_world) (store fresh_world)) as [_ Hsaved].
    destruct (Hsaved t) as (st' & Hrun & _ & Hgone);
      [ vm_compute; reflexivity | reflexivity | exact Ht | ].
    exists st'. split; [exact Hrun | exact Hgone].
Defined.

Lemma load_current_config_falls_back_to_paused_witness :
  ∃ w', CollectionFrequencyService._load_current_config dead_world = Returns tt w'
        ∧ lock_held w' = false
        ∧ BaseModel.data (cached w') !! "is_paused" = Some (PBool true)
        ∧ BaseModel.data (cached w') !! "id" = None.
Proof.
  destruct (load_current_config_falls_back_to_paused dead_world)
    as (w' & Hrun & Hlock & _ & Hcase); [vm_compute; reflexivity|].
  exists w'. split; [exact Hrun|]. split; [exact Hlock|].
  destruct (CollectionConfig.get_or_create_default (store dead_world))
    as [c st'|e st'|st'] eqn:E.
  - vm_compute in E. discriminate E.
  - destruct Hcase as (_ & Hid & Hpaused & _). split; [exact Hpaused | exact Hid].
  - contradiction.
Defined.

Lemma update_intervals_without_effect_witness :
  CollectionScheduler.update_intervals PNone PNone running_world
  = Returns {| success := true; message := "无需更新";
               config := Some (answer_of (cached running_world));
               status := Some "running" |} running_world
  ∧ ∃ m, CollectionScheduler.update_intervals (PInt 0) PNone running_world
         = Returns {| success := false; message := m;
                      config := Some (answer_of (cached running_world)); status := None |}
                   running_world.
Proof.
  split.
  - apply (update_intervals_without_effect PNone PNone running_world);
      [vm_compute; reflexivity | reflexivity | vm_compute; reflexivity | reflexivity
      | reflexivity].
  - destruct (update_intervals_without_effect (PInt 0) PNone running_world)
      as [_ Hbad]; [vm_compute; reflexivity | reflexivity | vm_compute; reflexivity|].
    destruct Hbad as (m & Hrun & _).
    { left. split; [discriminate|]. intros z [= <-]. lia. }
    exists m. exact Hrun.
Defined.

Lemma sensor_tick_stores_one_row_per_sensor_witness :
  ∃ w' new,
    CollectionScheduler._collect_sensor_data fresh_world = Returns tt w'
    ∧ rows_of "environment_data" (store w') = new
    ∧ (λ row, dict_get row "sensor_id") <$> new
      = [PStr "SENSOR_001"; PStr "SENSOR_002"; PStr "SENSOR_003"]
    ∧ error_list w' = [].
Proof.
  destruct (sensor_tick_stores_one_row_per_sensor fresh_world empty_table)
    as (w' & new & Hrun & Hrows & Hids & _ & Herrors & _);
    [ intros k; vm_compute; reflexivity | vm_compute; reflexivity | constructor | ].
  exists w', new. split; [exact Hrun|]. split; [exact Hrows|].
  split; [exact Hids | exact Herrors].
Defined.

Lemma clamped_reading_is_in_range_witness :
  PrimFloat.leb 15 (CollectionScheduler.float_max 15 (CollectionScheduler.float_min 30 42.5))
  = true
  ∧ PrimFloat.leb (CollectionScheduler.float_max 15 (CollectionScheduler.float_min 30 42.5))
                  30 = true
  ∧ (Prim2SF 42.5 = S754_nan → PrimFloat.ltb 15 30 = true →
     CollectionScheduler.float_max 15 (CollectionScheduler.float_min 30 42.5) = 30%float).
Proof. apply (clamped_reading_is_in_range 15 30 42.5). reflexivity. Defined.

Lemma valid_intervals_never_reach_the_cpu_cap_witness :
  ∃ p x, CollectionConfig.get_performance_impact (BaseModel.data (cached fresh_world)) = Ok p
         ∧ estimatedCpuUsage p = PFloat x
         ∧ PrimFloat.leb 0.011 x = true ∧ PrimFloat.leb x 0.9 = true.
Proof.
  apply (valid_intervals_never_reach_the_cpu_cap (BaseModel.data (cached fresh_world)) 30 10);
    [vm_compute; reflexivity | vm_compute; reflexivity | lia | lia].
Defined.

Lemma record_status_validates_before_writing_witness :
  (∃ st', CollectionStatus.record_status true PNone PNone (PFloat 150) (PFloat 40) PNone
            empty_store
          = Raises (Exn ValidationError "cpu_usage 必须在 0-100 范围内") st'
          ∧ tables st' = tables empty_store ∧ statements st' = statements empty_store)
  ∧ (∃ st', CollectionStatus.record_status true PNone PNone PNone (PFloat (-1)) PNone
              empty_store
            = Raises (Exn ValidationError "memory_usage 不能为负数") st'
            ∧ tables st' = tables empty_store ∧ statements st' = statements empty_store).
Proof.
  split.
  - apply (record_status_validates_before_writing true PNone PNone PNone 150 40 empty_store).
    reflexivity.
  - apply (record_status_validates_before_writing true PNone PNone PNone 150 (-1)
             empty_store).
    reflexivity.
Defined.
